(** * Debt ledger of the expense-sharing server

    A shallow embedding of the split-expense and debt handlers
    (controllers/splitExpenseController.js, controllers/debtController.js,
    routes/debtRoutes.js, routes/splitExpenseRoutes.js, models/Debt.js,
    models/splitExpenseModel.js),
    and the properties of the debt ledger they maintain.

    JavaScript numbers are IEEE 754 binary64 values, embedded with the
    Standard Library's executable specification of binary floats.
    Strings are the bytes of their UTF-8 encoding.  An ObjectId is the
    string of its hexadecimal form, which is what the source compares
    through [toString()]; a string that a handler compares as it is
    spelled before Mongoose casts it is kept apart from the ObjectId it
    casts to.  Handlers run in a state-and-exception monad over the
    collections they write. *)

From Stdlib Require Import ZArith List String Ascii Bool Lia.
From Stdlib Require Import Floats.SpecFloat.
Import ListNotations.

Local Open Scope string_scope.
Local Open Scope list_scope.

(** ** JavaScript numbers *)

Module JsNumber.

Definition Number := spec_float.

Definition prec : Z := 53.
Definition emax : Z := 1024.

Definition NaN : Number := S754_nan.

(** The double nearest to an integer. *)
Definition of_Z (z : Z) : Number := binary_normalize prec emax z 0 false.

Definition div : Number -> Number -> Number := SFdiv prec emax.
Definition add : Number -> Number -> Number := SFadd prec emax.
Definition sub : Number -> Number -> Number := SFsub prec emax.
Definition abs : Number -> Number := SFabs.

Definition isNaN (x : Number) : bool :=
  match x with S754_nan => true | _ => false end.

(** Comparisons are false as soon as one side is NaN. *)
Definition ltb : Number -> Number -> bool := SFltb.
Definition leb : Number -> Number -> bool := SFleb.
Definition gtb (x y : Number) : bool := SFltb y x.
Definition geb (x y : Number) : bool := SFleb y x.

(** [!x] for a number: zero and NaN are falsy. *)
Definition falsy (x : Number) : bool :=
  match x with S754_zero _ | S754_nan => true | _ => false end.

(** The double denoted by a decimal literal with two fractional digits,
    [n / 100] correctly rounded (so [of_hundredths false 3333] is the
    literal 33.33). *)
Definition of_hundredths (neg : bool) (n : Z) : Number :=
  match n with
  | Z0 => S754_zero neg
  | Zpos p => SFdiv prec emax (S754_finite neg p 0) (of_Z 100)
  | Zneg _ => S754_nan
  end.

(** The result of [x.toFixed(2)]: either the digits of an integer count of
    hundredths with a sign, or, for non-finite and huge values, the
    ordinary [ToString(x)]. *)
Inductive Fixed : Type :=
| FixedDigits (neg : bool) (n : Z)
| FixedToString (x : Number).

(** The integer [n] for which [n / 100 - m * 2^e] is closest to zero, the
    larger one when there are two. *)
Definition hundredths (m : positive) (e : Z) : Z :=
  match e with
  | Zneg k => (200 * Zpos m + 2 ^ Zpos k) / 2 ^ (Zpos k + 1)
  | _ => 100 * Zpos m * 2 ^ e
  end.

Definition toFixed2 (x : Number) : Fixed :=
  match x with
  | S754_zero _ => FixedDigits false 0
  | S754_finite s m e =>
      if SFleb (of_Z (10 ^ 21)) (SFabs x) then FixedToString x
      else FixedDigits s (hundredths m e)
  | _ => FixedToString x
  end.

(** [parseFloat] of a string produced by [toFixed]; [ToString] round-trips. *)
Definition parseFloat_fixed (f : Fixed) : Number :=
  match f with
  | FixedDigits neg n => of_hundredths neg n
  | FixedToString x => x
  end.

(** [parseFloat(v)] of a request field that holds a JSON number or is
    absent: [parseFloat(undefined)] is NaN, and [-0] prints as "0". *)
Definition parseFloat (v : option Number) : Number :=
  match v with
  | None => NaN
  | Some (S754_zero _) => S754_zero false
  | Some x => x
  end.

End JsNumber.

Import JsNumber.

(** ** JavaScript strings and truthiness *)

Definition truthy (s : option string) : bool :=
  match s with
  | Some (String _ _) => true
  | _ => false
  end.

(** A string is held as the bytes of its UTF-8 encoding, so a character
    outside ASCII takes two to four bytes.  The white space that [trim]
    removes is ECMAScript's WhiteSpace and LineTerminator: the six ASCII
    characters below, U+00A0, U+1680, U+2000 to U+200A, U+2028, U+2029,
    U+202F, U+205F, U+3000 and U+FEFF. *)
Definition code (c : ascii) : N := N_of_ascii c.

Definition is_space (c : ascii) : bool :=
  ((9 <=? code c) && (code c <=? 13) || (code c =? 32))%N.

Definition is_space2 (c1 c2 : ascii) : bool :=
  ((code c1 =? 194) && (code c2 =? 160))%N.

Definition is_space3 (c1 c2 c3 : ascii) : bool :=
  ((code c1 =? 225) && (code c2 =? 154) && (code c3 =? 128)
   || (code c1 =? 226) && (code c2 =? 128)
      && ((128 <=? code c3) && (code c3 <=? 138)
          || (code c3 =? 168) || (code c3 =? 169) || (code c3 =? 175))
   || (code c1 =? 226) && (code c2 =? 129) && (code c3 =? 159)
   || (code c1 =? 227) && (code c2 =? 128) && (code c3 =? 128)
   || (code c1 =? 239) && (code c2 =? 187) && (code c3 =? 191))%N.

Fixpoint trimStart (s : string) : string :=
  match s with
  | EmptyString => EmptyString
  | String c1 r1 =>
      if is_space c1 then trimStart r1
      else
        match r1 with
        | EmptyString => s
        | String c2 r2 =>
            if is_space2 c1 c2 then trimStart r2
            else
              match r2 with
              | EmptyString => s
              | String c3 r3 =>
                  if is_space3 c1 c2 c3 then trimStart r3 else s
              end
        end
  end.

(** The rest of a string that starts with a white-space character. *)
Definition leading (s : string) : option string :=
  match s with
  | EmptyString => None
  | String c1 r1 =>
      if is_space c1 then Some r1
      else
        match r1 with
        | EmptyString => None
        | String c2 r2 =>
            if is_space2 c1 c2 then Some r2
            else
              match r2 with
              | EmptyString => None
              | String c3 r3 => if is_space3 c1 c2 c3 then Some r3 else None
              end
        end
  end.

(** The string is cut where all that follows is white space. *)
Fixpoint trimEnd (s : string) : string :=
  match s with
  | EmptyString => EmptyString
  | String c s' =>
      match trimStart s with
      | EmptyString => EmptyString
      | _ => String c (trimEnd s')
      end
  end.

(** [s.trim()] *)
Definition trim (s : string) : string := trimEnd (trimStart s).

(** [s.length], the number of UTF-16 code units: one for each character
    of one to three bytes, two for each character of four. *)
Fixpoint utf16_length (s : string) : nat :=
  match s with
  | EmptyString => 0
  | String c r =>
      (if ((128 <=? code c) && (code c <? 192))%N then 0
       else if (240 <=? code c)%N then 2
       else 1) + utf16_length r
  end.

(** [a || b] on optional strings. *)
Definition or_else (a b : option string) : option string :=
  if truthy a then a else b.

(** ** Documents *)

Definition Id := string.
Definition Date := Z.

(** What a handler holds where an ObjectId is expected: an ObjectId, whose
    string is its hexadecimal form, or a string that the handler also
    compares as it is spelled and that Mongoose casts when it is used in a
    query or stored.  A string of the request that is only ever cast stands
    for the ObjectId it casts to. *)
Inductive IdValue : Type :=
| Oid (id : Id)
| Str (s : string).

(** [v.toString()] *)
Definition toString (v : IdValue) : string :=
  match v with Oid id => id | Str s => s end.

Module User.
Record t : Type := mk
  { _id : Id; name : option string; email : option string }.
End User.

(** What [friend.friendUser] holds once the query has populated it: the
    user document, a bare id string, or nothing. *)
Inductive FriendUserRef : Type :=
| PopulatedUser (u : User.t)
| IdString (s : string)
| NoFriendUser.

Module Friend.
Record t : Type := mk
  { _id : Id;
    user : option Id;
    friendUser : FriendUserRef;
    userId : option string;
    name : option string;
    email : option string }.
End Friend.

Module Split.
(** One entry of [expense.splits]; the schema has no path for the [email]
    the controller passes along. *)
Record t : Type := mk
  { friendId : option string; amount : Number }.
End Split.

Inductive ExpenseStatus : Type := active | settled | cancelled_expense.

Module SplitExpense.
(** The paths of the split expense schema.  [splitType], [status] and
    [settledDate], which the controller assigns, are no paths of it: they
    are neither stored nor sent back. *)
Record t : Type := mk
  { _id : Id;
    description : string;
    totalAmount : Number;
    paidBy : Id;
    createdBy : Id;
    splits : list Split.t }.
End SplitExpense.

Inductive DebtStatus : Type := pending | paid | cancelled | disputed.
Inductive DebtType : Type := manual | split | loan.

Definition DebtStatus_eqb (a b : DebtStatus) : bool :=
  match a, b with
  | pending, pending | paid, paid | cancelled, cancelled
  | disputed, disputed => true
  | _, _ => false
  end.

Module DebtMetadata.
Record t : Type := mk
  { splitExpenseId : Id;
    category : string;
    originalAmount : Number;
    splitType : string;
    notes : string }.
End DebtMetadata.

Module Debt.
Record t : Type := mk
  { _id : Id;
    creditor : Id;
    debtor : Id;
    amount : Number;
    description : string;
    status : DebtStatus;
    type : DebtType;
    relatedExpenseId : option Id;
    dueDate : option Date;
    paidAt : option Date;
    paymentMethod : option string;
    metadata : option DebtMetadata.t;
    createdAt : Date;
    updatedAt : Date }.

Definition set_status (s : DebtStatus) (d : t) : t :=
  mk (_id d) (creditor d) (debtor d) (amount d) (description d) s (type d)
     (relatedExpenseId d) (dueDate d) (paidAt d) (paymentMethod d)
     (metadata d) (createdAt d) (updatedAt d).

Definition set_paidAt (p : option Date) (d : t) : t :=
  mk (_id d) (creditor d) (debtor d) (amount d) (description d) (status d)
     (type d) (relatedExpenseId d) (dueDate d) p (paymentMethod d)
     (metadata d) (createdAt d) (updatedAt d).

Definition set_paymentMethod (p : option string) (d : t) : t :=
  mk (_id d) (creditor d) (debtor d) (amount d) (description d) (status d)
     (type d) (relatedExpenseId d) (dueDate d) (paidAt d) p
     (metadata d) (createdAt d) (updatedAt d).

Definition set_updatedAt (u : Date) (d : t) : t :=
  mk (_id d) (creditor d) (debtor d) (amount d) (description d) (status d)
     (type d) (relatedExpenseId d) (dueDate d) (paidAt d) (paymentMethod d)
     (metadata d) (createdAt d) u.
End Debt.

Module Notification.
(** The notification of a new split expense.  The template strings of the
    source are kept as their parts: [message] is payer name, description
    and the share printed by [toFixed(2)]. *)
Record t : Type := mk
  { _id : Id;
    userId : Id;
    senderId : Id;
    type : string;
    title : string;
    message : string * string * Fixed;
    relatedId : Id;
    relatedModel : string;
    data_amount : Number;
    data_totalAmount : Number;
    priority : string;
    actionUrl : string * Id;
    read : bool }.
End Notification.

(** ** The collections and the persistence layer *)

Record Store : Type := mkStore
  { expenses : list SplitExpense.t;
    debts : list Debt.t;
    notifications : list Notification.t;
    generated : nat }.

(** Calls into the persistence layer that may be rejected. *)
Inductive DbOp : Type :=
| FindFriend (friendId userId : Id)
| FindUser (id : Id)
| FindDebt (id : Id)
| FindExpense (id : Id)
| SaveExpense (e : SplitExpense.t)
| SaveDebt (d : Debt.t)
| SaveNotification (n : Notification.t)
| UpdateManyDebts (expenseId : Id)
| PopulateExpense (id : Id)
| PopulateDebt (id : Id).

(** What Mongoose itself throws: a document that fails its schema, a value
    that is no ObjectId. *)
Inductive MongooseError : Type :=
| InvalidExpense (e : SplitExpense.t)
| InvalidDebt (d : Debt.t)
| InvalidNotification (n : Notification.t)
| CastError (value : string).

(** The collaborators of the handlers: the friend and user collections
    (only read here); which strings cast to an ObjectId, the hexadecimal
    string of the ObjectId such a string casts to, and the generation of
    ObjectIds; the failures of the persistence layer; the message of a
    Mongoose error; and the NODE_ENV switch. *)
Record World : Type := mkWorld
  { friendsOf : Id -> Id -> option Friend.t;
    userById : Id -> option User.t;
    ObjectId_isValid : string -> bool;
    ObjectId_hex : string -> Id;
    ObjectId_new : nat -> Id;
    db_fault : DbOp -> option string;
    error_message : MongooseError -> string;
    development : bool }.

(** ** Handlers as computations: state and exceptions *)

Inductive Outcome (A : Type) : Type :=
| Return (a : A)
| Throw (err : string).
Arguments Return {A} a.
Arguments Throw {A} err.

Definition M (A : Type) : Type := Store -> Store * Outcome A.

Definition ret {A} (a : A) : M A := fun st => (st, Return a).
Definition throw {A} (err : string) : M A := fun st => (st, Throw err).

Definition bind {A B} (m : M A) (k : A -> M B) : M B :=
  fun st =>
    match m st with
    | (st', Return a) => k a st'
    | (st', Throw e) => (st', Throw e)
    end.

(** [try { m } catch (e) { h e }]: what [m] wrote before throwing stays. *)
Definition try_catch {A} (m : M A) (h : string -> M A) : M A :=
  fun st =>
    match m st with
    | (st', Return a) => (st', Return a)
    | (st', Throw e) => h e st'
    end.

Definition get : M Store := fun st => (st, Return st).

Declare Scope js_scope.
Delimit Scope js_scope with js.
Notation "x <- m ;; k" := (bind m (fun x => k))
  (at level 61, m at next level, right associativity) : js_scope.
Notation "m ;;; k" := (bind m (fun _ => k))
  (at level 61, right associativity) : js_scope.
Local Open Scope js_scope.

(** A call that fails when the persistence layer rejects it. *)
Definition db {A} (w : World) (op : DbOp) (a : A) : M A :=
  match db_fault w op with
  | Some e => throw e
  | None => ret a
  end.

Definition newObjectId (w : World) : M Id :=
  fun st =>
    (mkStore (expenses st) (debts st) (notifications st) (S (generated st)),
     Return (ObjectId_new w (generated st))).

Definition modify (f : Store -> Store) : M unit :=
  fun st => (f st, Return tt).

(** A handler answers exactly once: the value of its body, or what its
    outer [catch] sends. *)
Definition respond {R} (body : M R) (onError : string -> R)
  : Store -> Store * R :=
  fun st =>
    match body st with
    | (st', Return r) => (st', r)
    | (st', Throw e) => (st', onError e)
    end.

(** ** Schemas (models/splitExpenseModel.js, models/Debt.js) *)

Definition splitSchema_valid (w : World) (s : Split.t) : bool :=
  match Split.friendId s with
  | Some f => ObjectId_isValid w f
  | None => false
  end
  && negb (isNaN (Split.amount s))
  && geb (Split.amount s) (of_Z 0).

Definition splitExpenseSchema_valid (w : World) (e : SplitExpense.t) : bool :=
  ObjectId_isValid w (SplitExpense.createdBy e)
  && ObjectId_isValid w (SplitExpense.paidBy e)
  && negb (SplitExpense.description e =? "")
  && negb (isNaN (SplitExpense.totalAmount e))
  && geb (SplitExpense.totalAmount e) (of_Z 0)
  && negb (Nat.eqb (List.length (SplitExpense.splits e)) 0)
  && forallb (splitSchema_valid w) (SplitExpense.splits e).

Definition paymentMethods : list string :=
  ["cash"; "bank_transfer"; "upi"; "credit_card"; "other"].

Definition mem (s : string) (l : list string) : bool :=
  existsb (String.eqb s) l.

Definition paymentMethod_valid (d : Debt.t) : bool :=
  match Debt.paymentMethod d with
  | None => true
  | Some p => mem p paymentMethods
  end.

Definition debtSchema_valid (w : World) (d : Debt.t) : bool :=
  ObjectId_isValid w (Debt.creditor d)
  && ObjectId_isValid w (Debt.debtor d)
  && negb (isNaN (Debt.amount d))
  && geb (Debt.amount d) (of_hundredths false 1)
  && gtb (Debt.amount d) (of_Z 0)
  && negb (Debt.description d =? "")
  && Nat.leb (utf16_length (Debt.description d)) 500
  && paymentMethod_valid d.

(** The ObjectId a value is cast to; a string that is no ObjectId is left
    as it is and fails the schema. *)
Definition idOf (w : World) (v : IdValue) : Id :=
  match v with
  | Oid id => id
  | Str s => if ObjectId_isValid w s then ObjectId_hex w s else s
  end.

(** The cast of a query: it throws where the schema would fail. *)
Definition castObjectId (w : World) (v : IdValue) : M Id :=
  match v with
  | Oid id => ret id
  | Str s =>
      if ObjectId_isValid w s then ret (ObjectId_hex w s)
      else throw (error_message w (CastError s))
  end.

(** [new SplitExpense(doc).save()] *)
Definition SplitExpense_create (w : World) (e : SplitExpense.t) : M unit :=
  if splitExpenseSchema_valid w e then
    db w (SaveExpense e) tt ;;;
    modify (fun st => mkStore (expenses st ++ [e]) (debts st)
                              (notifications st) (generated st))
  else throw (error_message w (InvalidExpense e)).

(** [expense.save()] on a loaded document.  What the handler assigns
    before it, [status] and [settledDate], are no paths of the schema, so
    nothing is written; the call can still be rejected. *)
Definition SplitExpense_save (w : World) (e : SplitExpense.t) : M unit :=
  db w (SaveExpense e) tt.

(** [new Debt(doc)]: a fresh [_id], the cast of [creditor] and [debtor],
    the [trim] setter of [description]. *)
Definition Debt_new (w : World) (now : Date)
    (creditor debtor : IdValue) (amount : Number) (description : string)
    (ty : DebtType) (related : option Id) (due : option Date)
    (meta : option DebtMetadata.t) : M Debt.t :=
  id <- newObjectId w ;;
  ret (Debt.mk id (idOf w creditor) (idOf w debtor) amount
               (trim description) pending ty related due None None meta
               now now).

(** [debt.save()] on a new document; the pre-save hook stamps [updatedAt]. *)
Definition Debt_create (w : World) (now : Date) (d : Debt.t) : M Debt.t :=
  let d' := Debt.set_updatedAt now d in
  if debtSchema_valid w d' then
    db w (SaveDebt d') tt ;;;
    modify (fun st => mkStore (expenses st) (debts st ++ [d'])
                              (notifications st) (generated st)) ;;;
    ret d'
  else throw (error_message w (InvalidDebt d')).

Fixpoint findDebt (id : Id) (l : list Debt.t) : option Debt.t :=
  match l with
  | [] => None
  | d :: rest => if Debt._id d =? id then Some d else findDebt id rest
  end.

Fixpoint replaceDebt (d : Debt.t) (l : list Debt.t) : list Debt.t :=
  match l with
  | [] => []
  | x :: rest =>
      if Debt._id x =? Debt._id d then d :: rest
      else x :: replaceDebt d rest
  end.

(** [Debt.findById(id)]; every caller has checked that [id] is an
    ObjectId. *)
Definition Debt_findById (w : World) (id : Id) : M (option Debt.t) :=
  st <- get ;; db w (FindDebt id) (findDebt id (debts st)).

(** [debt.save()] on a loaded document: the pre-save hook stamps
    [updatedAt], and every path of the document is validated again,
    whether or not the handler assigned it. *)
Definition Debt_save (w : World) (now : Date) (d : Debt.t) : M Debt.t :=
  let d' := Debt.set_updatedAt now d in
  if debtSchema_valid w d' then
    db w (SaveDebt d') tt ;;;
    modify (fun st => mkStore (expenses st) (replaceDebt d' (debts st))
                              (notifications st) (generated st)) ;;;
    ret d'
  else throw (error_message w (InvalidDebt d')).

(** [notification.save()]; the controller's constants satisfy the enums of
    the notification schema, the two user ids must be ObjectIds. *)
Definition Notification_create (w : World) (n : Notification.t) : M unit :=
  if ObjectId_isValid w (Notification.userId n)
     && ObjectId_isValid w (Notification.senderId n)
  then
    db w (SaveNotification n) tt ;;;
    modify (fun st => mkStore (expenses st) (debts st)
                              (notifications st ++ [n]) (generated st))
  else throw (error_message w (InvalidNotification n)).

(** [Friend.findOne({ _id: friendId, user: userId, status: 'active' })];
    the query casts [friendId] and throws when it is no ObjectId. *)
Definition Friend_findOne (w : World) (friendId userId : Id)
  : M (option Friend.t) :=
  if ObjectId_isValid w friendId then
    db w (FindFriend friendId userId) (friendsOf w friendId userId)
  else throw (error_message w (CastError friendId)).

(** [User.findById(id)]; the query casts [id]. *)
Definition User_findById (w : World) (v : IdValue) : M (option User.t) :=
  id <- castObjectId w v ;;
  db w (FindUser id) (userById w id).

(** ** Responses *)

Module Response.
Record DebtError : Type := mkDebtError
  { de_friendId : option string; de_error : string }.

Record NotificationError : Type := mkNotificationError
  { ne_friendId : option string; ne_userId : option Id; ne_error : string }.

Record Summary : Type := mkSummary
  { debtsCreated : nat;
    notificationsSent : nat;
    totalAmount : Number;
    splits : nat }.

Record Warnings : Type := mkWarnings
  { debtErrors : option (list DebtError);
    notificationErrors : option (list NotificationError) }.

Inductive Body : Type :=
| NoBody
| Error (error : string)
| CreatedSplit (expense : SplitExpense.t) (summary : Summary)
               (warnings : Warnings)
| ExpenseBody (expense : SplitExpense.t)
| DebtBody (data : Debt.t).

Record t : Type := mk
  { status : nat; success : bool; message : string; body : Body }.
End Response.

(** [arr.length > 0 ? arr : undefined] *)
Definition nonempty {A} (l : list A) : option (list A) :=
  match l with [] => None | _ => Some l end.

(** ** controllers/splitExpenseController.js *)

Module SplitInput.
(** One entry of [req.body.splits]. *)
Record t : Type := mk
  { friendId : option string;
    email : option string;
    amount : option Number }.
End SplitInput.

Module ValidatedSplit.
Record t : Type := mk
  { friendId : option string;
    userId : option Id;
    amount : Number;
    name : option string;
    email : option string }.

Definition set_amount (a : Number) (v : t) : t :=
  mk (friendId v) (userId v) a (name v) (email v).
End ValidatedSplit.

Module CreateSplitRequest.
Record t : Type := mk
  { user_id : Id;
    description : option string;
    totalAmount : option Number;
    paidBy : option string;
    splits : option (list SplitInput.t);
    splitType : option string }.
End CreateSplitRequest.

Module SplitExpenseController.

(** The three ways of reading the friend's user id off a Friend document.
    A populated [friendUser] carries an ObjectId, which is always truthy;
    the other two ways give a string.  When no method applies the split is
    skipped, whether or not [friend.user] is the current user. *)
Definition extractUserId (userId : Id) (friend : Friend.t)
  : option IdValue :=
  match Friend.friendUser friend with
  | PopulatedUser u => Some (Oid (User._id u))
  | IdString (String c s) => Some (Str (String c s))
  | _ =>
      match Friend.userId friend with
      | Some (String c s) => Some (Str (String c s))
      | _ => None
      end
  end.

(** One round of the validation loop: [None] is [continue].  The map
    [friendUserMap] the source also fills is only ever logged.  The
    participant is kept as the string of its id; a string read off the
    Friend document has passed the cast of [User.findById] by then and is
    taken to be spelled as the ObjectId it casts to. *)
Definition resolveSplit (w : World) (userId : Id) (s : SplitInput.t)
  : M (option ValidatedSplit.t) :=
  match SplitInput.friendId s with
  | Some (String c f) =>
      let friendId := String c f in
      friend <- Friend_findOne w friendId userId ;;
      match friend with
      | None => ret None
      | Some friend =>
          match extractUserId userId friend with
          | None => ret None
          | Some actualUserId =>
              userExists <- User_findById w actualUserId ;;
              match userExists with
              | None => ret None
              | Some u =>
                  ret (Some (ValidatedSplit.mk
                               (Some friendId)
                               (Some (toString actualUserId))
                               (parseFloat (SplitInput.amount s))
                               (or_else (Friend.name friend) (User.name u))
                               (or_else (Friend.email friend) (User.email u))))
              end
          end
      end
  | _ =>
      if truthy (SplitInput.email s) then
        ret (Some (ValidatedSplit.mk None None
                     (parseFloat (SplitInput.amount s))
                     None (SplitInput.email s)))
      else ret None
  end.

Fixpoint validateSplits (w : World) (userId : Id) (l : list SplitInput.t)
  : M (list ValidatedSplit.t) :=
  match l with
  | [] => ret []
  | s :: rest =>
      r <- resolveSplit w userId s ;;
      vs <- validateSplits w userId rest ;;
      ret (match r with Some v => v :: vs | None => vs end)
  end.

(** [parseFloat((numTotalAmount / totalPeople).toFixed(2))] *)
Definition amountPerPerson (numTotalAmount : Number) (totalPeople : nat)
  : Number :=
  parseFloat_fixed
    (toFixed2 (div numTotalAmount (of_Z (Z.of_nat totalPeople)))).

Definition applySplitType (splitType : string) (numTotalAmount : Number)
    (validatedSplits : list ValidatedSplit.t) : list ValidatedSplit.t :=
  if splitType =? "equal" then
    let totalPeople := List.length validatedSplits + 1 in
    List.map (ValidatedSplit.set_amount
                (amountPerPerson numTotalAmount totalPeople))
             validatedSplits
  else validatedSplits.

(** [paidBy && paidBy !== 'self' ? paidBy : userId]: the string of the
    request, or the requester's ObjectId. *)
Definition payerOf (paidBy : option string) (userId : Id) : IdValue :=
  match paidBy with
  | Some (String c s) =>
      if String c s =? "self" then Oid userId else Str (String c s)
  | _ => Oid userId
  end.

(** Creditor and debtor of the debt of one participant; the three tests
    compare [toString()] with [toString()]. *)
Definition debtDirection (paidByUserId : IdValue) (userId participant : Id)
  : IdValue * IdValue :=
  if toString paidByUserId =? userId then (Oid userId, Oid participant)
  else if toString paidByUserId =? participant
       then (Oid participant, Oid userId)
       else (paidByUserId, Oid participant).

Inductive Attempt (A E : Type) : Type :=
| Skipped
| Done (a : A)
| Failed (e : E).
Arguments Skipped {A E}.
Arguments Done {A E} a.
Arguments Failed {A E} e.

(** One round of the debt loop, with its own [try]/[catch]. *)
Definition createDebtFor (w : World) (now : Date) (userId : Id)
    (paidByUserId : IdValue)
    (description splitType : string) (numTotalAmount : Number)
    (expense : SplitExpense.t) (s : ValidatedSplit.t)
  : M (Attempt Debt.t Response.DebtError) :=
  try_catch
    (match ValidatedSplit.userId s with
     | None => ret Skipped
     | Some participant =>
         let '(creditor, debtor) :=
           debtDirection paidByUserId userId participant in
         debt <- Debt_new w now creditor debtor (ValidatedSplit.amount s)
                   ("Split: " ++ trim description) split
                   (Some (SplitExpense._id expense)) None
                   (Some (DebtMetadata.mk (SplitExpense._id expense)
                            "split_expense" numTotalAmount splitType
                            ("From split expense: " ++ trim description))) ;;
         saved <- Debt_create w now debt ;;
         ret (Done saved)
     end)
    (fun err =>
       ret (Failed (Response.mkDebtError (ValidatedSplit.friendId s) err))).

Fixpoint createDebts (w : World) (now : Date) (userId : Id)
    (paidByUserId : IdValue)
    (description splitType : string) (numTotalAmount : Number)
    (expense : SplitExpense.t) (l : list ValidatedSplit.t)
  : M (list Debt.t * list Response.DebtError) :=
  match l with
  | [] => ret ([], [])
  | s :: rest =>
      r <- createDebtFor w now userId paidByUserId description splitType
             numTotalAmount expense s ;;
      acc <- createDebts w now userId paidByUserId description splitType
               numTotalAmount expense rest ;;
      ret (match r with
           | Skipped => acc
           | Done d => (d :: fst acc, snd acc)
           | Failed e => (fst acc, e :: snd acc)
           end)
  end.

(** One round of the notification loop, with its own [try]/[catch]. *)
Definition notifyFor (w : World) (userId : Id) (payerName description : string)
    (numTotalAmount : Number) (expense : SplitExpense.t)
    (s : ValidatedSplit.t)
  : M (Attempt Notification.t Response.NotificationError) :=
  try_catch
    (match ValidatedSplit.userId s with
     | None => ret Skipped
     | Some participant =>
         if participant =? userId then ret Skipped
         else
           id <- newObjectId w ;;
           let n :=
             Notification.mk id participant userId "expense_created"
               "💰 New Split Expense"
               (payerName, trim description,
                toFixed2 (ValidatedSplit.amount s))
               (SplitExpense._id expense) "SplitExpense"
               (ValidatedSplit.amount s) numTotalAmount "normal"
               ("/expenses/", SplitExpense._id expense) false in
           Notification_create w n ;;;
           ret (Done n)
     end)
    (fun err =>
       ret (Failed (Response.mkNotificationError
                      (ValidatedSplit.friendId s)
                      (ValidatedSplit.userId s) err))).

Fixpoint sendNotifications (w : World) (userId : Id)
    (payerName description : string) (numTotalAmount : Number)
    (expense : SplitExpense.t) (l : list ValidatedSplit.t)
  : M (list Notification.t * list Response.NotificationError) :=
  match l with
  | [] => ret ([], [])
  | s :: rest =>
      r <- notifyFor w userId payerName description numTotalAmount
             expense s ;;
      acc <- sendNotifications w userId payerName description
               numTotalAmount expense rest ;;
      ret (match r with
           | Skipped => acc
           | Done n => (n :: fst acc, snd acc)
           | Failed e => (fst acc, e :: snd acc)
           end)
  end.

Definition missingFields : Response.t :=
  Response.mk 400 false
    "Missing required fields: description, totalAmount, and splits are required"
    Response.NoBody.

Definition notPositive : Response.t :=
  Response.mk 400 false "Total amount must be a positive number"
    Response.NoBody.

Definition noValidFriends : Response.t :=
  Response.mk 400 false "No valid friends found for this expense"
    Response.NoBody.

Definition createFailed (w : World) (err : string) : Response.t :=
  Response.mk 500 false "Failed to create split expense"
    (Response.Error
       (if development w then err else "Internal server error")).

(** What remains of the handler once the request passed the checks on its
    fields; [splitType] has its default. *)
Definition createValidated (w : World) (now : Date) (userId : Id)
    (description : string) (numTotalAmount : Number)
    (paidBy : option string) (splits : list SplitInput.t)
    (splitType : string) : M Response.t :=
  validatedSplits <- validateSplits w userId splits ;;
  match validatedSplits with
  | [] => ret noValidFriends
  | _ :: _ =>
      let validatedSplits :=
        applySplitType splitType numTotalAmount validatedSplits in
      let paidByUserId := payerOf paidBy userId in
      payer <- User_findById w paidByUserId ;;
      let payerName :=
        match payer with
        | Some (User.mk _ (Some (String c n)) _) => String c n
        | _ => "Someone"
        end in
      id <- newObjectId w ;;
      let expense :=
        SplitExpense.mk id (trim description) numTotalAmount
          (idOf w paidByUserId) userId
          (List.map (fun s => Split.mk (ValidatedSplit.friendId s)
                                       (ValidatedSplit.amount s))
                    validatedSplits) in
      SplitExpense_create w expense ;;;
      ds <- createDebts w now userId paidByUserId description splitType
              numTotalAmount expense validatedSplits ;;
      ns <- sendNotifications w userId payerName description numTotalAmount
              expense validatedSplits ;;
      populated <- db w (PopulateExpense (SplitExpense._id expense)) expense ;;
      ret (Response.mk 201 true "Split expense created successfully"
             (Response.CreatedSplit populated
                (Response.mkSummary (List.length (fst ds))
                   (List.length (fst ns)) numTotalAmount
                   (List.length validatedSplits))
                (Response.mkWarnings (nonempty (snd ds))
                   (nonempty (snd ns)))))
  end.

(** [!description || !totalAmount || !splits || splits.length === 0] *)
Definition missingRequired (req : CreateSplitRequest.t) : bool :=
  negb (truthy (CreateSplitRequest.description req))
  || match CreateSplitRequest.totalAmount req with
     | Some t => falsy t
     | None => true
     end
  || match CreateSplitRequest.splits req with
     | Some (_ :: _) => false
     | _ => true
     end.

(** [splitType = 'equal'] in the destructuring of the body. *)
Definition splitTypeOf (req : CreateSplitRequest.t) : string :=
  match CreateSplitRequest.splitType req with
  | Some t => t
  | None => "equal"
  end.

Definition descriptionOf (req : CreateSplitRequest.t) : string :=
  match CreateSplitRequest.description req with
  | Some d => d
  | None => ""
  end.

Definition splitsOfRequest (req : CreateSplitRequest.t) : list SplitInput.t :=
  match CreateSplitRequest.splits req with
  | Some l => l
  | None => []
  end.

Definition createSplitExpense (w : World) (now : Date)
    (req : CreateSplitRequest.t) : Store -> Store * Response.t :=
  respond
    (let userId := CreateSplitRequest.user_id req in
     if missingRequired req then ret missingFields
     else
       let numTotalAmount := parseFloat (CreateSplitRequest.totalAmount req) in
       if isNaN numTotalAmount || leb numTotalAmount (of_Z 0)
       then ret notPositive
       else
         createValidated w now userId (descriptionOf req) numTotalAmount
           (CreateSplitRequest.paidBy req) (splitsOfRequest req)
           (splitTypeOf req))
    (createFailed w).

(** *** updateSplitExpenseStatus *)

Definition parseStatus (status : option string) : option ExpenseStatus :=
  match status with
  | Some s =>
      if s =? "active" then Some active
      else if s =? "settled" then Some settled
      else if s =? "cancelled" then Some cancelled_expense
      else None
  | None => None
  end.

Fixpoint findExpense (id : Id) (l : list SplitExpense.t)
  : option SplitExpense.t :=
  match l with
  | [] => None
  | e :: rest =>
      if SplitExpense._id e =? id then Some e else findExpense id rest
  end.

(** [SplitExpense.findById(expenseId)]; an id that is no ObjectId makes
    the query throw. *)
Definition SplitExpense_findById (w : World) (id : Id)
  : M (option SplitExpense.t) :=
  if ObjectId_isValid w id then
    st <- get ;; db w (FindExpense id) (findExpense id (expenses st))
  else throw (error_message w (CastError id)).

Definition linkedPending (expenseId : Id) (d : Debt.t) : bool :=
  match Debt.relatedExpenseId d with
  | Some r => r =? expenseId
  | None => false
  end && DebtStatus_eqb (Debt.status d) pending.

(** The update of [Debt.updateMany] on one document. *)
Definition cascadeOne (expenseId : Id) (toSettled : bool) (now : Date)
    (d : Debt.t) : Debt.t :=
  if linkedPending expenseId d then
    Debt.set_updatedAt now
      (Debt.set_paidAt (if toSettled then Some now else None)
         (Debt.set_status (if toSettled then paid else cancelled) d))
  else d.

Definition Debt_updateMany (w : World) (expenseId : Id) (toSettled : bool)
    (now : Date) : M unit :=
  db w (UpdateManyDebts expenseId) tt ;;;
  modify (fun st =>
            mkStore (expenses st)
                    (List.map (cascadeOne expenseId toSettled now) (debts st))
                    (notifications st) (generated st)).

Module UpdateStatusRequest.
Record t : Type := mk
  { user_id : Id; expenseId : Id; status : option string }.
End UpdateStatusRequest.

Definition updateSplitExpenseStatus (w : World) (now : Date)
    (req : UpdateStatusRequest.t) : Store -> Store * Response.t :=
  respond
    (let userId := UpdateStatusRequest.user_id req in
     let expenseId := UpdateStatusRequest.expenseId req in
     match parseStatus (UpdateStatusRequest.status req) with
     | None => ret (Response.mk 400 false "Invalid status" Response.NoBody)
     | Some status =>
         found <- SplitExpense_findById w expenseId ;;
         match found with
         | None =>
             ret (Response.mk 404 false "Expense not found" Response.NoBody)
         | Some expense =>
             let hasPermission :=
               (SplitExpense.createdBy expense =? userId)
               || (SplitExpense.paidBy expense =? userId) in
             if negb hasPermission then
               ret (Response.mk 403 false
                      "Not authorized to update this expense"
                      Response.NoBody)
             else
               match status with
               | settled => Debt_updateMany w expenseId true now
               | cancelled_expense => Debt_updateMany w expenseId false now
               | active => ret tt
               end ;;;
               SplitExpense_save w expense ;;;
               populated <-
                 db w (PopulateExpense (SplitExpense._id expense)) expense ;;
               ret (Response.mk 200 true
                      "Expense status updated successfully"
                      (Response.ExpenseBody populated))
         end
     end)
    (fun err =>
       Response.mk 500 false "Failed to update expense status"
         (Response.Error err)).

End SplitExpenseController.

(** ** controllers/debtController.js *)

Module DebtController.

Module MarkPaidRequest.
Record t : Type := mk
  { user_id : Id; debtId : string; paymentMethod : option string }.
End MarkPaidRequest.

Definition alreadyPaid : Response.t :=
  Response.mk 400 false "This debt is already marked as paid"
    Response.NoBody.

Definition markDebtAsPaid (w : World) (now : Date)
    (req : MarkPaidRequest.t) : Store -> Store * Response.t :=
  respond
    (let userId := MarkPaidRequest.user_id req in
     let debtId := MarkPaidRequest.debtId req in
     if negb (ObjectId_isValid w debtId) then
       ret (Response.mk 400 false "Invalid debt ID format" Response.NoBody)
     else
       found <- Debt_findById w debtId ;;
       match found with
       | None => ret (Response.mk 404 false "Debt not found" Response.NoBody)
       | Some debt =>
           if negb (Debt.debtor debt =? userId) then
             ret (Response.mk 403 false
                    "You are not authorized to mark this debt as paid"
                    Response.NoBody)
           else if DebtStatus_eqb (Debt.status debt) paid then
             ret alreadyPaid
           else
             let debt := Debt.set_status paid debt in
             let debt := Debt.set_paidAt (Some now) debt in
             let debt :=
               if truthy (MarkPaidRequest.paymentMethod req)
               then Debt.set_paymentMethod
                      (MarkPaidRequest.paymentMethod req) debt
               else debt in
             saved <- Debt_save w now debt ;;
             ret (Response.mk 200 true "Debt marked as paid successfully"
                    (Response.DebtBody saved))
       end)
    (fun err =>
       Response.mk 500 false "Failed to mark debt as paid"
         (Response.Error err)).

Module ManualDebtRequest.
Record t : Type := mk
  { user_id : Id;
    debtorId : option string;
    amount : option Number;
    description : option string;
    dueDate : option Date }.
End ManualDebtRequest.

Definition createManualDebt (w : World) (now : Date)
    (req : ManualDebtRequest.t) : Store -> Store * Response.t :=
  respond
    (let creditorId := ManualDebtRequest.user_id req in
     match ManualDebtRequest.debtorId req with
     | None => ret (Response.mk 400 false "Invalid debtor ID" Response.NoBody)
     | Some debtorId =>
         if negb (ObjectId_isValid w debtorId) then
           ret (Response.mk 400 false "Invalid debtor ID" Response.NoBody)
         else
           debt <- Debt_new w now (Oid creditorId) (Oid debtorId)
                     (parseFloat (ManualDebtRequest.amount req))
                     (match ManualDebtRequest.description req with
                      | Some d => d
                      | None => ""
                      end)
                     manual None (ManualDebtRequest.dueDate req) None ;;
           saved <- Debt_create w now debt ;;
           populated <- db w (PopulateDebt (Debt._id saved)) saved ;;
           ret (Response.mk 201 true "Debt created successfully"
                  (Response.DebtBody populated))
     end)
    (fun err =>
       Response.mk 500 false "Failed to create debt" (Response.Error err)).

End DebtController.

(** ** routes/debtRoutes.js *)

Module DebtRoutes.

Module CancelRequest.
Record t : Type := mk { user_id : Id; id : string }.
End CancelRequest.

(** [router.delete('/:id')], "cancel debt".  The query populates
    [creditor], so the handler reads the id off the creditor's user
    document.  The notification it then tries to create names the related
    model 'Debt', which the enum of the notification schema rejects; that
    failure is caught and ignored, so nothing is stored for it. *)
Definition cancelDebt (w : World) (now : Date) (req : CancelRequest.t)
  : Store -> Store * Response.t :=
  respond
    (let id := CancelRequest.id req in
     if negb (ObjectId_isValid w id) then
       ret (Response.mk 400 false "Invalid debt ID format" Response.NoBody)
     else
       found <- Debt_findById w id ;;
       match found with
       | None => ret (Response.mk 404 false "Debt not found" Response.NoBody)
       | Some debt =>
           match userById w (Debt.creditor debt) with
           | None => throw "Cannot read properties of null (reading '_id')"
           | Some creditor =>
               if negb (User._id creditor =? CancelRequest.user_id req) then
                 ret (Response.mk 403 false
                        "Only the creditor can cancel this debt"
                        Response.NoBody)
               else
                 Debt_save w now (Debt.set_status cancelled debt) ;;;
                 ret (Response.mk 200 true "Debt cancelled successfully"
                        Response.NoBody)
           end
       end)
    (fun err =>
       Response.mk 500 false "Failed to cancel debt"
         (if development w then Response.Error err else Response.NoBody)).

End DebtRoutes.

(** ** Further calls into the persistence layer *)

(** The queries of the handlers below that [DbOp] does not name. *)
Inductive DbQuery : Type :=
| FindDebtsByDebtor (userId : Id)
| FindDebtsByCreditor (userId : Id)
| FindDebtsBetween (user1 user2 : Id)
| DeleteDebt (id : Id)
| DeleteExpense (id : Id)
| FindUserByEmail (email : string).

(** A world together with the lookup of users by address, the failures
    of these queries, and [String.prototype.toLowerCase]. *)
Record Backend : Type := mkBackend
  { world : World;
    userByEmail : string -> option User.t;
    query_fault : DbQuery -> option string;
    toLowerCase : string -> string }.

Definition query {A} (b : Backend) (q : DbQuery) (a : A) : M A :=
  match query_fault b q with
  | Some e => throw e
  | None => ret a
  end.

(** Setters of the remaining paths a handler assigns. *)
Definition Debt_set_amount (a : Number) (d : Debt.t) : Debt.t :=
  Debt.mk (Debt._id d) (Debt.creditor d) (Debt.debtor d) a
    (Debt.description d) (Debt.status d) (Debt.type d)
    (Debt.relatedExpenseId d) (Debt.dueDate d) (Debt.paidAt d)
    (Debt.paymentMethod d) (Debt.metadata d) (Debt.createdAt d)
    (Debt.updatedAt d).

Definition Debt_set_description (s : string) (d : Debt.t) : Debt.t :=
  Debt.mk (Debt._id d) (Debt.creditor d) (Debt.debtor d) (Debt.amount d)
    (trim s) (Debt.status d) (Debt.type d)
    (Debt.relatedExpenseId d) (Debt.dueDate d) (Debt.paidAt d)
    (Debt.paymentMethod d) (Debt.metadata d) (Debt.createdAt d)
    (Debt.updatedAt d).

Definition Debt_set_dueDate (due : option Date) (d : Debt.t) : Debt.t :=
  Debt.mk (Debt._id d) (Debt.creditor d) (Debt.debtor d) (Debt.amount d)
    (Debt.description d) (Debt.status d) (Debt.type d)
    (Debt.relatedExpenseId d) due (Debt.paidAt d)
    (Debt.paymentMethod d) (Debt.metadata d) (Debt.createdAt d)
    (Debt.updatedAt d).

Fixpoint removeDebt (id : Id) (l : list Debt.t) : list Debt.t :=
  match l with
  | [] => []
  | d :: rest => if Debt._id d =? id then rest else d :: removeDebt id rest
  end.

Fixpoint removeExpense (id : Id) (l : list SplitExpense.t)
  : list SplitExpense.t :=
  match l with
  | [] => []
  | e :: rest =>
      if SplitExpense._id e =? id then rest else e :: removeExpense id rest
  end.

(** ** models/Debt.js: the virtual and the statics *)

Module DebtModel.

(** The virtual [isOverdue], read at time [now]. *)
Definition isOverdue (now : Date) (d : Debt.t) : bool :=
  match Debt.dueDate d with
  | None => false
  | Some due =>
      if negb (DebtStatus_eqb (Debt.status d) pending) then false
      else Z.ltb due now
  end.

Record Balance : Type := mkBalance
  { balance : Number; owedToUser1 : Number; owedByUser1 : Number }.

(** The filter of [getBalanceBetweenUsers]: pending, and between the two. *)
Definition pendingBetween (user1Id user2Id : Id) (d : Debt.t) : bool :=
  ((Debt.creditor d =? user1Id) && (Debt.debtor d =? user2Id)
   && DebtStatus_eqb (Debt.status d) pending)
  || ((Debt.creditor d =? user2Id) && (Debt.debtor d =? user1Id)
      && DebtStatus_eqb (Debt.status d) pending).

(** One round of the [forEach]. *)
Definition addToBalance (user1Id : Id) (balance : Number) (d : Debt.t)
  : Number :=
  if Debt.creditor d =? user1Id then add balance (Debt.amount d)
  else sub balance (Debt.amount d).

Definition balanceOf (user1Id : Id) (l : list Debt.t) : Number :=
  fold_left (addToBalance user1Id) l (of_Z 0).

Definition report (balance : Number) : Balance :=
  mkBalance balance
    (if gtb balance (of_Z 0) then balance else of_Z 0)
    (if ltb balance (of_Z 0) then abs balance else of_Z 0).

Definition getBalanceBetweenUsers (b : Backend) (user1Id user2Id : Id)
  : M Balance :=
  st <- get ;;
  found <- query b (FindDebtsBetween user1Id user2Id)
             (filter (pendingBetween user1Id user2Id) (debts st)) ;;
  ret (report (balanceOf user1Id found)).

End DebtModel.

(** ** controllers/debtController.js: the listings, delete and reminder *)

Module DebtListing.
(** The answer of a listing: the debts found, each with the user document
    its populated path refers to, if there is one. *)
Record t : Type := mk
  { status : nat;
    success : bool;
    message : option string;
    data : list (Debt.t * option User.t) }.
End DebtListing.

Module DebtControllerMore.

Definition getDebtsOwedByMe (b : Backend) (userId : Id)
  : Store -> Store * DebtListing.t :=
  respond
    (st <- get ;;
     found <- query b (FindDebtsByDebtor userId)
                (filter (fun d => Debt.debtor d =? userId) (debts st)) ;;
     ret (DebtListing.mk 200 true None
            (List.map (fun d => (d, userById (world b) (Debt.creditor d)))
                      found)))
    (fun _ => DebtListing.mk 500 false (Some "Failed to fetch debts") []).

Definition getDebtsOwedToMe (b : Backend) (userId : Id)
  : Store -> Store * DebtListing.t :=
  respond
    (st <- get ;;
     found <- query b (FindDebtsByCreditor userId)
                (filter (fun d => Debt.creditor d =? userId) (debts st)) ;;
     ret (DebtListing.mk 200 true None
            (List.map (fun d => (d, userById (world b) (Debt.debtor d)))
                      found)))
    (fun _ => DebtListing.mk 500 false (Some "Failed to fetch debts") []).

Module DeleteRequest.
Record t : Type := mk { user_id : Id; debtId : string }.
End DeleteRequest.

Definition deleteDebt (b : Backend) (req : DeleteRequest.t)
  : Store -> Store * Response.t :=
  respond
    (let w := world b in
     let debtId := DeleteRequest.debtId req in
     if negb (ObjectId_isValid w debtId) then
       ret (Response.mk 400 false "Invalid debt ID" Response.NoBody)
     else
       found <- Debt_findById w debtId ;;
       match found with
       | None => ret (Response.mk 404 false "Debt not found" Response.NoBody)
       | Some debt =>
           if negb (Debt.creditor debt =? DeleteRequest.user_id req) then
             ret (Response.mk 403 false "Only the creditor can delete a debt"
                    Response.NoBody)
           else
             query b (DeleteDebt debtId) tt ;;;
             modify (fun st =>
                       mkStore (expenses st) (removeDebt debtId (debts st))
                               (notifications st) (generated st)) ;;;
             ret (Response.mk 200 true "Debt deleted successfully"
                    Response.NoBody)
       end)
    (fun err =>
       Response.mk 500 false "Failed to delete debt" (Response.Error err)).

Module ReminderRequest.
Record t : Type := mk { user_id : Id; debtId : string }.
End ReminderRequest.

(** [sendPaymentReminder].  The property [lastReminderSent] it assigns is
    no path of the debt schema, so the save that follows stores only the
    new [updatedAt].  The answer names the populated debtor. *)
Definition sendPaymentReminder (w : World) (now : Date)
    (req : ReminderRequest.t) : Store -> Store * Response.t :=
  respond
    (let debtId := ReminderRequest.debtId req in
     if negb (ObjectId_isValid w debtId) then
       ret (Response.mk 400 false "Invalid debt ID" Response.NoBody)
     else
       found <- Debt_findById w debtId ;;
       match found with
       | None => ret (Response.mk 404 false "Debt not found" Response.NoBody)
       | Some debt =>
           if negb (Debt.creditor debt =? ReminderRequest.user_id req) then
             ret (Response.mk 403 false "Only the creditor can send reminders"
                    Response.NoBody)
           else if DebtStatus_eqb (Debt.status debt) paid then
             ret (Response.mk 400 false "Cannot send reminder for paid debt"
                    Response.NoBody)
           else
             saved <- Debt_save w now debt ;;
             match userById w (Debt.debtor debt) with
             | None => throw "Cannot read properties of null (reading 'name')"
             | Some debtor =>
                 ret (Response.mk 200 true
                        ("Payment reminder sent to "
                         ++ match or_else (User.name debtor)
                                          (User.email debtor) with
                            | Some s => s
                            | None => "undefined"
                            end)
                        (Response.DebtBody saved))
             end
       end)
    (fun err =>
       Response.mk 500 false "Failed to send reminder" (Response.Error err)).

End DebtControllerMore.

(** ** routes/debtRoutes.js: create, update, settle, mark-paid, overview *)

(** [s.includes('@')] *)
Fixpoint includesAt (s : string) : bool :=
  match s with
  | EmptyString => false
  | String c r => Ascii.eqb c "@"%char || includesAt r
  end.

Definition dquote : string :=
  String (Ascii false true false false false true false false) EmptyString.

Module DebtRouter.

(** The handlers below load a debt with [creditor] and [debtor] populated
    and read [debt.creditor._id] or [debt.debtor._id]; a reference whose
    user is gone populates to null and makes that read throw.  After the
    write each of them tries to create a notification for the related
    model 'Debt', which the notification schema refuses; the attempt is
    inside its own [try]/[catch] and changes neither the debts nor the
    answer, so it is left out. *)
Definition populatedId (w : World) (ref : Id) : M Id :=
  match userById w ref with
  | Some u => ret (User._id u)
  | None => throw "Cannot read properties of null (reading '_id')"
  end.

Definition devError (w : World) (err : string) : Response.Body :=
  if development w then Response.Error err else Response.NoBody.

(** The document the handler reads back for its answer. *)
Definition readBack (w : World) (id : Id) : M Response.Body :=
  found <- Debt_findById w id ;;
  ret (match found with
       | Some d => Response.DebtBody d
       | None => Response.NoBody
       end).

Module CreateRequest.
Record t : Type := mk
  { user_id : Id;
    friendId : option string;
    friendEmail : option string;
    amount : option Number;
    description : option string;
    type : option string;
    dueDate : option Date }.
End CreateRequest.

Definition bad (message : string) : Response.t :=
  Response.mk 400 false message Response.NoBody.

(** The lookup of the friend, by id or else by address; [inl] is the
    answer that ends the request. *)
Definition findFriend (b : Backend) (req : CreateRequest.t)
  : M (Response.t + option User.t) :=
  match CreateRequest.friendId req with
  | Some (String c f) =>
      let friendId := String c f in
      if negb (ObjectId_isValid (world b) friendId) then
        ret (inl (bad "Invalid friend ID format"))
      else
        friend <- User_findById (world b) (Str friendId) ;;
        ret (inr friend)
  | _ =>
      let cleanEmail :=
        trim (toLowerCase b (match CreateRequest.friendEmail req with
                             | Some e => e
                             | None => ""
                             end)) in
      if negb (includesAt cleanEmail) then
        ret (inl (bad "Invalid email format"))
      else
        friend <- query b (FindUserByEmail cleanEmail)
                    (userByEmail b cleanEmail) ;;
        ret (inr friend)
  end.

(** [router.post('/')] *)
Definition createDebt (b : Backend) (now : Date) (req : CreateRequest.t)
  : Store -> Store * Response.t :=
  respond
    (let w := world b in
     let currentUserId := CreateRequest.user_id req in
     if negb (truthy (CreateRequest.friendId req))
        && negb (truthy (CreateRequest.friendEmail req)) then
       ret (bad "Either friendId or friendEmail is required")
     else if match CreateRequest.amount req with
             | Some a => falsy a
             | None => true
             end then
       ret (bad "Amount is required")
     else if negb (truthy (CreateRequest.description req)) then
       ret (bad "Description is required")
     else if negb (truthy (CreateRequest.type req)) then
       ret (bad "Type is required")
     else
       let numAmount := parseFloat (CreateRequest.amount req) in
       let description :=
         match CreateRequest.description req with
         | Some d => d
         | None => ""
         end in
       let type :=
         match CreateRequest.type req with
         | Some t => t
         | None => ""
         end in
       if isNaN numAmount || leb numAmount (of_Z 0) then
         ret (bad "Amount must be a positive number")
       else if negb (mem type ["owe-me"; "i-owe"]) then
         ret (bad ("Type must be " ++ dquote ++ "owe-me" ++ dquote ++ " or "
                   ++ dquote ++ "i-owe" ++ dquote))
       else
         looked <- findFriend b req ;;
         match looked with
         | inl answer => ret answer
         | inr None =>
             ret (Response.mk 404 false "Friend not found" Response.NoBody)
         | inr (Some friend) =>
             if User._id friend =? currentUserId then
               ret (bad "Cannot create debt with yourself")
             else
               let '(creditor, debtor) :=
                 if type =? "owe-me" then (currentUserId, User._id friend)
                 else (User._id friend, currentUserId) in
               debt <- Debt_new w now (Oid creditor) (Oid debtor) numAmount
                         (trim description) manual None
                         (CreateRequest.dueDate req) None ;;
               savedDebt <- Debt_create w now debt ;;
               populatedDebt <- readBack w (Debt._id savedDebt) ;;
               ret (Response.mk 201 true "Debt created successfully"
                      populatedDebt)
         end)
    (fun err =>
       Response.mk 500 false "Server error while creating debt"
         (devError (world b) err)).

Module UpdateRequest.
(** [dueDate]: absent, or present and falsy ([Some None]), or a date. *)
Record t : Type := mk
  { user_id : Id;
    id : string;
    amount : option Number;
    description : option string;
    dueDate : option (option Date) }.
End UpdateRequest.

(** The assignments of [router.put('/:id')], once the amount is checked. *)
Definition applyUpdate (req : UpdateRequest.t) (debt : Debt.t) : Debt.t :=
  let debt :=
    match UpdateRequest.amount req with
    | Some a => Debt_set_amount (parseFloat (Some a)) debt
    | None => debt
    end in
  let debt :=
    match UpdateRequest.description req with
    | Some s => Debt_set_description (trim s) debt
    | None => debt
    end in
  match UpdateRequest.dueDate req with
  | Some due => Debt_set_dueDate due debt
  | None => debt
  end.

(** [router.put('/:id')] *)
Definition updateDebt (w : World) (now : Date) (req : UpdateRequest.t)
  : Store -> Store * Response.t :=
  respond
    (let id := UpdateRequest.id req in
     if negb (ObjectId_isValid w id) then ret (bad "Invalid debt ID format")
     else
       found <- Debt_findById w id ;;
       match found with
       | None => ret (Response.mk 404 false "Debt not found" Response.NoBody)
       | Some debt =>
           creditorId <- populatedId w (Debt.creditor debt) ;;
           if negb (creditorId =? UpdateRequest.user_id req) then
             ret (Response.mk 403 false
                    "Only the creditor can update this debt" Response.NoBody)
           else if negb (DebtStatus_eqb (Debt.status debt) pending) then
             ret (bad "Cannot update a debt that is not pending")
           else if match UpdateRequest.amount req with
                   | Some a =>
                       let numAmount := parseFloat (Some a) in
                       isNaN numAmount || leb numAmount (of_Z 0)
                   | None => false
                   end then
             ret (bad "Amount must be a positive number")
           else
             Debt_save w now (applyUpdate req debt) ;;;
             updatedDebt <- readBack w id ;;
             ret (Response.mk 200 true "Debt updated successfully"
                    updatedDebt)
       end)
    (fun err =>
       Response.mk 500 false "Failed to update debt" (devError w err)).

Module SettleRequest.
Record t : Type := mk { user_id : Id; id : string }.
End SettleRequest.

(** [router.patch('/:id/settle')], the creditor confirms the payment. *)
Definition settleDebt (w : World) (now : Date) (req : SettleRequest.t)
  : Store -> Store * Response.t :=
  respond
    (let id := SettleRequest.id req in
     if negb (ObjectId_isValid w id) then ret (bad "Invalid debt ID format")
     else
       found <- Debt_findById w id ;;
       match found with
       | None => ret (Response.mk 404 false "Debt not found" Response.NoBody)
       | Some debt =>
           creditorId <- populatedId w (Debt.creditor debt) ;;
           if negb (creditorId =? SettleRequest.user_id req) then
             ret (Response.mk 403 false
                    "Only the creditor can mark this debt as paid"
                    Response.NoBody)
           else if DebtStatus_eqb (Debt.status debt) paid then
             ret (bad "Debt is already paid")
           else
             Debt_save w now
               (Debt.set_paidAt (Some now) (Debt.set_status paid debt)) ;;;
             updatedDebt <- readBack w id ;;
             ret (Response.mk 200 true "Debt marked as paid" updatedDebt)
       end)
    (fun err =>
       Response.mk 500 false "Failed to mark debt as paid" (devError w err)).


Module Overview.
Record t : Type := mk
  { totalOwedToMe : Number;
    totalOwedByMe : Number;
    netBalance : Number;
    debtsOwedToMeCount : nat;
    debtsOwedByMeCount : nat;
    paidDebtsCount : nat;
    debtsOwedToMe : list (Debt.t * option User.t);
    debtsOwedByMe : list (Debt.t * option User.t) }.
End Overview.

Definition hasStatus (s : DebtStatus) (d : Debt.t) : bool :=
  DebtStatus_eqb (Debt.status d) s.

(** [debts.filter(pending).reduce((sum, debt) => sum + debt.amount, 0)] *)
Definition pendingTotal (l : list Debt.t) : Number :=
  fold_left (fun sum d => add sum (Debt.amount d))
            (filter (hasStatus pending) l) (of_Z 0).

(** [router.get('/overview')]; [None] is the answer 500. *)
Definition overview (b : Backend) (userId : Id)
  : Store -> Store * option Overview.t :=
  respond
    (st <- get ;;
     owedToMe <- query b (FindDebtsByCreditor userId)
                   (filter (fun d => (Debt.creditor d =? userId)
                                     && negb (hasStatus cancelled d))
                           (debts st)) ;;
     owedByMe <- query b (FindDebtsByDebtor userId)
                   (filter (fun d => (Debt.debtor d =? userId)
                                     && negb (hasStatus cancelled d))
                           (debts st)) ;;
     let totalOwedToMe := pendingTotal owedToMe in
     let totalOwedByMe := pendingTotal owedByMe in
     ret (Some (Overview.mk totalOwedToMe totalOwedByMe
                  (sub totalOwedToMe totalOwedByMe)
                  (List.length (filter (hasStatus pending) owedToMe))
                  (List.length (filter (hasStatus pending) owedByMe))
                  (List.length (filter (hasStatus paid)
                                       (owedToMe ++ owedByMe)))
                  (List.map (fun d => (d, userById (world b) (Debt.debtor d)))
                            owedToMe)
                  (List.map (fun d => (d, userById (world b)
                                            (Debt.creditor d)))
                            owedByMe))))
    (fun _ => None).

End DebtRouter.

(** ** routes/splitExpenseRoutes.js: delete *)

Module SplitExpenseRoutes.

Module DeleteRequest.
Record t : Type := mk { user_id : Id; expenseId : Id }.
End DeleteRequest.

(** [router.delete('/:expenseId')] *)
Definition deleteExpense (b : Backend) (req : DeleteRequest.t)
  : Store -> Store * Response.t :=
  respond
    (let userId := DeleteRequest.user_id req in
     let expenseId := DeleteRequest.expenseId req in
     found <- SplitExpenseController.SplitExpense_findById (world b)
                expenseId ;;
     match found with
     | None => ret (Response.mk 404 false "Expense not found" Response.NoBody)
     | Some expense =>
         let hasPermission :=
           (SplitExpense.createdBy expense =? userId)
           || (SplitExpense.paidBy expense =? userId) in
         if negb hasPermission then
           ret (Response.mk 403 false "Not authorized to delete this expense"
                  Response.NoBody)
         else
           query b (DeleteExpense expenseId) tt ;;;
           modify (fun st =>
                     mkStore (removeExpense expenseId (expenses st))
                             (debts st) (notifications st) (generated st)) ;;;
           ret (Response.mk 200 true "Expense deleted successfully"
                  Response.NoBody)
     end)
    (fun err =>
       Response.mk 500 false "Failed to delete expense" (Response.Error err)).

End SplitExpenseRoutes.

(** * Vocabulary of the statements *)

Import SplitExpenseController.

Section Accounting.

Variables (w : World) (now : Date) (userId : Id) (paidByUserId : IdValue)
  (description splitType : string) (numTotalAmount : Number)
  (expense : SplitExpense.t).

(** The record the debt loop builds and saves for participant [p] of split
    [s], under the id [id]. *)
Definition splitDebt (id : Id) (s : ValidatedSplit.t) (p : Id) : Debt.t :=
  Debt.mk id
    (idOf w (fst (debtDirection paidByUserId userId p)))
    (idOf w (snd (debtDirection paidByUserId userId p)))
    (ValidatedSplit.amount s)
    (trim ("Split: " ++ trim description)) pending split
    (Some (SplitExpense._id expense)) None None None
    (Some (DebtMetadata.mk (SplitExpense._id expense) "split_expense"
             numTotalAmount splitType
             ("From split expense: " ++ trim description)))
    now now.

Definition DebtOf (s : ValidatedSplit.t) (p : Id) (d : Debt.t) : Prop :=
  d = splitDebt (Debt._id d) s p.

(** Every split is accounted for, in order: it is skipped when it has no
    user id; else the record built for it is stored when it satisfies the
    schema and the store accepts it, and otherwise an entry with its friend
    id and the error of the failed save is recorded. *)
Inductive Accounted
  : list ValidatedSplit.t -> list Debt.t -> list Response.DebtError -> Prop :=
| Accounted_nil : Accounted [] [] []
| Accounted_skip s l ds es :
    ValidatedSplit.userId s = None ->
    Accounted l ds es -> Accounted (s :: l) ds es
| Accounted_done s p d l ds es :
    ValidatedSplit.userId s = Some p ->
    DebtOf s p d ->
    debtSchema_valid w d = true ->
    db_fault w (SaveDebt d) = None ->
    Accounted l ds es -> Accounted (s :: l) (d :: ds) es
| Accounted_failed s p d e l ds es :
    ValidatedSplit.userId s = Some p ->
    DebtOf s p d ->
    (debtSchema_valid w d = false
     /\ Response.de_error e = error_message w (InvalidDebt d))
    \/ (debtSchema_valid w d = true
        /\ db_fault w (SaveDebt d) = Some (Response.de_error e)) ->
    Response.de_friendId e = ValidatedSplit.friendId s ->
    Accounted l ds es -> Accounted (s :: l) ds (e :: es).

End Accounting.

Definition appended (r : Attempt Debt.t Response.DebtError) : list Debt.t :=
  match r with Done d => [d] | _ => [] end.

Definition hasUser (s : ValidatedSplit.t) : bool :=
  match ValidatedSplit.userId s with Some _ => true | None => false end.

Definition splitsOf (shares : list ValidatedSplit.t) : list Split.t :=
  List.map (fun s => Split.mk (ValidatedSplit.friendId s)
                              (ValidatedSplit.amount s)) shares.

Definition created201 (expense : SplitExpense.t) (debtsCreated sent : nat)
    (numTotalAmount : Number) (nsplits : nat)
    (es : list Response.DebtError) (nes : list Response.NotificationError)
  : Response.t :=
  Response.mk 201 true "Split expense created successfully"
    (Response.CreatedSplit expense
       (Response.mkSummary debtsCreated sent numTotalAmount nsplits)
       (Response.mkWarnings (nonempty es) (nonempty nes))).

(** The validated participants of a request, their shares once the split
    mode is applied, the payer and the split event the handler builds. *)
Definition totalOf (req : CreateSplitRequest.t) : Number :=
  parseFloat (CreateSplitRequest.totalAmount req).

Definition validatedOf (w : World) (req : CreateSplitRequest.t) (st : Store)
  : list ValidatedSplit.t :=
  match validateSplits w (CreateSplitRequest.user_id req)
          (splitsOfRequest req) st with
  | (_, Return vs) => vs
  | (_, Throw _) => []
  end.

Definition sharesOf (w : World) (req : CreateSplitRequest.t) (st : Store)
  : list ValidatedSplit.t :=
  applySplitType (splitTypeOf req) (totalOf req) (validatedOf w req st).

Definition payerOfRequest (req : CreateSplitRequest.t) : IdValue :=
  payerOf (CreateSplitRequest.paidBy req) (CreateSplitRequest.user_id req).

Definition expenseOf (w : World) (req : CreateSplitRequest.t) (st : Store)
  : SplitExpense.t :=
  SplitExpense.mk (ObjectId_new w (generated st)) (trim (descriptionOf req))
    (totalOf req) (idOf w (payerOfRequest req))
    (CreateSplitRequest.user_id req) (splitsOf (sharesOf w req st)).

(** The cast of a query does not throw. *)
Definition castable (w : World) (v : IdValue) : bool :=
  match v with
  | Oid _ => true
  | Str s => ObjectId_isValid w s
  end.

(** The request gets as far as storing its split event: its fields pass
    the checks, no lookup of the validation loop throws and some entry is
    validated, the lookup of the payer does not throw, and the split event
    satisfies its schema and is accepted by the store. *)
Definition eventStored (w : World) (req : CreateSplitRequest.t) (st : Store)
  : bool :=
  negb (missingRequired req)
  && negb (isNaN (totalOf req) || leb (totalOf req) (of_Z 0))
  && match validatedOf w req st with [] => false | _ :: _ => true end
  && castable w (payerOfRequest req)
  && match db_fault w (FindUser (idOf w (payerOfRequest req))) with
     | None => true
     | Some _ => false
     end
  && splitExpenseSchema_valid w (expenseOf w req st)
  && match db_fault w (SaveExpense (expenseOf w req st)) with
     | None => true
     | Some _ => false
     end.

(** The record markDebtAsPaid saves. *)
Definition markedPaid (now : Date) (paymentMethod : option string)
    (d : Debt.t) : Debt.t :=
  Debt.set_updatedAt now
    ((if truthy paymentMethod then Debt.set_paymentMethod paymentMethod
      else fun d => d)
       (Debt.set_paidAt (Some now) (Debt.set_status paid d))).

(** Debts linked to a split event, counted by status. *)
Definition linkedTo (expenseId : Id) (d : Debt.t) : bool :=
  match Debt.relatedExpenseId d with
  | Some r => r =? expenseId
  | None => false
  end.

Definition countLinked (expenseId : Id) (s : DebtStatus) (l : list Debt.t)
  : nat :=
  List.length
    (filter (fun d => linkedTo expenseId d && DebtStatus_eqb (Debt.status d) s)
            l).

(** The debt status a split event status cascades to. *)
Definition cascaded (target : ExpenseStatus) : DebtStatus :=
  match target with
  | settled => paid
  | _ => cancelled
  end.

(** ** A small world to run the handlers in *)

Module Sample.

Definition alice : Id := "aaaaaaaaaaaaaaaaaaaaaaaa".
Definition bob : Id := "bbbbbbbbbbbbbbbbbbbbbbbb".
Definition carol : Id := "cccccccccccccccccccccccc".
Definition dave : Id := "dddddddddddddddddddddddd".

(** Alice's friend records for Bob, Carol and Dave, and a stray one that
    points back at Alice herself. *)
Definition fbob : Id := "fb0000000000000000000000".
Definition fcarol : Id := "fc0000000000000000000000".
Definition fdave : Id := "fd0000000000000000000000".
Definition fself : Id := "fa0000000000000000000000".

Definition is_hex (c : ascii) : bool :=
  let n := nat_of_ascii c in
  (Nat.leb 48 n && Nat.leb n 57) || (Nat.leb 97 n && Nat.leb n 102)
  || (Nat.leb 65 n && Nat.leb n 70).

Fixpoint all_hex (s : string) : bool :=
  match s with
  | EmptyString => true
  | String c r => is_hex c && all_hex r
  end.

(** Twenty-four hexadecimal digits. *)
Definition hex24 (s : string) : bool :=
  Nat.eqb (String.length s) 24 && all_hex s.

(** The capital ASCII letters made small: the hexadecimal string of the
    ObjectId that twenty-four digits cast to, and [toLowerCase] on ASCII. *)
Definition lower (c : ascii) : ascii :=
  let n := nat_of_ascii c in
  if Nat.leb 65 n && Nat.leb n 90 then ascii_of_nat (n + 32) else c.

Fixpoint lowerCase (s : string) : string :=
  match s with
  | EmptyString => EmptyString
  | String c r => String (lower c) (lowerCase r)
  end.

Definition messageOf (e : MongooseError) : string :=
  match e with
  | InvalidExpense _ => "SplitExpense validation failed"
  | InvalidDebt _ => "Debt validation failed"
  | InvalidNotification _ => "Notification validation failed"
  | CastError _ => "Cast to ObjectId failed"
  end.

Definition userOf (id : Id) : option User.t :=
  if id =? alice then
    Some (User.mk alice (Some "Alice") (Some "alice@example.com"))
  else if id =? bob then
    Some (User.mk bob (Some "Bob") (Some "bob@example.com"))
  else if id =? carol then
    Some (User.mk carol (Some "Carol") (Some "carol@example.com"))
  else if id =? dave then
    Some (User.mk dave (Some "Dave") (Some "dave@example.com"))
  else None.

Definition friendRecord (fid owner target : Id) (nm : string) : Friend.t :=
  Friend.mk fid (Some owner)
    (match userOf target with
     | Some u => PopulatedUser u
     | None => NoFriendUser
     end)
    (Some target) (Some nm) None.

Definition friendOf (fid uid : Id) : option Friend.t :=
  if negb (uid =? alice) then None
  else if fid =? fbob then Some (friendRecord fbob alice bob "Bob")
  else if fid =? fcarol then Some (friendRecord fcarol alice carol "Carol")
  else if fid =? fdave then Some (friendRecord fdave alice dave "Dave")
  else if fid =? fself then Some (friendRecord fself alice alice "Me")
  else None.

Definition freshIds (n : nat) : Id :=
  nth n ["e00000000000000000000000"; "e00000000000000000000001";
         "e00000000000000000000002"; "e00000000000000000000003";
         "e00000000000000000000004"; "e00000000000000000000005";
         "e00000000000000000000006"; "e00000000000000000000007"]
      "e0000000000000000000000f".

(** No call into the persistence layer fails. *)
Definition world : World :=
  mkWorld friendOf userOf hex24 lowerCase freshIds (fun _ => None) messageOf
    false.

(** Saving Carol's debt fails in storage; nothing else does. *)
Definition flaky : World :=
  mkWorld friendOf userOf hex24 lowerCase freshIds
    (fun op =>
       match op with
       | SaveDebt d =>
           if Debt.debtor d =? carol then Some "storage unavailable" else None
       | _ => None
       end)
    messageOf false.

Definition empty : Store := mkStore [] [] [] 0.

Definition now : Date := 1700000000000%Z.
Definition later : Date := 1700000060000%Z.

Definition friendSplit (fid : Id) (amount : option Number) : SplitInput.t :=
  SplitInput.mk (Some fid) None amount.

(** Total 100, split equally with Bob and Carol; the payer is left out of
    the request, so it is Alice. *)
Definition equalRequest : CreateSplitRequest.t :=
  CreateSplitRequest.mk alice (Some "Dinner") (Some (of_Z 100)) None
    (Some [friendSplit fbob None; friendSplit fcarol None]) (Some "equal").

(** Total 100 with the shares 30, 30 and 20 given by the caller. *)
Definition explicitRequest : CreateSplitRequest.t :=
  CreateSplitRequest.mk alice (Some "Dinner") (Some (of_Z 100)) None
    (Some [friendSplit fbob (Some (of_Z 30));
           friendSplit fcarol (Some (of_Z 30));
           friendSplit fdave (Some (of_Z 20))])
    (Some "exact").

(** Bob paid; Bob and Carol take part. *)
Definition bobPaidRequest : CreateSplitRequest.t :=
  CreateSplitRequest.mk alice (Some "Taxi") (Some (of_Z 90)) (Some bob)
    (Some [friendSplit fbob None; friendSplit fcarol None]) None.

(** Dave, who takes no part, paid. *)
Definition davePaidRequest : CreateSplitRequest.t :=
  CreateSplitRequest.mk alice (Some "Taxi") (Some (of_Z 90)) (Some dave)
    (Some [friendSplit fbob None; friendSplit fcarol None]) None.

(** Carol's share is 0, which the debt schema rejects. *)
Definition zeroShareRequest : CreateSplitRequest.t :=
  CreateSplitRequest.mk alice (Some "Dinner") (Some (of_Z 60)) None
    (Some [friendSplit fbob (Some (of_Z 30));
           friendSplit fcarol (Some (of_Z 0));
           friendSplit fdave (Some (of_Z 30))])
    (Some "exact").

(** No reference resolves: an unknown friend record and an entry with
    neither friend nor address. *)
Definition strangersRequest : CreateSplitRequest.t :=
  CreateSplitRequest.mk alice (Some "Dinner") (Some (of_Z 100)) None
    (Some [friendSplit "f00000000000000000000000" None;
           SplitInput.mk None None (Some (of_Z 50))])
    None.

(** The stray friend record makes Alice her own participant. *)
Definition selfRequest : CreateSplitRequest.t :=
  CreateSplitRequest.mk alice (Some "Dinner") (Some (of_Z 100)) None
    (Some [friendSplit fself None]) None.

(** Bob paid and takes part; the request spells his id in capitals. *)
Definition capitalsRequest : CreateSplitRequest.t :=
  CreateSplitRequest.mk alice (Some "Taxi") (Some (of_Z 90))
    (Some "BBBBBBBBBBBBBBBBBBBBBBBB")
    (Some [friendSplit fbob None]) None.

(** The only participant is named by a string that is no ObjectId. *)
Definition malformedRequest : CreateSplitRequest.t :=
  CreateSplitRequest.mk alice (Some "Dinner") (Some (of_Z 100)) None
    (Some [friendSplit "not-an-id" None]) None.

Definition debtId : Id := "d00000000000000000000001".

(** Bob says he paid, by UPI. *)
Definition bobPays : DebtController.MarkPaidRequest.t :=
  DebtController.MarkPaidRequest.mk bob debtId (Some "upi").

Definition debtWith (status : DebtStatus) : Debt.t :=
  Debt.mk debtId alice bob (of_Z 30) "Split: Dinner" status split
    (Some "e00000000000000000000000") None None None None 1%Z 1%Z.

Definition ledger (status : DebtStatus) : Store :=
  mkStore [] [debtWith status] [] 2.

Definition dinnerId : Id := "e00000000000000000000000".

Definition dinner : SplitExpense.t :=
  SplitExpense.mk dinnerId "Dinner" (of_Z 90) alice alice
    [Split.mk (Some fbob) (of_Z 30); Split.mk (Some fcarol) (of_Z 30)].

Definition dinnerDebt (id debtor : Id) (status : DebtStatus) : Debt.t :=
  Debt.mk id alice debtor (of_Z 30) "Split: Dinner" status split
    (Some dinnerId) None None None None 1%Z 1%Z.

(** The dinner with two pending debts, one already cancelled, and an
    unrelated pending manual debt between Carol and Dave. *)
Definition dinnerLedger : Store :=
  mkStore [dinner]
    [dinnerDebt "d00000000000000000000001" bob pending;
     dinnerDebt "d00000000000000000000002" carol pending;
     dinnerDebt "d00000000000000000000003" dave cancelled;
     Debt.mk "d00000000000000000000004" carol dave (of_Z 5) "Coffee" pending
       manual None None None None None 1%Z 1%Z]
    [] 5.

Definition settleDinner : UpdateStatusRequest.t :=
  UpdateStatusRequest.mk alice dinnerId (Some "settled").

End Sample.

(** [n] is the notification the loop builds for some participant of [l]. *)
Definition NotifiedOf (userId : Id) (expense : SplitExpense.t)
    (l : list ValidatedSplit.t) (n : Notification.t) : Prop :=
  exists s participant,
    In s l
    /\ ValidatedSplit.userId s = Some participant
    /\ participant <> userId
    /\ Notification.userId n = participant
    /\ Notification.senderId n = userId
    /\ Notification.relatedId n = SplitExpense._id expense
    /\ Notification.data_amount n = ValidatedSplit.amount s.

(** ** More of the small world *)

Module Scene.

Definition byEmail (e : string) : option User.t :=
  if e =? "bob@example.com" then Sample.userOf Sample.bob
  else if e =? "carol@example.com" then Sample.userOf Sample.carol
  else if e =? "alice@example.com" then Sample.userOf Sample.alice
  else None.

Definition backend : Backend :=
  mkBackend Sample.world byEmail (fun _ => None) Sample.lowerCase.

(** The store rejects the save of a split event; nothing else fails. *)
Definition expenseSaveFails : World :=
  mkWorld Sample.friendOf Sample.userOf Sample.hex24 Sample.lowerCase
    Sample.freshIds
    (fun op =>
       match op with
       | SaveExpense _ => Some "storage unavailable"
       | _ => None
       end)
    Sample.messageOf false.

(** Bob, who neither created nor paid the dinner, asks to settle it. *)
Definition bobSettlesDinner : UpdateStatusRequest.t :=
  UpdateStatusRequest.mk Sample.bob Sample.dinnerId (Some "settled").

Definition reopenDinner : UpdateStatusRequest.t :=
  UpdateStatusRequest.mk Sample.alice Sample.dinnerId (Some "active").

Definition cancelDinner : UpdateStatusRequest.t :=
  UpdateStatusRequest.mk Sample.alice Sample.dinnerId (Some "cancelled").

(** The dinner ledger once the dinner is settled. *)
Definition settledLedger : Store :=
  fst (updateSplitExpenseStatus Sample.world Sample.now Sample.settleDinner
         Sample.dinnerLedger).

(** Alice, the creditor, tries to mark Bob's debt as paid herself. *)
Definition alicePays : DebtController.MarkPaidRequest.t :=
  DebtController.MarkPaidRequest.mk Sample.alice Sample.debtId None.

(** A pending debt of Bob to Alice that was due at time 5. *)
Definition dueDebt : Debt.t :=
  Debt.mk Sample.debtId Sample.alice Sample.bob (of_Z 30) "Rent" pending
    manual None (Some 5%Z) None None None 1%Z 1%Z.

Definition dueLedger : Store := mkStore [] [dueDebt] [] 2.

(** An address-only participant next to Bob. *)
Definition addressRequest : CreateSplitRequest.t :=
  CreateSplitRequest.mk Sample.alice (Some "Dinner") (Some (of_Z 90)) None
    (Some [Sample.friendSplit Sample.fbob None;
           SplitInput.mk None (Some "erin@example.com") (Some (of_Z 30))])
    None.

Definition lunchRequest : DebtController.ManualDebtRequest.t :=
  DebtController.ManualDebtRequest.mk Sample.alice (Some Sample.bob)
    (Some (of_Z 25)) (Some "Lunch") None.


Definition deleteByBob : DebtControllerMore.DeleteRequest.t :=
  DebtControllerMore.DeleteRequest.mk Sample.bob Sample.debtId.

Definition remindBob : DebtControllerMore.ReminderRequest.t :=
  DebtControllerMore.ReminderRequest.mk Sample.alice Sample.debtId.

Definition cancelByAlice : DebtRoutes.CancelRequest.t :=
  DebtRoutes.CancelRequest.mk Sample.alice Sample.debtId.

(** Alice raises Bob's pending debt to 45 and renames it. *)
Definition raiseDebt : DebtRouter.UpdateRequest.t :=
  DebtRouter.UpdateRequest.mk Sample.alice Sample.debtId (Some (of_Z 45))
    (Some "  Dinner and drinks ") None.

Definition settleByAlice : DebtRouter.SettleRequest.t :=
  DebtRouter.SettleRequest.mk Sample.alice Sample.debtId.

(** Alice records that Bob, found by his address, owes her 12. *)
Definition oweMeRequest : DebtRouter.CreateRequest.t :=
  DebtRouter.CreateRequest.mk Sample.alice None (Some " Bob@Example.com ")
    (Some (of_Z 12)) (Some "Coffee") (Some "owe-me") None.

(** Alice records that she owes Bob 12. *)
Definition iOweRequest : DebtRouter.CreateRequest.t :=
  DebtRouter.CreateRequest.mk Sample.alice (Some Sample.bob) None
    (Some (of_Z 12)) (Some "Coffee") (Some "i-owe") None.

Definition deleteDinner : SplitExpenseRoutes.DeleteRequest.t :=
  SplitExpenseRoutes.DeleteRequest.mk Sample.alice Sample.dinnerId.

End Scene.

(** * Properties *)

(** ** Running computations *)

(** A branch that answers without having written anything. *)
Ltac rejected run := subst run; left; cbn; auto.

(** ** Stepping through a handler *)

Ltac open_run :=
  cbv beta iota zeta
      delta [respond bind ret throw get modify db query try_catch fst snd];
  cbn [negb andb orb].

Ltac split_run :=
  match goal with
  | |- context [match ?x with _ => _ end] =>
      lazymatch x with
      | context [match _ with _ => _ end] => fail
      | _ => destruct x eqn:?
      end
  end.

Ltac walk := open_run; repeat (split_run; open_run).

Ltac tidy :=
  repeat match goal with
         | H : negb _ = false |- _ => apply negb_false_iff in H
         | H : negb _ = true |- _ => apply negb_true_iff in H
         | H : (_ =? _) = true |- _ => apply String.eqb_eq in H
         | H : (_ =? _) = false |- _ => apply String.eqb_neq in H
         end.

Lemma db_run {A} (w : World) (op : DbOp) (a : A) (st : Store) :
  db w op a st =
  (st, match db_fault w op with Some e => Throw e | None => Return a end).
Proof. unfold db. destruct (db_fault w op); reflexivity. Qed.

Lemma db_return {A} (w : World) (op : DbOp) (a : A) (st : Store) :
  db_fault w op = None -> db w op a st = (st, Return a).
Proof. intros H. rewrite db_run, H. reflexivity. Qed.

Lemma db_throw {A} (w : World) (op : DbOp) (a : A) (st : Store) (e : string) :
  db_fault w op = Some e -> db w op a st = (st, Throw e).
Proof. intros H. rewrite db_run, H. reflexivity. Qed.

Lemma bind_return {A B} (m : M A) (k : A -> M B) (st st1 : Store) (a : A) :
  m st = (st1, Return a) -> bind m k st = k a st1.
Proof. intros H. unfold bind. rewrite H. reflexivity. Qed.

Lemma bind_throw {A B} (m : M A) (k : A -> M B) (st st1 : Store) (e : string) :
  m st = (st1, Throw e) -> bind m k st = (st1, Throw e).
Proof. intros H. unfold bind. rewrite H. reflexivity. Qed.

(** The validation loop only reads. *)
Lemma resolveSplit_store (w : World) (userId : Id) (s : SplitInput.t)
    (st : Store) :
  fst (resolveSplit w userId s st) = st.
Proof.
  unfold resolveSplit, Friend_findOne, User_findById, castObjectId.
  walk; reflexivity.
Qed.

Lemma validateSplits_store (w : World) (userId : Id) (l : list SplitInput.t)
    (st : Store) :
  fst (validateSplits w userId l st) = st.
Proof.
  induction l as [|s rest IH]; [reflexivity|].
  cbn [validateSplits]. unfold bind at 1.
  pose proof (resolveSplit_store w userId s st) as Hs.
  destruct (resolveSplit w userId s st) as [st1 [r|e]]; cbn in Hs; subst st1;
    [|reflexivity].
  unfold bind.
  destruct (validateSplits w userId rest st) as [st2 [vs|e]]; cbn in IH;
    subst st2; reflexivity.
Qed.

(** ** The debt loop of createSplitExpense *)

Section DebtLoop.

Variables (w : World) (now : Date) (userId : Id) (paidByUserId : IdValue).
Variables (description splitType : string) (numTotalAmount : Number).
Variable expense : SplitExpense.t.

Local Abbreviation Acc :=
  (Accounted w now userId paidByUserId description splitType numTotalAmount
     expense).
Local Abbreviation Of :=
  (DebtOf w now userId paidByUserId description splitType numTotalAmount
     expense).

Lemma createDebtFor_run (s : ValidatedSplit.t) (st : Store) :
  exists st' r,
    createDebtFor w now userId paidByUserId description splitType
      numTotalAmount expense s st = (st', Return r)
    /\ expenses st' = expenses st
    /\ notifications st' = notifications st
    /\ debts st' = debts st ++ appended r
    /\ forall l ds es,
         Acc l ds es ->
         match r with
         | Skipped => Acc (s :: l) ds es
         | Done d =>
             Acc (s :: l) (d :: ds) es
         | Failed e =>
             Acc (s :: l) ds (e :: es)
         end.
Proof.
  unfold createDebtFor, try_catch.
  destruct (ValidatedSplit.userId s) as [p|] eqn:Hp.
  - destruct (debtDirection paidByUserId userId p) as [creditor debtor] eqn:Hd.
    unfold Debt_new, Debt_create, newObjectId, modify, bind, ret, throw.
    cbn.
    match goal with
    | |- context [debtSchema_valid w ?d] => set (d0 := d)
    end.
    assert (Hof : Of s p d0).
    { unfold DebtOf, splitDebt, d0. cbn. rewrite Hd. reflexivity. }
    destruct (debtSchema_valid w d0) eqn:Hv.
    + rewrite db_run. destruct (db_fault w (SaveDebt d0)) as [err|] eqn:Hf.
      * eexists _, (Failed _). split; [reflexivity|].
        cbn. rewrite app_nil_r. repeat split.
        intros l ds es Hacc.
        eapply Accounted_failed with (d := d0); eauto.
      * eexists _, (Done d0). split; [reflexivity|].
        cbn. repeat split.
        intros l ds es Hacc.
        eapply Accounted_done; eauto.
    + eexists _, (Failed _). split; [reflexivity|].
      cbn. rewrite app_nil_r. repeat split.
      intros l ds es Hacc.
      eapply Accounted_failed with (d := d0); eauto.
  - exists st, Skipped. split; [reflexivity|].
    cbn. rewrite app_nil_r. repeat split.
    intros l ds es Hacc. apply Accounted_skip; assumption.
Qed.

Lemma createDebts_run (l : list ValidatedSplit.t) (st : Store) :
  exists st' ds es,
    createDebts w now userId paidByUserId description splitType
      numTotalAmount expense l st = (st', Return (ds, es))
    /\ expenses st' = expenses st
    /\ notifications st' = notifications st
    /\ debts st' = debts st ++ ds
    /\ Acc l ds es.
Proof.
  revert st. induction l as [|s rest IH]; intros st.
  - exists st, [], []. cbn. rewrite app_nil_r.
    repeat split. constructor.
  - destruct (createDebtFor_run s st) as (st1 & r & Hr & He & Hn & Hd & Hacc).
    destruct (IH st1) as (st2 & ds & es & Hrest & He2 & Hn2 & Hd2 & Hacc2).
    cbn [createDebts].
    rewrite (bind_return _ _ _ _ _ Hr), (bind_return _ _ _ _ _ Hrest).
    specialize (Hacc rest ds es Hacc2).
    destruct r as [|d|e]; cbn in *.
    + exists st2, ds, es. rewrite app_nil_r in Hd.
      repeat split; try congruence.
    + exists st2, (d :: ds), es.
      repeat split; try congruence.
      rewrite Hd2, Hd, <- app_assoc. reflexivity.
    + exists st2, ds, (e :: es). rewrite app_nil_r in Hd.
      repeat split; try congruence.
Qed.

(** What [Accounted] gives for each stored debt and for each participant. *)
Lemma Accounted_debts l ds es :
  Acc l ds es ->
  forall d, In d ds ->
    exists s p,
      In s l /\ ValidatedSplit.userId s = Some p
      /\ Of s p d.
Proof.
  induction 1 as [|s l ds es Hs Hacc IH|s p d0 l ds es Hs Hof Hv Hf Hacc IH
                 |s p d0 e l ds es Hs Hof Hv He Hacc IH]; intros d Hin.
  - destruct Hin.
  - destruct (IH d Hin) as (s' & p' & ? & ? & ?).
    exists s', p'. cbn. auto.
  - destruct Hin as [<-|Hin].
    + exists s, p. cbn. auto.
    + destruct (IH d Hin) as (s' & p' & ? & ? & ?).
      exists s', p'. cbn. auto.
  - destruct (IH d Hin) as (s' & p' & ? & ? & ?).
    exists s', p'. cbn. auto.
Qed.

Lemma Accounted_count l ds es :
  Acc l ds es ->
  List.length ds + List.length es = List.length (filter hasUser l).
Proof.
  induction 1 as [|s l ds es Hs Hacc IH|s p d0 l ds es Hs Hof Hv Hf Hacc IH
                 |s p d0 e l ds es Hs Hof Hv He Hacc IH];
    cbn; unfold hasUser; try rewrite Hs; cbn; try fold hasUser; lia.
Qed.

Lemma Accounted_participant l ds es :
  Acc l ds es ->
  forall s p, In s l -> ValidatedSplit.userId s = Some p ->
    (exists d, In d ds /\ Of s p d)
    \/ (exists e, In e es
                  /\ Response.de_friendId e = ValidatedSplit.friendId s).
Proof.
  induction 1 as [|s l ds es Hs Hacc IH|s p d0 l ds es Hs Hof Hv Hf Hacc IH
                 |s p d0 e l ds es Hs Hof Hv He Hacc IH];
    intros s' p' Hin Hp'.
  - destruct Hin.
  - destruct Hin as [<-|Hin]; [congruence|]. apply (IH s' p' Hin Hp').
  - destruct Hin as [<-|Hin].
    + left. exists d0. split; [left; reflexivity|].
      assert (p = p') by congruence. subst. assumption.
    + destruct (IH s' p' Hin Hp') as [(d & ? & ?)|(e & ? & ?)].
      * left. exists d. cbn. auto.
      * right. exists e. auto.
  - destruct Hin as [<-|Hin].
    + right. exists e. cbn. auto.
    + destruct (IH s' p' Hin Hp') as [(d & ? & ?)|(e' & ? & ?)].
      * left. exists d. auto.
      * right. exists e'. cbn. auto.
Qed.

End DebtLoop.

(** ** The notification loop *)

Lemma NotifiedOf_cons (userId : Id) (expense : SplitExpense.t)
    (s : ValidatedSplit.t) (l : list ValidatedSplit.t) (n : Notification.t) :
  NotifiedOf userId expense l n -> NotifiedOf userId expense (s :: l) n.
Proof.
  intros (s' & p & Hin & H). exists s', p. split; [right; exact Hin|exact H].
Qed.

Lemma notifyFor_sent (w : World) (userId : Id) (payerName description : string)
    (numTotalAmount : Number) (expense : SplitExpense.t)
    (s : ValidatedSplit.t) (st : Store) :
  exists st' r,
    notifyFor w userId payerName description numTotalAmount expense s st
    = (st', Return r)
    /\ expenses st' = expenses st
    /\ debts st' = debts st
    /\ match r with
       | Done n =>
           notifications st' = notifications st ++ [n]
           /\ NotifiedOf userId expense [s] n
       | _ => notifications st' = notifications st
       end.
Proof.
  unfold notifyFor, try_catch.
  destruct (ValidatedSplit.userId s) as [p|] eqn:Hp.
  - destruct (String.eqb_spec p userId) as [Heq|Hne].
    + exists st, Skipped. repeat split.
    + unfold Notification_create, newObjectId, modify, bind, ret, throw. cbn.
      match goal with
      | |- context [if ?c then _ else _] => destruct c
      end.
      * rewrite db_run.
        match goal with
        | |- context [db_fault w ?op] => destruct (db_fault w op)
        end.
        -- eexists _, (Failed _). repeat split.
        -- eexists _, (Done _). split; [reflexivity|]. cbn.
           repeat split.
           exists s, p. cbn. repeat split; auto.
      * eexists _, (Failed _). repeat split.
  - exists st, Skipped. repeat split.
Qed.

Lemma sendNotifications_sent (w : World) (userId : Id)
    (payerName description : string) (numTotalAmount : Number)
    (expense : SplitExpense.t) (l : list ValidatedSplit.t) (st : Store) :
  exists st' ns nes,
    sendNotifications w userId payerName description numTotalAmount expense
      l st = (st', Return (ns, nes))
    /\ expenses st' = expenses st
    /\ debts st' = debts st
    /\ notifications st' = notifications st ++ ns
    /\ Forall (NotifiedOf userId expense l) ns.
Proof.
  revert st. induction l as [|s rest IH]; intros st.
  - exists st, [], []. cbn. rewrite app_nil_r. repeat split. constructor.
  - destruct (notifyFor_sent w userId payerName description numTotalAmount
                expense s st) as (st1 & r & Hr & He & Hd & Hn).
    destruct (IH st1) as (st2 & ns & nes & Hrest & He2 & Hd2 & Hn2 & Hall).
    cbn [sendNotifications].
    rewrite (bind_return _ _ _ _ _ Hr), (bind_return _ _ _ _ _ Hrest).
    assert (Hall' : Forall (NotifiedOf userId expense (s :: rest)) ns).
    { eapply Forall_impl; [|exact Hall]. intros n. apply NotifiedOf_cons. }
    destruct r as [|n|e].
    + exists st2, ns, nes. split; [reflexivity|].
      repeat split; try congruence.
    + exists st2, (n :: ns), nes. split; [reflexivity|].
      destruct Hn as [Hn (s0 & p & Hin & Hrest0)].
      split; [congruence|]. split; [congruence|]. split.
      * rewrite Hn2, Hn, <- app_assoc. reflexivity.
      * constructor; [|exact Hall'].
        exists s0, p. split; [|exact Hrest0].
        destruct Hin as [<-|[]]. left. reflexivity.
    + exists st2, ns, (e :: nes). split; [reflexivity|].
      repeat split; try congruence.
Qed.

(** ** createSplitExpense, case by case *)

Lemma castObjectId_run (w : World) (v : IdValue) (st : Store) :
  castObjectId w v st
  = (st, if castable w v then Return (idOf w v)
         else Throw (error_message w (CastError (toString v)))).
Proof.
  destruct v as [id|s]; cbn; [reflexivity|].
  destruct (ObjectId_isValid w s); reflexivity.
Qed.

Lemma User_findById_run (w : World) (v : IdValue) (st : Store) :
  User_findById w v st
  = (st, if castable w v then
           match db_fault w (FindUser (idOf w v)) with
           | Some e => Throw e
           | None => Return (userById w (idOf w v))
           end
         else Throw (error_message w (CastError (toString v)))).
Proof.
  unfold User_findById, bind. rewrite castObjectId_run.
  destruct (castable w v); [|reflexivity]. apply db_run.
Qed.

(** Every way through createSplitExpense, with what it stores. *)
Lemma createSplitExpense_cases (w : World) (now : Date)
    (req : CreateSplitRequest.t) (st : Store) :
  let run := createSplitExpense w now req st in
  let userId := CreateSplitRequest.user_id req in
  let expense := expenseOf w req st in
  let shares := sharesOf w req st in
  if eventStored w req st then
    exists (ds : list Debt.t) es (ns : list Notification.t) nes,
      expenses (fst run) = expenses st ++ [expense]
      /\ debts (fst run) = debts st ++ ds
      /\ notifications (fst run) = notifications st ++ ns
      /\ Accounted w now userId (payerOfRequest req) (descriptionOf req)
           (splitTypeOf req) (totalOf req) expense shares ds es
      /\ Forall (NotifiedOf userId expense shares) ns
      /\ snd run =
         match db_fault w (PopulateExpense (SplitExpense._id expense)) with
         | Some e => createFailed w e
         | None =>
             created201 expense (List.length ds) (List.length ns)
               (totalOf req) (List.length shares) es nes
         end
  else
    expenses (fst run) = expenses st
    /\ debts (fst run) = debts st
    /\ notifications (fst run) = notifications st
    /\ Response.success (snd run) = false.
Proof.
  cbn zeta. unfold eventStored.
  set (run := createSplitExpense w now req st).
  set (userId := CreateSplitRequest.user_id req).
  assert (Hrun : run = createSplitExpense w now req st) by reflexivity.
  clearbody run. unfold createSplitExpense, respond in Hrun.
  destruct (missingRequired req); [subst run; cbn; auto|].
  fold (totalOf req) in Hrun.
  destruct (isNaN (totalOf req) || leb (totalOf req) (of_Z 0));
    [subst run; cbn; auto|].
  cbn [negb andb]. unfold createValidated in Hrun.
  change (CreateSplitRequest.user_id req) with userId in Hrun.
  pose proof (validateSplits_store w userId (splitsOfRequest req) st) as Hst.
  assert (Hv : validatedOf w req st
               = match validateSplits w userId (splitsOfRequest req) st with
                 | (_, Return vs) => vs
                 | (_, Throw _) => []
                 end) by reflexivity.
  destruct (validateSplits w userId (splitsOfRequest req) st)
    as [st0 [vs0|e]] eqn:Hvs; cbn in Hst; subst st0.
  2:{ rewrite (bind_throw _ _ _ _ _ Hvs) in Hrun. rewrite Hv.
      subst run. cbn. auto. }
  rewrite (bind_return _ _ _ _ _ Hvs) in Hrun.
  assert (Hshares : sharesOf w req st
                    = applySplitType (splitTypeOf req) (totalOf req) vs0).
  { unfold sharesOf. rewrite Hv. reflexivity. }
  rewrite Hv.
  destruct vs0 as [|v0 vs0']; [subst run; cbn; auto|].
  clear Hv. cbn [andb].
  rewrite <- Hshares in Hrun.
  change (payerOf (CreateSplitRequest.paidBy req) userId)
    with (payerOfRequest req) in Hrun.
  set (shares := sharesOf w req st) in *.
  set (payer := payerOfRequest req) in *.
  pose proof (User_findById_run w payer st) as Hpayer.
  destruct (castable w payer).
  2:{ rewrite (bind_throw _ _ _ _ _ Hpayer) in Hrun. subst run. cbn. auto. }
  cbn [andb].
  destruct (db_fault w (FindUser (idOf w payer))) as [e|].
  { rewrite (bind_throw _ _ _ _ _ Hpayer) in Hrun. subst run. cbn. auto. }
  cbn [andb].
  rewrite (bind_return _ _ _ _ _ Hpayer) in Hrun.
  set (payerName := match userById w (idOf w payer) with
                    | Some (User.mk _ (Some (String c n)) _) => String c n
                    | _ => "Someone"
                    end) in *.
  set (st1 := mkStore (expenses st) (debts st) (notifications st)
                      (S (generated st))).
  assert (Hid : newObjectId w st = (st1, Return (ObjectId_new w (generated st))))
    by reflexivity.
  rewrite (bind_return _ _ _ _ _ Hid) in Hrun.
  change (SplitExpense.mk (ObjectId_new w (generated st))
            (trim (descriptionOf req)) (totalOf req) (idOf w payer) userId _)
    with (expenseOf w req st) in Hrun.
  set (expense := expenseOf w req st) in *.
  unfold SplitExpense_create in Hrun.
  destruct (splitExpenseSchema_valid w expense);
    [|subst run; cbn; auto].
  cbn [andb].
  destruct (db_fault w (SaveExpense expense)) as [e|] eqn:Hfault.
  { rewrite (bind_throw _ _ _ st1 e) in Hrun.
    - subst run. cbn. auto.
    - rewrite (bind_throw _ _ _ _ _ (db_throw _ _ _ _ _ Hfault)). reflexivity. }
  set (st2 := mkStore (expenses st1 ++ [expense]) (debts st1)
                      (notifications st1) (generated st1)).
  rewrite (bind_return _ _ _ st2 tt) in Hrun.
  2:{ rewrite (bind_return _ _ _ _ _ (db_return _ _ _ _ Hfault)). reflexivity. }
  destruct (createDebts_run w now userId payer (descriptionOf req)
              (splitTypeOf req) (totalOf req) expense shares st2)
    as (st3 & ds & es & Hds & He3 & Hn3 & Hd3 & Hacc).
  rewrite (bind_return _ _ _ _ _ Hds) in Hrun.
  destruct (sendNotifications_sent w userId payerName (descriptionOf req)
              (totalOf req) expense shares st3)
    as (st4 & ns & nes & Hns & He4 & Hd4 & Hn4 & Hall).
  rewrite (bind_return _ _ _ _ _ Hns) in Hrun.
  exists ds, es, ns, nes.
  destruct (db_fault w (PopulateExpense (SplitExpense._id expense))) as [e|]
    eqn:Hpop.
  - rewrite (bind_throw _ _ _ _ _ (db_throw _ _ _ _ _ Hpop)) in Hrun.
    subst run. cbn [fst snd].
    split; [rewrite He4, He3; reflexivity|].
    split; [rewrite Hd4, Hd3; reflexivity|].
    split; [rewrite Hn4, Hn3; reflexivity|].
    split; [exact Hacc|]. split; [exact Hall|reflexivity].
  - rewrite (bind_return _ _ _ _ _ (db_return _ _ _ _ Hpop)) in Hrun.
    subst run. cbn [fst snd ret].
    split; [rewrite He4, He3; reflexivity|].
    split; [rewrite Hd4, Hd3; reflexivity|].
    split; [rewrite Hn4, Hn3; reflexivity|].
    split; [exact Hacc|]. split; [exact Hall|reflexivity].
Qed.

(** The same by cases: nothing is stored and the answer is a failure, or
    the split event is stored. *)
Lemma createSplitExpense_stored (w : World) (now : Date)
    (req : CreateSplitRequest.t) (st : Store) :
  let run := createSplitExpense w now req st in
  let userId := CreateSplitRequest.user_id req in
  (expenses (fst run) = expenses st
   /\ debts (fst run) = debts st
   /\ notifications (fst run) = notifications st
   /\ Response.success (snd run) = false)
  \/ exists (ds : list Debt.t) es (ns : list Notification.t) nes,
       isNaN (totalOf req) = false
       /\ leb (totalOf req) (of_Z 0) = false
       /\ let expense := expenseOf w req st in
          splitExpenseSchema_valid w expense = true
          /\ expenses (fst run) = expenses st ++ [expense]
          /\ debts (fst run) = debts st ++ ds
          /\ notifications (fst run) = notifications st ++ ns
          /\ Accounted w now userId (payerOfRequest req) (descriptionOf req)
               (splitTypeOf req) (totalOf req) expense (sharesOf w req st)
               ds es
          /\ Forall (NotifiedOf userId expense (sharesOf w req st)) ns
          /\ snd run =
             match db_fault w (PopulateExpense (SplitExpense._id expense)) with
             | Some e => createFailed w e
             | None =>
                 created201 expense (List.length ds) (List.length ns)
                   (totalOf req) (List.length (sharesOf w req st)) es nes
             end.
Proof.
  cbn zeta. pose proof (createSplitExpense_cases w now req st) as Hcases.
  cbn zeta in Hcases.
  destruct (eventStored w req st) eqn:Hstored; [|left; exact Hcases].
  right. destruct Hcases as (ds & es & ns & nes & H).
  exists ds, es, ns, nes.
  unfold eventStored in Hstored.
  repeat (apply andb_prop in Hstored; destruct Hstored as [Hstored ?]).
  match goal with
  | H : negb (_ || _) = true |- _ =>
      apply negb_true_iff in H; apply orb_false_iff in H; destruct H
  end.
  split; [assumption|]. split; [assumption|]. split; [assumption|].
  exact H.
Qed.

(** ** The direction of a split debt *)

(** The three tests of the debt loop, read on the strings they compare. *)
Lemma debtDirection_rule (payer : IdValue) (userId participant : Id) :
  let direction := debtDirection payer userId participant in
  (toString payer = userId -> direction = (Oid userId, Oid participant))
  /\ (toString payer <> userId -> toString payer = participant ->
      direction = (Oid participant, Oid userId))
  /\ (toString payer <> userId -> toString payer <> participant ->
      direction = (payer, Oid participant)).
Proof.
  cbn zeta. unfold debtDirection.
  destruct (String.eqb_spec (toString payer) userId) as [Hu|Hu];
    [|destruct (String.eqb_spec (toString payer) participant) as [Hp|Hp]];
    repeat split; intros; congruence.
Qed.

(** Through the handler: once the split event is stored, every debt stored
    belongs to a participant with a user id, carries that participant's
    share and has the creditor and the debtor the three tests give. *)
Lemma split_debts_follow_the_tests (w : World) (now : Date)
    (req : CreateSplitRequest.t) (st : Store) :
  let run := createSplitExpense w now req st in
  let userId := CreateSplitRequest.user_id req in
  let payer := payerOfRequest req in
  eventStored w req st = true ->
  exists created (errors : list Response.DebtError),
    debts (fst run) = debts st ++ created
    /\ List.length created + List.length errors
       = List.length (filter hasUser (sharesOf w req st))
    /\ Forall
         (fun d =>
            exists s p,
              In s (sharesOf w req st)
              /\ ValidatedSplit.userId s = Some p
              /\ Debt.amount d = ValidatedSplit.amount s
              /\ (toString payer = userId ->
                  Debt.creditor d = userId /\ Debt.debtor d = p)
              /\ (toString payer <> userId -> toString payer = p ->
                  Debt.creditor d = p /\ Debt.debtor d = userId)
              /\ (toString payer <> userId -> toString payer <> p ->
                  Debt.creditor d = idOf w payer /\ Debt.debtor d = p))
         created.
Proof.
  cbn zeta. intros Hstored.
  pose proof (createSplitExpense_cases w now req st) as Hcases.
  cbn zeta in Hcases. rewrite Hstored in Hcases.
  destruct Hcases as (ds & es & ns & nes & _ & Hdebts & _ & Hacc & _).
  exists ds, es. split; [exact Hdebts|].
  split; [exact (Accounted_count _ _ _ _ _ _ _ _ _ _ _ Hacc)|].
  apply Forall_forall. intros d Hin.
  destruct (Accounted_debts _ _ _ _ _ _ _ _ _ _ _ Hacc d Hin)
    as (s & p & Hs & Hp & Hof).
  exists s, p. split; [exact Hs|]. split; [exact Hp|].
  destruct (debtDirection_rule (payerOfRequest req)
              (CreateSplitRequest.user_id req) p) as (H1 & H2 & H3).
  rewrite Hof. cbn [Debt.amount Debt.creditor Debt.debtor splitDebt].
  split; [reflexivity|].
  split; [intros Hu; rewrite (H1 Hu); split; reflexivity|].
  split.
  - intros Hu Hpp. rewrite (H2 Hu Hpp). split; reflexivity.
  - intros Hu Hpp. rewrite (H3 Hu Hpp). split; reflexivity.
Qed.

(** The three configurations, run: Alice pays; Bob, a participant, pays;
    Dave, a third party, pays. *)
Example direction_requester_paid :
  List.map (fun d => (Debt.creditor d, Debt.debtor d))
    (debts (fst (createSplitExpense Sample.world Sample.now Sample.equalRequest
                   Sample.empty)))
  = [(Sample.alice, Sample.bob); (Sample.alice, Sample.carol)].
Proof. vm_compute. reflexivity. Qed.

Example direction_participant_paid :
  List.map (fun d => (Debt.creditor d, Debt.debtor d))
    (debts (fst (createSplitExpense Sample.world Sample.now Sample.bobPaidRequest
                   Sample.empty)))
  = [(Sample.bob, Sample.alice); (Sample.bob, Sample.carol)].
Proof. vm_compute. reflexivity. Qed.

Example direction_third_party_paid :
  List.map (fun d => (Debt.creditor d, Debt.debtor d))
    (debts (fst (createSplitExpense Sample.world Sample.now Sample.davePaidRequest
                   Sample.empty)))
  = [(Sample.dave, Sample.bob); (Sample.dave, Sample.carol)].
Proof. vm_compute. reflexivity. Qed.

(** C1.  The rule is broken when the request spells the payer's id in
    capitals.  Bob paid and is the one participant, so by the rule the
    requester, Alice, owes Bob his share.  The tests compare the strings,
    find the payer equal to neither the requester nor the participant and
    take him for a third party; the payer is then cast to Bob's ObjectId,
    and the record stored has Bob as creditor and as debtor. *)
Theorem capital_payer_owes_themself :
  let req := Sample.capitalsRequest in
  let run := createSplitExpense Sample.world Sample.now req Sample.empty in
  userById Sample.world (idOf Sample.world (payerOfRequest req))
  = Sample.userOf Sample.bob
  /\ List.map ValidatedSplit.userId (validatedOf Sample.world req Sample.empty)
     = [Some Sample.bob]
  /\ CreateSplitRequest.user_id req = Sample.alice
  /\ Response.status (snd run) = 201
  /\ List.map (fun d => (Debt.creditor d, Debt.debtor d, Debt.amount d))
       (debts (fst run))
     = [(Sample.bob, Sample.bob, of_Z 45)].
Proof. vm_compute. repeat split; reflexivity. Qed.

(** C2.  createManualDebt stores a debt of the requester to themself: with
    the requester's own id as [debtorId] the answer is 201 and the stored
    record has equal creditor and debtor. *)
Theorem createManualDebt_self_debt :
  let req :=
    DebtController.ManualDebtRequest.mk Sample.alice (Some Sample.alice)
      (Some (of_Z 25)) (Some "Lunch") None in
  let run := DebtController.createManualDebt Sample.world Sample.now req
               Sample.empty in
  Response.status (snd run) = 201
  /\ List.map (fun d => (Debt.creditor d, Debt.debtor d)) (debts (fst run))
     = [(Sample.alice, Sample.alice)].
Proof. vm_compute. split; reflexivity. Qed.

(** The same through a split: a friend record that points back at the
    requester yields a debt of the requester to themself. *)
Example createSplitExpense_self_debt :
  let run := createSplitExpense Sample.world Sample.now Sample.selfRequest
               Sample.empty in
  Response.status (snd run) = 201
  /\ List.map (fun d => (Debt.creditor d, Debt.debtor d)) (debts (fst run))
     = [(Sample.alice, Sample.alice)].
Proof. vm_compute. split; reflexivity. Qed.

(** ** Who is validated *)





(** ** Equal shares *)

Lemma hundredths_nearest (m : positive) (k : positive) :
  let n := hundredths m (Zneg k) in
  (2 * n * 2 ^ Zpos k - 2 ^ Zpos k <= 200 * Zpos m
   < 2 * n * 2 ^ Zpos k + 2 ^ Zpos k)%Z.
Proof.
  cbn zeta. unfold hundredths.
  assert (Hpow : (0 < 2 ^ Zpos k)%Z) by (apply Z.pow_pos_nonneg; lia).
  replace (2 ^ (Zpos k + 1))%Z with (2 * 2 ^ Zpos k)%Z
    by (rewrite Z.pow_add_r by lia; lia).
  set (P := (2 ^ Zpos k)%Z) in *.
  pose proof (Z.div_mod (200 * Zpos m + P) (2 * P) ltac:(lia)) as Hdm.
  pose proof (Z.mod_pos_bound (200 * Zpos m + P) (2 * P) ltac:(lia)) as Hb.
  set (q := ((200 * Zpos m + P) / (2 * P))%Z) in *.
  nia.
Qed.



Lemma filter_all {A} (f : A -> bool) (l : list A) :
  filter f l = l -> Forall (fun x => f x = true) l.
Proof.
  induction l as [|x l IH]; cbn; [constructor|].
  destruct (f x) eqn:Hx.
  - intros H. inversion H as [H']. rewrite H'. constructor; auto.
  - intros H. exfalso.
    assert (Hlen : List.length (filter f l) <= List.length l)
      by apply filter_length_le.
    rewrite H in Hlen. cbn in Hlen. lia.
Qed.



(** Both records then name the requester as creditor and carry 33.33; the
    recorded shares leave 33.34 to the payer, which no record holds. *)
Example equal_split_scenario :
  let run := createSplitExpense Sample.world Sample.now Sample.equalRequest
               Sample.empty in
  List.map (fun d => (Debt.creditor d, Debt.debtor d, Debt.amount d))
    (debts (fst run))
  = [(Sample.alice, Sample.bob, of_hundredths false 3333);
     (Sample.alice, Sample.carol, of_hundredths false 3333)]
  /\ List.map (fun e => List.map Split.amount (SplitExpense.splits e))
       (expenses (fst run))
     = [[of_hundredths false 3333; of_hundredths false 3333]]
  /\ sub (of_Z 100) (add (of_hundredths false 3333) (of_hundredths false 3333))
     = of_hundredths false 3334.
Proof. vm_compute. repeat split; reflexivity. Qed.

(** C4.  createSplitExpense does not compare the provided shares with the
    total: with total 100 and the shares 30, 30 and 20, whose sum is off by
    20, the answer is 201, the split event is stored with these shares and
    the three debts are created. *)
Theorem explicit_mismatch_accepted :
  let run := createSplitExpense Sample.world Sample.now Sample.explicitRequest
               Sample.empty in
  let sum := add (add (of_Z 30) (of_Z 30)) (of_Z 20) in
  gtb (abs (sub sum (of_Z 100))) (of_hundredths false 1) = true
  /\ Response.status (snd run) = 201
  /\ Response.success (snd run) = true
  /\ List.map (fun e => (SplitExpense.totalAmount e,
                         List.map Split.amount (SplitExpense.splits e)))
       (expenses (fst run))
     = [(of_Z 100, [of_Z 30; of_Z 30; of_Z 20])]
  /\ List.map Debt.amount (debts (fst run)) = [of_Z 30; of_Z 30; of_Z 20].
Proof. vm_compute. repeat split; reflexivity. Qed.

(** ** No valid participants *)

Lemma validateSplits_none (w : World) (userId : Id) (l : list SplitInput.t)
    (st : Store) :
  Forall (fun s => resolveSplit w userId s st = (st, Return None)) l ->
  validateSplits w userId l st = (st, Return []).
Proof.
  induction 1 as [|s rest Hs Hrest IH]; [reflexivity|].
  cbn [validateSplits].
  rewrite (bind_return _ _ _ _ _ Hs), (bind_return _ _ _ _ _ IH).
  reflexivity.
Qed.

(** When every entry is skipped by the validation loop, createSplitExpense
    writes nothing and answers 400; for a request whose required fields are
    present and whose total is positive the answer is 'No valid friends
    found for this expense'. *)
Lemma skipped_entries_answer_400 (w : World) (now : Date)
    (req : CreateSplitRequest.t) (st : Store) :
  Forall (fun s => resolveSplit w (CreateSplitRequest.user_id req) s st
                   = (st, Return None))
         (splitsOfRequest req) ->
  let run := createSplitExpense w now req st in
  fst run = st
  /\ Response.status (snd run) = 400
  /\ Response.success (snd run) = false
  /\ snd run =
     if missingRequired req then missingFields
     else if isNaN (totalOf req) || leb (totalOf req) (of_Z 0)
          then notPositive
          else noValidFriends.
Proof.
  intros Hnone. cbn zeta. unfold createSplitExpense, respond.
  destruct (missingRequired req); [cbn; auto|].
  fold (totalOf req).
  destruct (isNaN (totalOf req) || leb (totalOf req) (of_Z 0)); [cbn; auto|].
  apply validateSplits_none in Hnone.
  unfold createValidated. rewrite (bind_return _ _ _ _ _ Hnone).
  cbn. auto.
Qed.

Example strangers_answer_400 :
  let run := createSplitExpense Sample.world Sample.now
               Sample.strangersRequest Sample.empty in
  fst run = Sample.empty /\ snd run = noValidFriends.
Proof. vm_compute. split; reflexivity. Qed.

(** C8.  A participant reference that is no ObjectId does not resolve, yet
    the request is not answered with the validation error: the lookup of
    the friend record throws, and the answer is 500 'Failed to create split
    expense'.  Nothing is written. *)
Theorem malformed_reference_answers_500 :
  let req := Sample.malformedRequest in
  let run := createSplitExpense Sample.world Sample.now req Sample.empty in
  List.map SplitInput.friendId (splitsOfRequest req) = [Some "not-an-id"]
  /\ ObjectId_isValid Sample.world "not-an-id" = false
  /\ validatedOf Sample.world req Sample.empty = []
  /\ Response.status (snd run) = 500
  /\ Response.message (snd run) = "Failed to create split expense"
  /\ snd run <> noValidFriends
  /\ fst run = Sample.empty.
Proof.
  vm_compute. repeat split; try reflexivity. discriminate.
Qed.

(** An entry with an address only is validated, resolves to no account,
    and the answer is 500 as well. *)
Example address_only_answers_500 :
  let req :=
    CreateSplitRequest.mk Sample.alice (Some "Dinner") (Some (of_Z 100)) None
      (Some [SplitInput.mk None (Some "erin@example.com") None]) None in
  let run := createSplitExpense Sample.world Sample.now req Sample.empty in
  List.map ValidatedSplit.userId (validatedOf Sample.world req Sample.empty)
  = [None]
  /\ Response.status (snd run) = 500
  /\ expenses (fst run) = []
  /\ debts (fst run) = []
  /\ notifications (fst run) = [].
Proof. vm_compute. repeat split; reflexivity. Qed.

(** ** Partial failure of the debt loop *)



(** The same run in full: the record for Carol is not stored, those for
    Bob and Dave are. *)
Example invalid_share_is_reported :
  let run := createSplitExpense Sample.world Sample.now
               Sample.zeroShareRequest Sample.empty in
  Response.status (snd run) = 201
  /\ List.map Debt.debtor (debts (fst run)) = [Sample.bob; Sample.dave]
  /\ match Response.body (snd run) with
     | Response.CreatedSplit _ summary warnings =>
         Response.debtsCreated summary = 2
         /\ option_map (List.map Response.de_friendId)
              (Response.debtErrors warnings)
            = Some [Some Sample.fcarol]
     | _ => False
     end.
Proof. vm_compute. repeat split; reflexivity. Qed.

(** A storage failure on Carol's debt: Bob's debt is kept, the split event
    is kept, the answer is still 201. *)
Example storage_failure_is_reported :
  let run := createSplitExpense Sample.flaky Sample.now Sample.equalRequest
               Sample.empty in
  Response.status (snd run) = 201
  /\ List.length (expenses (fst run)) = 1
  /\ List.map Debt.debtor (debts (fst run)) = [Sample.bob]
  /\ match Response.body (snd run) with
     | Response.CreatedSplit _ summary warnings =>
         Response.debtsCreated summary = 1
         /\ Response.debtErrors warnings
            = Some [Response.mkDebtError (Some Sample.fcarol)
                      "storage unavailable"]
     | _ => False
     end.
Proof. vm_compute. repeat split; reflexivity. Qed.

(** ** Marking a debt as paid *)

Import DebtController.

Lemma findDebt_id (id : Id) (l : list Debt.t) (d : Debt.t) :
  findDebt id l = Some d -> Debt._id d = id.
Proof.
  induction l as [|x rest IH]; cbn; [discriminate|].
  destruct (String.eqb_spec (Debt._id x) id) as [Hx|Hx]; intros H.
  - inversion H; subst. reflexivity.
  - apply IH. exact H.
Qed.

Lemma findDebt_replaceDebt (id : Id) (l : list Debt.t) (d d' : Debt.t) :
  findDebt id l = Some d -> Debt._id d' = id ->
  findDebt id (replaceDebt d' l) = Some d'.
Proof.
  intros Hfind Hid. induction l as [|x rest IH]; cbn in *; [discriminate|].
  rewrite Hid.
  destruct (String.eqb_spec (Debt._id x) id) as [Hx|Hx].
  - cbn. rewrite Hid, String.eqb_refl. reflexivity.
  - cbn. destruct (String.eqb_spec (Debt._id x) id); [contradiction|].
    apply IH. exact Hfind.
Qed.

Lemma findDebt_replaceDebt_other (id : Id) (l : list Debt.t) (d' : Debt.t) :
  Debt._id d' <> id ->
  findDebt id (replaceDebt d' l) = findDebt id l.
Proof.
  intros Hid. induction l as [|x rest IH]; cbn; [reflexivity|].
  destruct (String.eqb_spec (Debt._id x) (Debt._id d')) as [Hx|Hx]; cbn.
  - destruct (String.eqb_spec (Debt._id d') id); [contradiction|].
    destruct (String.eqb_spec (Debt._id x) id); [congruence|]. reflexivity.
  - destruct (String.eqb_spec (Debt._id x) id); [reflexivity|]. exact IH.
Qed.

(** Every way through markDebtAsPaid. *)
Lemma markDebtAsPaid_run (w : World) (now : Date) (req : MarkPaidRequest.t)
    (st : Store) :
  let run := markDebtAsPaid w now req st in
  (fst run = st /\ Response.success (snd run) = false)
  \/ exists d,
       ObjectId_isValid w (MarkPaidRequest.debtId req) = true
       /\ findDebt (MarkPaidRequest.debtId req) (debts st) = Some d
       /\ Debt.debtor d = MarkPaidRequest.user_id req
       /\ Debt.status d <> paid
       /\ let d' := markedPaid now (MarkPaidRequest.paymentMethod req) d in
          debtSchema_valid w d' = true
          /\ db_fault w (SaveDebt d') = None
          /\ fst run = mkStore (expenses st) (replaceDebt d' (debts st))
                         (notifications st) (generated st)
          /\ snd run = Response.mk 200 true "Debt marked as paid successfully"
                         (Response.DebtBody d').
Proof.
  intros run.
  assert (Hrun : run = markDebtAsPaid w now req st) by reflexivity.
  clearbody run. unfold markDebtAsPaid, respond in Hrun.
  destruct (ObjectId_isValid w (MarkPaidRequest.debtId req)) eqn:Hvalid;
    cbn [negb] in Hrun; [|rejected run].
  unfold Debt_findById, get in Hrun. unfold bind at 1 2 in Hrun.
  rewrite db_run in Hrun.
  destruct (db_fault w (FindDebt (MarkPaidRequest.debtId req)));
    [rejected run|].
  destruct (findDebt (MarkPaidRequest.debtId req) (debts st)) as [d|] eqn:Hfind;
    [|rejected run].
  destruct (String.eqb_spec (Debt.debtor d) (MarkPaidRequest.user_id req))
    as [Hdebtor|Hdebtor]; cbn [negb] in Hrun; [|rejected run].
  destruct (DebtStatus_eqb (Debt.status d) paid) eqn:Hstatus;
    [rejected run|].
  set (d' := markedPaid now (MarkPaidRequest.paymentMethod req) d).
  assert (E : Debt.set_updatedAt now
                (if truthy (MarkPaidRequest.paymentMethod req)
                 then Debt.set_paymentMethod
                        (MarkPaidRequest.paymentMethod req)
                        (Debt.set_paidAt (Some now) (Debt.set_status paid d))
                 else Debt.set_paidAt (Some now) (Debt.set_status paid d))
              = d').
  { unfold d', markedPaid.
    destruct (truthy (MarkPaidRequest.paymentMethod req)); reflexivity. }
  unfold Debt_save in Hrun. rewrite E in Hrun.
  destruct (debtSchema_valid w d') eqn:Hpm;
    [|rejected run].
  unfold bind, modify in Hrun. rewrite db_run in Hrun.
  destruct (db_fault w (SaveDebt d')) eqn:Hsave;
    [rejected run|].
  right. exists d. subst run. cbn [fst snd ret].
  split; [reflexivity|]. split; [reflexivity|]. split; [exact Hdebtor|].
  split.
  - intros Hp. rewrite Hp in Hstatus. discriminate.
  - cbn zeta. fold d'. repeat split; assumption.
Qed.


(** C10.  A successful markDebtAsPaid on a pending debt sets [status] to
    paid, [paidAt] and [updatedAt] to the time of the call, and
    [paymentMethod] to the one supplied if any; creditor, debtor, amount,
    description, type and relatedExpenseId (and the remaining fields) of the
    record keep their values, and so does every other debt. *)
Theorem mark_paid_frame (w : World) (now : Date) (req : MarkPaidRequest.t)
    (st : Store) (d : Debt.t) :
  let run := markDebtAsPaid w now req st in
  let id := MarkPaidRequest.debtId req in
  findDebt id (debts st) = Some d ->
  Debt.status d = pending ->
  Response.success (snd run) = true ->
  exists d',
    findDebt id (debts (fst run)) = Some d'
    /\ Response.body (snd run) = Response.DebtBody d'
    /\ Debt.status d' = paid
    /\ Debt.paidAt d' = Some now
    /\ Debt.updatedAt d' = now
    /\ Debt.paymentMethod d'
       = (if truthy (MarkPaidRequest.paymentMethod req)
          then MarkPaidRequest.paymentMethod req
          else Debt.paymentMethod d)
    /\ Debt.creditor d' = Debt.creditor d
    /\ Debt.debtor d' = Debt.debtor d
    /\ Debt.amount d' = Debt.amount d
    /\ Debt.description d' = Debt.description d
    /\ Debt.type d' = Debt.type d
    /\ Debt.relatedExpenseId d' = Debt.relatedExpenseId d
    /\ Debt._id d' = Debt._id d
    /\ Debt.dueDate d' = Debt.dueDate d
    /\ Debt.metadata d' = Debt.metadata d
    /\ Debt.createdAt d' = Debt.createdAt d
    /\ (forall other, other <> id ->
          findDebt other (debts (fst run)) = findDebt other (debts st))
    /\ expenses (fst run) = expenses st
    /\ notifications (fst run) = notifications st.
Proof.
  cbn zeta. intros Hfind _ Hsuccess.
  destruct (markDebtAsPaid_run w now req st)
    as [[_ Hfail]|(d0 & _ & Hfind0 & _ & _ & _ & _ & Hst & Hresp)].
  { rewrite Hfail in Hsuccess. discriminate. }
  rewrite Hfind in Hfind0. inversion Hfind0; subst d0; clear Hfind0.
  set (d' := markedPaid now (MarkPaidRequest.paymentMethod req) d) in *.
  assert (Hid : Debt._id d' = MarkPaidRequest.debtId req).
  { transitivity (Debt._id d);
      [|exact (findDebt_id _ _ _ Hfind)].
    unfold d', markedPaid.
    destruct (truthy (MarkPaidRequest.paymentMethod req)); reflexivity. }
  exists d'. rewrite Hst, Hresp. cbn [debts expenses notifications].
  split; [exact (findDebt_replaceDebt _ _ _ _ Hfind Hid)|].
  split; [reflexivity|].
  assert (Hother : forall other, other <> MarkPaidRequest.debtId req ->
            findDebt other (replaceDebt d' (debts st))
            = findDebt other (debts st)).
  { intros other Hne. apply findDebt_replaceDebt_other. congruence. }
  unfold d', markedPaid in *.
  destruct (truthy (MarkPaidRequest.paymentMethod req)); cbn;
    repeat split; auto.
Qed.

Lemma mark_paid_frame_witness :
  let run := markDebtAsPaid Sample.world Sample.now Sample.bobPays
               (Sample.ledger pending) in
  exists d',
    findDebt Sample.debtId (debts (fst run)) = Some d'
    /\ Debt.status d' = paid
    /\ Debt.paymentMethod d' = Some "upi"
    /\ Debt.creditor d' = Sample.alice
    /\ Debt.debtor d' = Sample.bob
    /\ Debt.amount d' = of_Z 30.
Proof.
  cbn zeta.
  destruct (mark_paid_frame Sample.world Sample.now Sample.bobPays
              (Sample.ledger pending) (Sample.debtWith pending)
              eq_refl eq_refl eq_refl)
    as (d' & Hfind & _ & Hstatus & _ & _ & Hpm & Hc & Hd & Ha & _).
  exists d'. repeat split; assumption.
Defined.




(** ** Terminal states *)

(** C6.  A cancelled debt leaves its state: markDebtAsPaid only refuses a
    debt that is already paid, so the debtor of a cancelled debt gets 200
    and the debt becomes paid. *)
Theorem cancelled_debt_marked_paid :
  let run := markDebtAsPaid Sample.world Sample.now Sample.bobPays
               (Sample.ledger cancelled) in
  List.map Debt.status (debts (Sample.ledger cancelled)) = [cancelled]
  /\ Response.status (snd run) = 200
  /\ Response.success (snd run) = true
  /\ List.map Debt.status (debts (fst run)) = [paid].
Proof. vm_compute. repeat split; reflexivity. Qed.

(** And a paid debt leaves its state through the creditor's "cancel debt"
    route, which checks no status at all. *)
Example paid_debt_cancelled :
  let run := DebtRoutes.cancelDebt Sample.world Sample.now
               (DebtRoutes.CancelRequest.mk Sample.alice Sample.debtId)
               (Sample.ledger paid) in
  Response.status (snd run) = 200
  /\ List.map Debt.status (debts (fst run)) = [cancelled].
Proof. vm_compute. split; reflexivity. Qed.

(** The cascade of a split event, for its part, touches pending debts only. *)
Lemma cascadeOne_not_pending (expenseId : Id) (toSettled : bool) (now : Date)
    (d : Debt.t) :
  Debt.status d <> pending -> cascadeOne expenseId toSettled now d = d.
Proof.
  intros H. unfold cascadeOne, linkedPending.
  destruct (Debt.status d); try contradiction;
    rewrite andb_false_r; reflexivity.
Qed.

(** ** The cascade of a split event's status *)

Lemma update_status_debts (w : World) (now : Date)
    (req : UpdateStatusRequest.t) (st : Store) (e : SplitExpense.t)
    (target : ExpenseStatus) :
  let id := UpdateStatusRequest.expenseId req in
  let userId := UpdateStatusRequest.user_id req in
  parseStatus (UpdateStatusRequest.status req) = Some target ->
  target <> active ->
  ObjectId_isValid w id = true ->
  db_fault w (FindExpense id) = None ->
  findExpense id (expenses st) = Some e ->
  SplitExpense.createdBy e = userId \/ SplitExpense.paidBy e = userId ->
  db_fault w (UpdateManyDebts id) = None ->
  debts (fst (updateSplitExpenseStatus w now req st))
  = List.map (cascadeOne id match target with settled => true | _ => false end
                now)
             (debts st).
Proof.
  cbn zeta. intros Hstatus Hactive Hvalid Hread Hfind Hperm Hupdate.
  unfold updateSplitExpenseStatus, respond. rewrite Hstatus.
  unfold SplitExpense_findById. rewrite Hvalid.
  unfold get. unfold bind at 1 2.
  rewrite (db_return _ _ _ _ Hread), Hfind.
  assert (Hp : (SplitExpense.createdBy e =? UpdateStatusRequest.user_id req)
               || (SplitExpense.paidBy e =? UpdateStatusRequest.user_id req)
               = true).
  { destruct Hperm as [-> | ->]; rewrite String.eqb_refl;
      [reflexivity | apply orb_true_r]. }
  rewrite Hp. cbn [negb].
  destruct target; [contradiction| |];
    unfold Debt_updateMany, SplitExpense_save, modify, bind;
    rewrite (db_return _ _ _ _ Hupdate);
    repeat (rewrite db_run;
            match goal with
            | |- context [db_fault w ?op] => destruct (db_fault w op)
            end; cbn [ret]);
    reflexivity.
Qed.

Lemma cascadeOne_flags (id : Id) (toSettled : bool) (now : Date) (d : Debt.t) :
  let s := if toSettled then paid else cancelled in
  let d' := cascadeOne id toSettled now d in
  linkedTo id d' && DebtStatus_eqb (Debt.status d') pending = false
  /\ linkedTo id d' && DebtStatus_eqb (Debt.status d') s
     = (linkedTo id d && DebtStatus_eqb (Debt.status d) s)
       || (linkedTo id d && DebtStatus_eqb (Debt.status d) pending)
  /\ (linkedTo id d && DebtStatus_eqb (Debt.status d) s)
     && (linkedTo id d && DebtStatus_eqb (Debt.status d) pending) = false.
Proof.
  destruct d as [i c b a ds st ty [r|] du pa pm me ca ua];
    unfold cascadeOne, linkedPending, linkedTo; cbn;
    [destruct (r =? id) eqn:E|];
    destruct st, toSettled; cbn; rewrite ?E; cbn; auto.
Qed.

Lemma cascade_counts (id : Id) (toSettled : bool) (now : Date)
    (l : list Debt.t) :
  let s := if toSettled then paid else cancelled in
  let l' := List.map (cascadeOne id toSettled now) l in
  countLinked id pending l' = 0
  /\ countLinked id s l' = countLinked id s l + countLinked id pending l.
Proof.
  cbn zeta. unfold countLinked.
  induction l as [|d rest [IH0 IH1]]; [split; reflexivity|].
  cbn [List.map filter].
  destruct (cascadeOne_flags id toSettled now d) as (H0 & H1 & H2).
  cbn zeta in H0, H1, H2. rewrite H0, H1.
  destruct (linkedTo id d && DebtStatus_eqb (Debt.status d)
                                (if toSettled then paid else cancelled));
    destruct (linkedTo id d && DebtStatus_eqb (Debt.status d) pending);
    try discriminate; cbn [orb List.length]; split; lia.
Qed.

Lemma cascade_each (id : Id) (toSettled : bool) (now : Date)
    (l : list Debt.t) :
  Forall2
    (fun d d' =>
       (linkedPending id d = true ->
        Debt.status d' = (if toSettled then paid else cancelled)
        /\ Debt._id d' = Debt._id d
        /\ Debt.creditor d' = Debt.creditor d
        /\ Debt.debtor d' = Debt.debtor d
        /\ Debt.amount d' = Debt.amount d
        /\ Debt.relatedExpenseId d' = Debt.relatedExpenseId d)
       /\ (linkedPending id d = false -> d' = d))
    l (List.map (cascadeOne id toSettled now) l).
Proof.
  induction l as [|d rest IH]; cbn [List.map]; constructor; [|exact IH].
  unfold cascadeOne. destruct (linkedPending id d).
  - split; [intros _|discriminate]. cbn. repeat split; reflexivity.
  - split; [discriminate|reflexivity].
Qed.

(** C5.  An authorized update of a split event to settled (cancelled) turns
    every pending debt linked to it into paid (cancelled), whoever its
    creditor and debtor are, and leaves every other debt as it is; no linked
    debt remains pending, and the linked debts of the new status are those
    there were plus all that were pending. *)
Theorem status_cascade (w : World) (now : Date)
    (req : UpdateStatusRequest.t) (st : Store) (e : SplitExpense.t)
    (target : ExpenseStatus) :
  let id := UpdateStatusRequest.expenseId req in
  let userId := UpdateStatusRequest.user_id req in
  let after := debts (fst (updateSplitExpenseStatus w now req st)) in
  parseStatus (UpdateStatusRequest.status req) = Some target ->
  target <> active ->
  ObjectId_isValid w id = true ->
  db_fault w (FindExpense id) = None ->
  findExpense id (expenses st) = Some e ->
  SplitExpense.createdBy e = userId \/ SplitExpense.paidBy e = userId ->
  db_fault w (UpdateManyDebts id) = None ->
  Forall2
    (fun d d' =>
       (linkedPending id d = true ->
        Debt.status d' = cascaded target
        /\ Debt._id d' = Debt._id d
        /\ Debt.creditor d' = Debt.creditor d
        /\ Debt.debtor d' = Debt.debtor d
        /\ Debt.amount d' = Debt.amount d
        /\ Debt.relatedExpenseId d' = Debt.relatedExpenseId d)
       /\ (linkedPending id d = false -> d' = d))
    (debts st) after
  /\ countLinked id pending after = 0
  /\ countLinked id (cascaded target) after
     = countLinked id (cascaded target) (debts st)
       + countLinked id pending (debts st).
Proof.
  cbn zeta. intros Hstatus Hactive Hvalid Hread Hfind Hperm Hupdate.
  rewrite (update_status_debts w now req st e target Hstatus Hactive Hvalid
             Hread Hfind Hperm Hupdate).
  set (toSettled := match target with settled => true | _ => false end).
  assert (Hc : cascaded target = if toSettled then paid else cancelled).
  { unfold toSettled. destruct target; reflexivity. }
  rewrite Hc.
  split; [apply cascade_each|].
  apply cascade_counts.
Qed.

(** Settling the dinner: its two pending debts become paid, the cancelled
    one and the unrelated one stay. *)
Lemma status_cascade_witness :
  let after := debts (fst (updateSplitExpenseStatus Sample.world Sample.now
                             Sample.settleDinner Sample.dinnerLedger)) in
  countLinked Sample.dinnerId pending Sample.dinnerLedger.(debts) = 2
  /\ countLinked Sample.dinnerId pending after = 0
  /\ countLinked Sample.dinnerId paid after = 2.
Proof.
  cbn zeta. split; [reflexivity|].
  destruct (status_cascade Sample.world Sample.now Sample.settleDinner
              Sample.dinnerLedger Sample.dinner settled
              eq_refl ltac:(discriminate) eq_refl eq_refl eq_refl
              (or_introl eq_refl) eq_refl)
    as (_ & H0 & H1).
  split; [exact H0 | exact H1].
Defined.

Example settle_dinner :
  let run := updateSplitExpenseStatus Sample.world Sample.now
               Sample.settleDinner Sample.dinnerLedger in
  Response.status (snd run) = 200
  /\ List.map Debt.status (debts (fst run))
     = [paid; paid; cancelled; pending].
Proof. vm_compute. split; reflexivity. Qed.

(** * Further properties of the handlers *)

Lemma eqb_neq_false (a b : string) : a <> b -> (a =? b) = false.
Proof. intros H. destruct (String.eqb_spec a b); [contradiction|reflexivity]. Qed.

(** ** updateSplitExpenseStatus: who may, and what a failure leaves *)

(** X1.  A requester who neither created nor paid the split event gets 403
    'Not authorized to update this expense', whatever status is asked for,
    and nothing is written: no debt is cascaded. *)
Theorem status_update_needs_creator_or_payer (w : World) (now : Date)
    (req : UpdateStatusRequest.t) (st : Store) (e : SplitExpense.t)
    (target : ExpenseStatus) :
  let id := UpdateStatusRequest.expenseId req in
  let userId := UpdateStatusRequest.user_id req in
  parseStatus (UpdateStatusRequest.status req) = Some target ->
  ObjectId_isValid w id = true ->
  db_fault w (FindExpense id) = None ->
  findExpense id (expenses st) = Some e ->
  SplitExpense.createdBy e <> userId ->
  SplitExpense.paidBy e <> userId ->
  updateSplitExpenseStatus w now req st
  = (st, Response.mk 403 false "Not authorized to update this expense"
           Response.NoBody).
Proof.
  cbn zeta. intros Hstatus Hvalid Hread Hfind Hc Hp.
  unfold updateSplitExpenseStatus, SplitExpense_findById.
  rewrite Hstatus, Hvalid. open_run.
  rewrite Hread, Hfind, (eqb_neq_false _ _ Hc), (eqb_neq_false _ _ Hp).
  reflexivity.
Qed.

Lemma status_update_needs_creator_or_payer_witness :
  updateSplitExpenseStatus Sample.world Sample.now Scene.bobSettlesDinner
    Sample.dinnerLedger
  = (Sample.dinnerLedger,
     Response.mk 403 false "Not authorized to update this expense"
       Response.NoBody).
Proof.
  apply (status_update_needs_creator_or_payer Sample.world Sample.now
           Scene.bobSettlesDinner Sample.dinnerLedger Sample.dinner settled);
    first [reflexivity | discriminate].
Defined.

Lemma update_status_debts_cases (w : World) (now : Date)
    (req : UpdateStatusRequest.t) (st : Store) :
  let run := updateSplitExpenseStatus w now req st in
  debts (fst run) = debts st
  \/ exists toSettled : bool,
       parseStatus (UpdateStatusRequest.status req)
       = Some (if toSettled then settled else cancelled_expense)
       /\ debts (fst run)
          = List.map (cascadeOne (UpdateStatusRequest.expenseId req)
                        toSettled now)
                     (debts st).
Proof.
  cbn zeta.
  unfold updateSplitExpenseStatus, SplitExpense_findById, Debt_updateMany,
    SplitExpense_save.
  destruct (parseStatus (UpdateStatusRequest.status req)) as [[| |]|];
    walk; cbn [debts];
    first [ left; reflexivity
          | right; exists true; split; reflexivity
          | right; exists false; split; reflexivity ].
Qed.

Lemma cascadeOne_no_pending (id : Id) (toSettled : bool) (now : Date)
    (l : list Debt.t) :
  countLinked id pending l = 0 ->
  List.map (cascadeOne id toSettled now) l = l.
Proof.
  unfold countLinked.
  induction l as [|d rest IH]; [reflexivity|].
  cbn [List.map filter]. unfold cascadeOne at 1, linkedPending.
  fold (linkedTo id d).
  destruct (linkedTo id d && DebtStatus_eqb (Debt.status d) pending);
    cbn [List.length]; intros H; [discriminate|].
  rewrite (IH H). reflexivity.
Qed.

(** X2.  The cascade is not undone by a later failure: when the store
    accepts [Debt.updateMany] but rejects the save of the split event, the
    answer is 500 and the split event is as before, while its pending debts
    have already become paid (or cancelled). *)
Theorem failed_expense_save_keeps_cascade (w : World) (now : Date)
    (req : UpdateStatusRequest.t) (st : Store) (e : SplitExpense.t)
    (target : ExpenseStatus) :
  let id := UpdateStatusRequest.expenseId req in
  let userId := UpdateStatusRequest.user_id req in
  let run := updateSplitExpenseStatus w now req st in
  parseStatus (UpdateStatusRequest.status req) = Some target ->
  target <> active ->
  ObjectId_isValid w id = true ->
  db_fault w (FindExpense id) = None ->
  findExpense id (expenses st) = Some e ->
  SplitExpense.createdBy e = userId \/ SplitExpense.paidBy e = userId ->
  db_fault w (UpdateManyDebts id) = None ->
  (forall x, db_fault w (SaveExpense x) <> None) ->
  Response.status (snd run) = 500
  /\ expenses (fst run) = expenses st
  /\ countLinked id pending (debts (fst run)) = 0
  /\ countLinked id (cascaded target) (debts (fst run))
     = countLinked id (cascaded target) (debts st)
       + countLinked id pending (debts st).
Proof.
  cbn zeta. intros Hstatus Hactive Hvalid Hread Hfind Hperm Hupdate Hsave.
  assert (Hp : (SplitExpense.createdBy e =? UpdateStatusRequest.user_id req)
               || (SplitExpense.paidBy e =? UpdateStatusRequest.user_id req)
               = true).
  { destruct Hperm as [-> | ->]; rewrite String.eqb_refl;
      [reflexivity | apply orb_true_r]. }
  pose proof (update_status_debts w now req st e target Hstatus Hactive Hvalid
                Hread Hfind Hperm Hupdate) as Hdebts.
  cbn zeta in Hdebts. rewrite Hdebts.
  assert (Hc : cascaded target
               = if match target with settled => true | _ => false end
                 then paid else cancelled)
    by (destruct target; reflexivity).
  rewrite Hc.
  split; [|split; [|apply cascade_counts]].
  - unfold updateSplitExpenseStatus, SplitExpense_findById, Debt_updateMany,
      SplitExpense_save.
    rewrite Hstatus, Hvalid. open_run. rewrite Hread, Hfind, Hp.
    destruct target; [contradiction| |]; open_run; rewrite Hupdate; open_run;
      (split_run; [reflexivity | exfalso; eapply Hsave; eassumption]).
  - unfold updateSplitExpenseStatus, SplitExpense_findById, Debt_updateMany,
      SplitExpense_save.
    rewrite Hstatus, Hvalid. open_run. rewrite Hread, Hfind, Hp.
    destruct target; [contradiction| |]; open_run; rewrite Hupdate; open_run;
      (split_run; [reflexivity | exfalso; eapply Hsave; eassumption]).
Qed.

Lemma failed_expense_save_keeps_cascade_witness :
  let run := updateSplitExpenseStatus Scene.expenseSaveFails Sample.now
               Sample.settleDinner Sample.dinnerLedger in
  Response.status (snd run) = 500
  /\ expenses (fst run) = expenses Sample.dinnerLedger
  /\ countLinked Sample.dinnerId pending (debts (fst run)) = 0.
Proof.
  cbn zeta.
  destruct (failed_expense_save_keeps_cascade Scene.expenseSaveFails
              Sample.now Sample.settleDinner Sample.dinnerLedger Sample.dinner
              settled eq_refl ltac:(discriminate) eq_refl eq_refl eq_refl
              (or_introl eq_refl) eq_refl ltac:(intros x; discriminate))
    as (H1 & H2 & H3 & _).
  repeat split; assumption.
Defined.

(** X3.  Setting a split event back to active never touches a debt: debts
    that a settlement made paid stay paid. *)
Theorem reactivation_keeps_debts (w : World) (now : Date)
    (req : UpdateStatusRequest.t) (st : Store) :
  parseStatus (UpdateStatusRequest.status req) = Some active ->
  debts (fst (updateSplitExpenseStatus w now req st)) = debts st.
Proof.
  intros Hactive.
  destruct (update_status_debts_cases w now req st)
    as [H|(b & Hb & _)]; [exact H|].
  rewrite Hactive in Hb. destruct b; discriminate.
Qed.

Lemma reactivation_keeps_debts_witness :
  List.map Debt.status
    (debts (fst (updateSplitExpenseStatus Sample.world Sample.later
                   Scene.reopenDinner Scene.settledLedger)))
  = [paid; paid; cancelled; pending].
Proof.
  rewrite (reactivation_keeps_debts Sample.world Sample.later
             Scene.reopenDinner Scene.settledLedger eq_refl).
  reflexivity.
Defined.

(** X4.  Once no debt linked to a split event is pending, no status update
    of that event changes any debt: settling twice, or cancelling what was
    settled, leaves the debts exactly as the first cascade left them. *)
Theorem status_update_without_pending_debts (w : World) (now : Date)
    (req : UpdateStatusRequest.t) (st : Store) :
  countLinked (UpdateStatusRequest.expenseId req) pending (debts st) = 0 ->
  debts (fst (updateSplitExpenseStatus w now req st)) = debts st.
Proof.
  intros Hnone.
  destruct (update_status_debts_cases w now req st)
    as [H|(b & _ & H)]; [exact H|].
  rewrite H. apply cascadeOne_no_pending. exact Hnone.
Qed.

Lemma status_update_without_pending_debts_witness :
  debts (fst (updateSplitExpenseStatus Sample.world Sample.later
                Scene.cancelDinner Scene.settledLedger))
  = debts Scene.settledLedger.
Proof.
  apply (status_update_without_pending_debts Sample.world Sample.later
           Scene.cancelDinner Scene.settledLedger).
  reflexivity.
Defined.

(** ** createSplitExpense: notifications and what gets stored *)

(** X5.  The notifications createSplitExpense stores: each goes to a
    resolved participant other than the requester, is sent by the requester,
    carries that participant's share and points to the split event stored
    by the same call; a successful answer counts exactly these. *)
Theorem split_notifications_go_to_participants (w : World) (now : Date)
    (req : CreateSplitRequest.t) (st : Store) :
  let run := createSplitExpense w now req st in
  let userId := CreateSplitRequest.user_id req in
  exists sent,
    notifications (fst run) = notifications st ++ sent
    /\ Forall
         (fun n =>
            Notification.userId n <> userId
            /\ Notification.senderId n = userId
            /\ (exists s,
                  In s (sharesOf w req st)
                  /\ ValidatedSplit.userId s = Some (Notification.userId n)
                  /\ Notification.data_amount n = ValidatedSplit.amount s)
            /\ (exists e,
                  expenses (fst run) = expenses st ++ [e]
                  /\ Notification.relatedId n = SplitExpense._id e))
         sent
    /\ (Response.success (snd run) = true ->
        exists e summary warnings,
          Response.body (snd run) = Response.CreatedSplit e summary warnings
          /\ Response.notificationsSent summary = List.length sent).
Proof.
  cbn zeta.
  destruct (createSplitExpense_stored w now req st)
    as [(_ & _ & Hn & Hfail)
       |(ds & es & ns & nes & _ & _ & _ & He & _ & Hn & _ & Hall & Hout)].
  - exists []. rewrite app_nil_r. split; [exact Hn|]. split; [constructor|].
    intros Hok. rewrite Hfail in Hok. discriminate.
  - exists ns. split; [exact Hn|]. split.
    + eapply Forall_impl; [|exact Hall].
      intros n (s & p & Hin & Hp & Hne & Hto & Hfrom & Hrel & Hamt).
      split; [congruence|]. split; [exact Hfrom|]. split.
      * exists s. rewrite Hto. auto.
      * exists (expenseOf w req st). split; [exact He|exact Hrel].
    + intros Hok. rewrite Hout in *.
      destruct (db_fault w (PopulateExpense _)); cbn in Hok;
        [discriminate|].
      eexists _, _, _. split; reflexivity.
Qed.

(** With Bob and Carol as participants, both are notified and Alice, the
    requester, is not. *)
Example notifications_of_the_dinner :
  List.map (fun n => (Notification.userId n, Notification.senderId n))
    (notifications (fst (createSplitExpense Sample.world Sample.now
                           Sample.equalRequest Sample.empty)))
  = [(Sample.bob, Sample.alice); (Sample.carol, Sample.alice)]
  /\ notifications (fst (createSplitExpense Sample.world Sample.now
                           Sample.selfRequest Sample.empty)) = [].
Proof. vm_compute. split; reflexivity. Qed.

Lemma resolveSplit_address (w : World) (userId : Id) (s : SplitInput.t)
    (st : Store) :
  truthy (SplitInput.friendId s) = false ->
  truthy (SplitInput.email s) = true ->
  exists v,
    resolveSplit w userId s st = (st, Return (Some v))
    /\ ValidatedSplit.friendId v = None.
Proof.
  intros Hf He. unfold resolveSplit.
  destruct (SplitInput.friendId s) as [[|c f]|]; try discriminate;
    rewrite He; eexists; split; reflexivity.
Qed.

Lemma validateSplits_address (w : World) (userId : Id)
    (l : list SplitInput.t) (s : SplitInput.t) (st : Store) :
  In s l ->
  truthy (SplitInput.friendId s) = false ->
  truthy (SplitInput.email s) = true ->
  match validateSplits w userId l st with
  | (_, Return vs) => exists v, In v vs /\ ValidatedSplit.friendId v = None
  | (_, Throw _) => True
  end.
Proof.
  intros Hin Hf He. induction l as [|x rest IH]; [destruct Hin|].
  cbn [validateSplits]. unfold bind at 1.
  pose proof (resolveSplit_store w userId x st) as Hx.
  destruct (resolveSplit w userId x st) as [st1 [r|e]] eqn:Hr; cbn in Hx;
    subst st1; [|exact I].
  unfold bind.
  pose proof (validateSplits_store w userId rest st) as Hrest.
  destruct (validateSplits w userId rest st) as [st2 [vs|e]] eqn:Hvs;
    cbn in Hrest; subst st2; [|exact I].
  cbn. destruct Hin as [->|Hin].
  - destruct (resolveSplit_address w userId s st Hf He) as (v & Hv & Hnone).
    rewrite Hv in Hr. inversion Hr; subst r.
    exists v. split; [left; reflexivity|exact Hnone].
  - destruct (IH Hin) as (v & Hv & Hnone).
    exists v. split; [|exact Hnone].
    destruct r; [right|]; exact Hv.
Qed.

Lemma applySplitType_friendId (splitType : string) (total : Number)
    (vs : list ValidatedSplit.t) (v : ValidatedSplit.t) :
  In v vs ->
  exists v', In v' (applySplitType splitType total vs)
             /\ ValidatedSplit.friendId v' = ValidatedSplit.friendId v.
Proof.
  intros Hin. unfold applySplitType.
  destruct (splitType =? "equal").
  - eexists. split; [apply in_map; exact Hin|reflexivity].
  - exists v. auto.
Qed.

(** X6.  A participant given by address only makes the whole request fail:
    the split schema requires [friendId] in every entry, so the split event
    is not stored, and neither debts nor notifications are created. *)
Theorem address_only_participant_fails (w : World) (now : Date)
    (req : CreateSplitRequest.t) (st : Store) (s : SplitInput.t) :
  let run := createSplitExpense w now req st in
  In s (splitsOfRequest req) ->
  truthy (SplitInput.friendId s) = false ->
  truthy (SplitInput.email s) = true ->
  Response.success (snd run) = false
  /\ expenses (fst run) = expenses st
  /\ debts (fst run) = debts st
  /\ notifications (fst run) = notifications st.
Proof.
  cbn zeta. intros Hin Hf He.
  destruct (createSplitExpense_stored w now req st)
    as [(H1 & H2 & H3 & H4)
       |(ds & es & ns & nes & _ & _ & Hvalid & _)]; [auto|].
  exfalso.
  pose proof (validateSplits_address w (CreateSplitRequest.user_id req)
                (splitsOfRequest req) s st Hin Hf He) as Haddr.
  unfold splitExpenseSchema_valid in Hvalid. cbn in Hvalid.
  repeat (apply andb_true_iff in Hvalid; destruct Hvalid as [Hvalid ?]).
  match goal with
  | H : forallb _ _ = true |- _ => rename H into Hall
  end.
  match goal with
  | H : negb (Nat.eqb _ 0) = true |- _ => rename H into Hlen
  end.
  unfold sharesOf, validatedOf in Hall, Hlen.
  destruct (validateSplits w (CreateSplitRequest.user_id req)
              (splitsOfRequest req) st) as [st0 [vs|e]].
  - destruct Haddr as (v & Hv & Hnone).
    destruct (applySplitType_friendId (splitTypeOf req) (totalOf req) vs v Hv)
      as (v' & Hv' & Hsame).
    rewrite forallb_forall in Hall.
    assert (Hsp : In (Split.mk (ValidatedSplit.friendId v')
                        (ValidatedSplit.amount v'))
                     (splitsOf (applySplitType (splitTypeOf req) (totalOf req)
                                  vs))).
    { unfold splitsOf.
      apply (in_map (fun s => Split.mk (ValidatedSplit.friendId s)
                                (ValidatedSplit.amount s))).
      exact Hv'. }
    apply Hall in Hsp. unfold splitSchema_valid in Hsp. cbn in Hsp.
    rewrite Hsame, Hnone in Hsp. discriminate.
  - unfold applySplitType in Hlen.
    destruct (splitTypeOf req =? "equal"); discriminate.
Qed.

Lemma address_only_participant_fails_witness :
  let run := createSplitExpense Sample.world Sample.now Scene.addressRequest
               Sample.empty in
  Response.success (snd run) = false /\ expenses (fst run) = [].
Proof.
  cbn zeta.
  destruct (address_only_participant_fails Sample.world Sample.now
              Scene.addressRequest Sample.empty
              (SplitInput.mk None (Some "erin@example.com") (Some (of_Z 30)))
              (or_intror (or_introl eq_refl)) eq_refl eq_refl)
    as (H1 & H2 & _).
  split; [exact H1 | exact H2].
Defined.

Lemma Accounted_valid (w : World) (now : Date) (userId : Id)
    (payer : IdValue) (description splitType : string) (total : Number)
    (expense : SplitExpense.t) l ds es :
  Accounted w now userId payer description splitType total expense l ds es ->
  forall d, In d ds -> debtSchema_valid w d = true.
Proof.
  induction 1 as [|s l ds es Hs Hacc IH|s p d0 l ds es Hs Hof Hv Hf Hacc IH
                 |s p d0 e l ds es Hs Hof Hv He Hacc IH]; intros d Hin;
    try (apply IH; exact Hin).
  - destruct Hin.
  - destruct Hin as [<-|Hin]; [exact Hv|apply IH; exact Hin].
Qed.

(** X7.  Every debt createSplitExpense stores is pending, of type split and
    linked to the split event the same call stored, and its amount is a
    number of at least 0.01: a share below that never becomes a debt. *)
Theorem split_debts_are_pending_and_linked (w : World) (now : Date)
    (req : CreateSplitRequest.t) (st : Store) :
  let run := createSplitExpense w now req st in
  exists created,
    debts (fst run) = debts st ++ created
    /\ Forall
         (fun d =>
            Debt.status d = pending
            /\ Debt.type d = split
            /\ (exists e,
                  expenses (fst run) = expenses st ++ [e]
                  /\ Debt.relatedExpenseId d = Some (SplitExpense._id e))
            /\ isNaN (Debt.amount d) = false
            /\ geb (Debt.amount d) (of_hundredths false 1) = true)
         created.
Proof.
  cbn zeta.
  destruct (createSplitExpense_stored w now req st)
    as [(_ & Hd & _)
       |(ds & es & ns & nes & _ & _ & _ & He & Hd & _ & Hacc & _)].
  - exists []. rewrite app_nil_r. split; [exact Hd|constructor].
  - exists ds. split; [exact Hd|].
    apply Forall_forall. intros d Hin.
    destruct (Accounted_debts _ _ _ _ _ _ _ _ _ _ _ Hacc d Hin)
      as (s & p & _ & _ & Hof).
    assert (Hst : Debt.status d = pending) by (rewrite Hof; reflexivity).
    assert (Hty : Debt.type d = split) by (rewrite Hof; reflexivity).
    assert (Hrel : Debt.relatedExpenseId d
                   = Some (SplitExpense._id (expenseOf w req st)))
      by (rewrite Hof; reflexivity).
    pose proof (Accounted_valid _ _ _ _ _ _ _ _ _ _ _ Hacc d Hin) as Hvalid.
    unfold debtSchema_valid in Hvalid.
    repeat (apply andb_true_iff in Hvalid; destruct Hvalid as [Hvalid ?]).
    split; [exact Hst|]. split; [exact Hty|]. split.
    + exists (expenseOf w req st). split; [exact He|exact Hrel].
    + split; [|assumption].
      match goal with
      | H : negb (isNaN _) = true |- _ =>
          apply negb_true_iff in H; exact H
      end.
Qed.

(** With a total of 0.01 among three the equal share prints as 0.00: the
    split event is stored and answered 201, and no debt is. *)
Example penny_split_creates_no_debt :
  let req :=
    CreateSplitRequest.mk Sample.alice (Some "Gum")
      (Some (of_hundredths false 1)) None
      (Some [Sample.friendSplit Sample.fbob None;
             Sample.friendSplit Sample.fcarol None]) None in
  let run := createSplitExpense Sample.world Sample.now req Sample.empty in
  Response.status (snd run) = 201
  /\ List.length (expenses (fst run)) = 1
  /\ debts (fst run) = [].
Proof. vm_compute. repeat split; reflexivity. Qed.

Lemma positive_when_not_leb_zero (x : Number) :
  isNaN x = false -> leb x (of_Z 0) = false -> gtb x (of_Z 0) = true.
Proof.
  destruct x as [s|s| |s m e]; cbn; try destruct s; cbn;
    intros; try discriminate; reflexivity.
Qed.

(** X8.  A split event that createSplitExpense stores is created by the
    requester and paid by the user whose ObjectId the payer of the request
    casts to, has a positive total and as description the one of the
    request with the white space of JavaScript's [trim] (that of Unicode
    included) stripped at both ends, which is not empty, and at least one
    entry; each entry names a friend record by a valid ObjectId and has an
    amount that is a number, not negative.  At most one is stored per
    call. *)
Theorem stored_split_event_shape (w : World) (now : Date)
    (req : CreateSplitRequest.t) (st : Store) :
  let run := createSplitExpense w now req st in
  exists stored,
    expenses (fst run) = expenses st ++ stored
    /\ List.length stored <= 1
    /\ Forall
         (fun e =>
            SplitExpense.createdBy e = CreateSplitRequest.user_id req
            /\ SplitExpense.paidBy e = idOf w (payerOfRequest req)
            /\ ObjectId_isValid w (SplitExpense.paidBy e) = true
            /\ SplitExpense.description e = trim (descriptionOf req)
            /\ SplitExpense.description e <> ""
            /\ SplitExpense.totalAmount e = totalOf req
            /\ gtb (SplitExpense.totalAmount e) (of_Z 0) = true
            /\ SplitExpense.splits e <> []
            /\ Forall
                 (fun sp =>
                    (exists f, Split.friendId sp = Some f
                               /\ ObjectId_isValid w f = true)
                    /\ isNaN (Split.amount sp) = false
                    /\ geb (Split.amount sp) (of_Z 0) = true)
                 (SplitExpense.splits e))
         stored.
Proof.
  cbn zeta.
  destruct (createSplitExpense_stored w now req st)
    as [(He & _)
       |(ds & es & ns & nes & Hnan & Hpos & Hvalid & He & _)].
  - exists []. rewrite app_nil_r. split; [exact He|].
    split; [cbn; lia|constructor].
  - exists [expenseOf w req st]. split; [exact He|].
    split; [cbn; lia|]. constructor; [|constructor].
    unfold splitExpenseSchema_valid in Hvalid.
    repeat (apply andb_true_iff in Hvalid; destruct Hvalid as [Hvalid ?]).
    cbn in *.
    repeat (split; [reflexivity|]).
    split; [assumption|]. split; [reflexivity|].
    split.
    { intros Hempty.
      match goal with
      | H : negb (_ =? "") = true |- _ => rewrite Hempty in H; discriminate
      end. }
    split; [reflexivity|].
    split; [apply positive_when_not_leb_zero; assumption|].
    split.
    { intros Hnil.
      match goal with
      | H : negb (Nat.eqb (List.length _) 0) = true |- _ =>
          rewrite Hnil in H; discriminate
      end. }
    apply Forall_forall. intros sp Hin.
    match goal with
    | H : forallb _ _ = true |- _ =>
        rewrite forallb_forall in H; specialize (H sp Hin);
        unfold splitSchema_valid in H;
        repeat (apply andb_true_iff in H; destruct H as [H ?])
    end.
    split.
    + destruct (Split.friendId sp) as [f|]; [|discriminate].
      exists f. auto.
    + split; [|assumption].
      match goal with
      | H : negb (isNaN _) = true |- _ => apply negb_true_iff in H; exact H
      end.
Qed.

(** ** debtController.js: createManualDebt and markDebtAsPaid *)

Lemma createManualDebt_cases (w : World) (now : Date)
    (req : ManualDebtRequest.t) (st : Store) :
  let run := createManualDebt w now req st in
  expenses (fst run) = expenses st
  /\ notifications (fst run) = notifications st
  /\ ((debts (fst run) = debts st /\ Response.status (snd run) <> 201)
      \/ exists d,
           debts (fst run) = debts st ++ [d]
           /\ Debt.creditor d = ManualDebtRequest.user_id req
           /\ ManualDebtRequest.debtorId req = Some (Debt.debtor d)
           /\ ObjectId_isValid w (Debt.debtor d) = true
           /\ Debt.status d = pending
           /\ Debt.type d = manual
           /\ Debt.relatedExpenseId d = None
           /\ Debt.paidAt d = None
           /\ Debt.dueDate d = ManualDebtRequest.dueDate req
           /\ isNaN (Debt.amount d) = false
           /\ geb (Debt.amount d) (of_hundredths false 1) = true).
Proof.
  cbn zeta. unfold createManualDebt, Debt_new, Debt_create, newObjectId.
  walk; cbn [expenses notifications debts Response.status];
    (split; [reflexivity|]); (split; [reflexivity|]);
    try (left; split; [reflexivity|discriminate]).
  all: right; eexists; split; [reflexivity|]; cbn.
  all: match goal with
       | H : debtSchema_valid _ _ = true |- _ =>
           unfold debtSchema_valid in H; cbn in H;
           repeat (apply andb_true_iff in H; destruct H as [H ?])
       end.
  all: match goal with
       | H : negb (isNaN _) = true |- _ => apply negb_true_iff in H
       end.
  all: match goal with
       | H : (if ObjectId_isValid _ ?x then false else true) = false |- _ =>
           destruct (ObjectId_isValid w x) eqn:?; [|discriminate]
       | _ => idtac
       end.
  all: repeat split; auto.
Qed.

(** X9.  createManualDebt stores at most one debt, and what it stores is a
    pending manual debt owed to the requester by the user named in the
    request, linked to no split event, unpaid, with an amount that is a
    number of at least 0.01; an answer 201 means it was stored. *)
Theorem manual_debt_shape (w : World) (now : Date)
    (req : ManualDebtRequest.t) (st : Store) :
  let run := createManualDebt w now req st in
  expenses (fst run) = expenses st
  /\ notifications (fst run) = notifications st
  /\ ((debts (fst run) = debts st /\ Response.status (snd run) <> 201)
      \/ exists d,
           debts (fst run) = debts st ++ [d]
           /\ Debt.creditor d = ManualDebtRequest.user_id req
           /\ ManualDebtRequest.debtorId req = Some (Debt.debtor d)
           /\ ObjectId_isValid w (Debt.debtor d) = true
           /\ Debt.status d = pending
           /\ Debt.type d = manual
           /\ Debt.relatedExpenseId d = None
           /\ Debt.paidAt d = None
           /\ Debt.dueDate d = ManualDebtRequest.dueDate req
           /\ isNaN (Debt.amount d) = false
           /\ geb (Debt.amount d) (of_hundredths false 1) = true).
Proof. exact (createManualDebt_cases w now req st). Qed.

(** Alice records that Bob owes her 25 for lunch. *)
Example manual_debt_for_lunch :
  let run := createManualDebt Sample.world Sample.now Scene.lunchRequest
               Sample.empty in
  Response.status (snd run) = 201
  /\ List.map (fun d => (Debt.creditor d, Debt.debtor d, Debt.amount d,
                         Debt.status d))
       (debts (fst run))
     = [(Sample.alice, Sample.bob, of_Z 25, pending)].
Proof. vm_compute. split; reflexivity. Qed.

(** X10.  Only the debtor can mark a debt as paid: for anyone else
    markDebtAsPaid fails and leaves the store as it is. *)
Theorem mark_paid_needs_the_debtor (w : World) (now : Date)
    (req : MarkPaidRequest.t) (st : Store) (d : Debt.t) :
  let run := markDebtAsPaid w now req st in
  findDebt (MarkPaidRequest.debtId req) (debts st) = Some d ->
  Debt.debtor d <> MarkPaidRequest.user_id req ->
  fst run = st /\ Response.success (snd run) = false.
Proof.
  cbn zeta. intros Hfind Hne.
  destruct (markDebtAsPaid_run w now req st)
    as [H|(d0 & _ & Hfind0 & Hdebtor & _)]; [exact H|].
  rewrite Hfind in Hfind0. inversion Hfind0; subst d0. contradiction.
Qed.

Lemma mark_paid_needs_the_debtor_witness :
  let run := markDebtAsPaid Sample.world Sample.now Scene.alicePays
               (Sample.ledger pending) in
  fst run = Sample.ledger pending /\ Response.status (snd run) = 403.
Proof.
  cbn zeta.
  destruct (mark_paid_needs_the_debtor Sample.world Sample.now Scene.alicePays
              (Sample.ledger pending) (Sample.debtWith pending) eq_refl
              ltac:(discriminate)) as [H _].
  split; [exact H | reflexivity].
Defined.

(** X11.  A debt that was successfully marked as paid is never overdue,
    whenever the virtual [isOverdue] is read and whatever its due date. *)
Theorem paid_debt_is_never_overdue (w : World) (now later : Date)
    (req : MarkPaidRequest.t) (st : Store) (d' : Debt.t) :
  let run := markDebtAsPaid w now req st in
  Response.success (snd run) = true ->
  findDebt (MarkPaidRequest.debtId req) (debts (fst run)) = Some d' ->
  DebtModel.isOverdue later d' = false.
Proof.
  cbn zeta. intros Hok Hfind.
  destruct (markDebtAsPaid_run w now req st)
    as [[_ Hfail]|(d & _ & Hfind0 & _ & _ & _ & _ & Hst & _)].
  { rewrite Hfail in Hok. discriminate. }
  rewrite Hst in Hfind. cbn [debts] in Hfind.
  assert (Hid : Debt._id (markedPaid now (MarkPaidRequest.paymentMethod req) d)
                = MarkPaidRequest.debtId req).
  { transitivity (Debt._id d); [|exact (findDebt_id _ _ _ Hfind0)].
    unfold markedPaid.
    destruct (truthy (MarkPaidRequest.paymentMethod req)); reflexivity. }
  rewrite (findDebt_replaceDebt _ _ _ _ Hfind0 Hid) in Hfind.
  inversion Hfind; subst d'.
  unfold DebtModel.isOverdue, markedPaid.
  destruct (truthy (MarkPaidRequest.paymentMethod req)); cbn;
    destruct (Debt.dueDate d); reflexivity.
Qed.

Lemma paid_debt_is_never_overdue_witness :
  DebtModel.isOverdue Sample.now Scene.dueDebt = true
  /\ forall d',
       findDebt Sample.debtId
         (debts (fst (markDebtAsPaid Sample.world Sample.now Sample.bobPays
                        Scene.dueLedger))) = Some d' ->
       DebtModel.isOverdue Sample.later d' = false.
Proof.
  split; [reflexivity|]. intros d'.
  apply (paid_debt_is_never_overdue Sample.world Sample.now Sample.later
           Sample.bobPays Scene.dueLedger d' eq_refl).
Defined.

(** ** debtController.js: listings, delete and reminder *)

Import DebtControllerMore.




(** Every way through deleteDebt. *)
Lemma deleteDebt_run (b : Backend) (req : DeleteRequest.t) (st : Store) :
  let run := deleteDebt b req st in
  let id := DeleteRequest.debtId req in
  (fst run = st /\ Response.success (snd run) = false)
  \/ exists d,
       ObjectId_isValid (world b) id = true
       /\ db_fault (world b) (FindDebt id) = None
       /\ findDebt id (debts st) = Some d
       /\ Debt.creditor d = DeleteRequest.user_id req
       /\ fst run = mkStore (expenses st) (removeDebt id (debts st))
                      (notifications st) (generated st)
       /\ snd run = Response.mk 200 true "Debt deleted successfully"
                      Response.NoBody.
Proof.
  cbn zeta. unfold deleteDebt, Debt_findById.
  walk; try (left; split; reflexivity).
  tidy. right. eexists.
  split; [assumption|]. split; [reflexivity|]. split; [reflexivity|].
  split; [assumption|]. split; reflexivity.
Qed.

(** X12.  Only the creditor can delete a debt: for anyone else deleteDebt
    fails and leaves the store as it is. *)
Theorem only_the_creditor_deletes (b : Backend) (req : DeleteRequest.t)
    (st : Store) (d : Debt.t) :
  let run := deleteDebt b req st in
  findDebt (DeleteRequest.debtId req) (debts st) = Some d ->
  Debt.creditor d <> DeleteRequest.user_id req ->
  fst run = st /\ Response.success (snd run) = false.
Proof.
  cbn zeta. intros Hfind Hne.
  destruct (deleteDebt_run b req st)
    as [H|(d0 & _ & _ & Hfind0 & Hc & _)]; [exact H|].
  rewrite Hfind in Hfind0. inversion Hfind0; subst d0. contradiction.
Qed.

Lemma only_the_creditor_deletes_witness :
  let run := deleteDebt Scene.backend Scene.deleteByBob
               (Sample.ledger pending) in
  fst run = Sample.ledger pending /\ Response.status (snd run) = 403.
Proof.
  cbn zeta.
  destruct (only_the_creditor_deletes Scene.backend Scene.deleteByBob
              (Sample.ledger pending) (Sample.debtWith pending) eq_refl
              ltac:(discriminate)) as [H _].
  split; [exact H | reflexivity].
Defined.



Lemma listed_debts {A} (f : Debt.t -> A) (l : list Debt.t) :
  List.map fst (List.map (fun d => (d, f d)) l) = l.
Proof.
  induction l as [|x rest IH]; [reflexivity|]. cbn. rewrite IH. reflexivity.
Qed.

(** X14.  A manual debt that was just created shows up for both parties:
    it is in the creditor's list of debts owed to them and in the debtor's
    list of debts they owe, and neither listing writes anything. *)
Theorem new_manual_debt_is_listed (b : Backend) (now : Date)
    (req : ManualDebtRequest.t) (st : Store) (debtor : Id) :
  let creditor := ManualDebtRequest.user_id req in
  let run := createManualDebt (world b) now req st in
  let owedToMe := getDebtsOwedToMe b creditor (fst run) in
  let owedByMe := getDebtsOwedByMe b debtor (fst run) in
  Response.status (snd run) = 201 ->
  ManualDebtRequest.debtorId req = Some debtor ->
  query_fault b (FindDebtsByCreditor creditor) = None ->
  query_fault b (FindDebtsByDebtor debtor) = None ->
  exists d,
    debts (fst run) = debts st ++ [d]
    /\ In d (List.map fst (DebtListing.data (snd owedToMe)))
    /\ In d (List.map fst (DebtListing.data (snd owedByMe)))
    /\ fst owedToMe = fst run
    /\ fst owedByMe = fst run.
Proof.
  cbn zeta. intros Hok Hdebtor Hq1 Hq2.
  destruct (createManualDebt_cases (world b) now req st)
    as (_ & _ & [[_ Hnot]|(d & Hd & Hc & Hto & _)]); [contradiction|].
  exists d. split; [exact Hd|].
  assert (Hdeb : Debt.debtor d = debtor) by congruence.
  unfold getDebtsOwedToMe, getDebtsOwedByMe, respond, bind, get, query, ret.
  rewrite Hq1, Hq2. cbn [fst snd DebtListing.data].
  rewrite !listed_debts, Hd.
  repeat split.
  - apply filter_In. split; [apply in_or_app; right; left; reflexivity|].
    rewrite Hc. apply String.eqb_refl.
  - apply filter_In. split; [apply in_or_app; right; left; reflexivity|].
    rewrite Hdeb. apply String.eqb_refl.
Qed.

Lemma new_manual_debt_is_listed_witness :
  let st' := fst (createManualDebt Sample.world Sample.now Scene.lunchRequest
                    Sample.empty) in
  exists d,
    In d (List.map fst (DebtListing.data
                          (snd (getDebtsOwedToMe Scene.backend Sample.alice
                                  st'))))
    /\ In d (List.map fst (DebtListing.data
                             (snd (getDebtsOwedByMe Scene.backend Sample.bob
                                     st')))).
Proof.
  cbn zeta.
  destruct (new_manual_debt_is_listed Scene.backend Sample.now
              Scene.lunchRequest Sample.empty Sample.bob eq_refl eq_refl
              eq_refl eq_refl) as (d & _ & H1 & H2 & _).
  exists d. split; [exact H1 | exact H2].
Defined.

Lemma Forall2_same {A} (R : A -> A -> Prop) (l : list A) :
  (forall x, R x x) -> Forall2 R l l.
Proof. intros Hr. induction l; constructor; auto. Qed.

Lemma replaceDebt_stamp (id : Id) (now : Date) (l : list Debt.t) (d : Debt.t) :
  findDebt id l = Some d ->
  Forall2 (fun x x' => x' = x \/ x' = Debt.set_updatedAt now x)
          l (replaceDebt (Debt.set_updatedAt now d) l).
Proof.
  induction l as [|x rest IH]; cbn; [discriminate|].
  destruct (String.eqb_spec (Debt._id x) id) as [Hx|Hx]; intros Hfind.
  - inversion Hfind; subst d. rewrite String.eqb_refl.
    constructor; [right; reflexivity|].
    apply Forall2_same. auto.
  - pose proof (findDebt_id _ _ _ Hfind) as Hid.
    destruct (String.eqb_spec (Debt._id x) (Debt._id d)); [congruence|].
    constructor; [left; reflexivity|]. apply IH. exact Hfind.
Qed.

(** X15.  sendPaymentReminder never changes what is owed: whatever the
    request, every debt stays as it was except that the reminded debt may
    get a new [updatedAt]; and for a paid debt, or for anyone but the
    creditor, it fails and writes nothing at all. *)
Theorem reminder_only_stamps (w : World) (now : Date)
    (req : ReminderRequest.t) (st : Store) :
  let run := sendPaymentReminder w now req st in
  expenses (fst run) = expenses st
  /\ notifications (fst run) = notifications st
  /\ Forall2 (fun d d' => d' = d \/ d' = Debt.set_updatedAt now d)
             (debts st) (debts (fst run))
  /\ forall d,
       findDebt (ReminderRequest.debtId req) (debts st) = Some d ->
       Debt.status d = paid
       \/ Debt.creditor d <> ReminderRequest.user_id req ->
       fst run = st /\ Response.success (snd run) = false.
Proof.
  cbn zeta.
  unfold sendPaymentReminder, Debt_findById, Debt_save.
  walk; cbn [expenses notifications debts];
    (split; [reflexivity|]); (split; [reflexivity|]);
    (split; [first [ apply Forall2_same; auto
                   | eapply replaceDebt_stamp; eassumption ]|]);
    intros d0 Hd0 Hwhy; tidy;
    try (split; reflexivity);
    exfalso;
    match goal with
    | H : Some _ = Some _ |- _ => inversion H; subst
    end;
    destruct Hwhy as [Hpaid|Hne];
    try contradiction;
    match goal with
    | H : DebtStatus_eqb _ paid = false |- _ =>
        rewrite Hpaid in H; cbn in H; discriminate
    end.
Qed.

(** Alice reminds Bob of his pending debt: the answer is 200 and nothing
    but [updatedAt] differs. *)
Example reminder_for_bob :
  let run := sendPaymentReminder Sample.world Sample.now Scene.remindBob
               (Sample.ledger pending) in
  Response.status (snd run) = 200
  /\ Response.message (snd run) = "Payment reminder sent to Bob"
  /\ debts (fst run)
     = [Debt.set_updatedAt Sample.now (Sample.debtWith pending)].
Proof. vm_compute. repeat split; reflexivity. Qed.

(** ** routes/debtRoutes.js: update, settle, mark-paid *)

(** [trim] keeps what is already trimmed, so the [trim] setter of a
    schema leaves a trimmed string as it is. *)
Lemma trimStart_leading (s : string) :
  trimStart s = match leading s with Some r => trimStart r | None => s end.
Proof.
  destruct s as [|c1 r1]; [reflexivity|]. cbn [trimStart leading].
  destruct (is_space c1); [reflexivity|].
  destruct r1 as [|c2 r2]; [reflexivity|].
  destruct (is_space2 c1 c2); [reflexivity|].
  destruct r2 as [|c3 r3]; [reflexivity|].
  destruct (is_space3 c1 c2 c3); reflexivity.
Qed.

Lemma leading_length (s r : string) :
  leading s = Some r -> String.length r < String.length s.
Proof.
  destruct s as [|c1 [|c2 [|c3 r3]]]; cbn [leading];
    repeat match goal with
           | |- context [if ?b then _ else _] => destruct b
           end; intros H; inversion H; subst; cbn; lia.
Qed.

Lemma trimStart_length (s : string) :
  String.length (trimStart s) <= String.length s.
Proof.
  remember (String.length s) as n eqn:Hn.
  assert (Hle : String.length s <= n) by lia. clear Hn.
  revert s Hle. induction n as [|n IH]; intros s Hle.
  - destruct s; [cbn; lia|cbn in Hle; lia].
  - rewrite trimStart_leading. destruct (leading s) as [r|] eqn:Hr; [|lia].
    apply leading_length in Hr. specialize (IH r). lia.
Qed.

Lemma trimStart_idempotent (s : string) : trimStart (trimStart s) = trimStart s.
Proof.
  remember (String.length s) as n eqn:Hn.
  assert (Hle : String.length s <= n) by lia. clear Hn.
  revert s Hle. induction n as [|n IH]; intros s Hle.
  - destruct s; [reflexivity|cbn in Hle; lia].
  - rewrite (trimStart_leading s). destruct (leading s) as [r|] eqn:Hr.
    + apply IH. apply leading_length in Hr. lia.
    + rewrite (trimStart_leading s), Hr. reflexivity.
Qed.

Lemma trimEnd_cons (c : ascii) (s : string) :
  (trimStart (String c s) = EmptyString /\ trimEnd (String c s) = EmptyString)
  \/ (trimStart (String c s) <> EmptyString
      /\ trimEnd (String c s) = String c (trimEnd s)).
Proof.
  cbn [trimEnd]. destruct (trimStart (String c s)); [left|right]; split;
    try reflexivity; discriminate.
Qed.

Lemma trimStart_fixed (s : string) :
  trimStart s = s -> s = EmptyString \/ leading s = None.
Proof.
  intros H. destruct (leading s) as [r|] eqn:Hr; [|right; reflexivity].
  exfalso. rewrite trimStart_leading, Hr in H.
  apply leading_length in Hr. pose proof (trimStart_length r) as Hl.
  rewrite H in Hl. lia.
Qed.

(** A white-space character at the head of what [trimEnd] keeps is one at
    the head of the string. *)
Lemma leading_trimEnd (s r' : string) :
  leading (trimEnd s) = Some r' ->
  exists r, leading s = Some r /\ r' = trimEnd r.
Proof.
  destruct s as [|c1 s1]; [discriminate|].
  destruct (trimEnd_cons c1 s1) as [[_ ->]|[_ ->]]; [discriminate|].
  cbn [leading]. destruct (is_space c1).
  { intros H; inversion H; eauto. }
  destruct s1 as [|c2 s2]; [discriminate|].
  destruct (trimEnd_cons c2 s2) as [[_ ->]|[_ ->]]; [discriminate|].
  destruct (is_space2 c1 c2).
  { intros H; inversion H; eauto. }
  destruct s2 as [|c3 s3]; [discriminate|].
  destruct (trimEnd_cons c3 s3) as [[_ ->]|[_ ->]]; [discriminate|].
  destruct (is_space3 c1 c2 c3); [|discriminate].
  intros H; inversion H; eauto.
Qed.

Lemma leading_trimEnd_none (s : string) :
  leading s = None -> leading (trimEnd s) = None.
Proof.
  destruct s as [|c1 s1]; [reflexivity|].
  destruct (trimEnd_cons c1 s1) as [[_ ->]|[_ ->]]; [reflexivity|].
  cbn [leading]. destruct (is_space c1); [discriminate|].
  destruct s1 as [|c2 s2]; [reflexivity|].
  destruct (trimEnd_cons c2 s2) as [[_ ->]|[_ ->]]; [reflexivity|].
  destruct (is_space2 c1 c2); [discriminate|].
  destruct s2 as [|c3 s3]; [reflexivity|].
  destruct (trimEnd_cons c3 s3) as [[_ ->]|[_ ->]]; [reflexivity|].
  destruct (is_space3 c1 c2 c3); [discriminate|reflexivity].
Qed.

(** What [trimEnd] keeps is white space only if the string is. *)
Lemma trimEnd_blank (s : string) :
  trimStart (trimEnd s) = EmptyString -> trimStart s = EmptyString.
Proof.
  remember (String.length s) as n eqn:Hn.
  assert (Hle : String.length s <= n) by lia. clear Hn.
  revert s Hle. induction n as [|n IH]; intros s Hle.
  - destruct s; [reflexivity|cbn in Hle; lia].
  - destruct s as [|c s']; [reflexivity|].
    destruct (trimEnd_cons c s') as [[H _]|[_ He]]; [intros _; exact H|].
    rewrite trimStart_leading.
    destruct (leading (trimEnd (String c s'))) as [r'|] eqn:Hr.
    + destruct (leading_trimEnd _ _ Hr) as (r & Hlead & ->).
      intros Hblank. rewrite trimStart_leading, Hlead.
      apply IH; [|exact Hblank].
      apply leading_length in Hlead. lia.
    + rewrite He. discriminate.
Qed.

Lemma trimEnd_idempotent (s : string) : trimEnd (trimEnd s) = trimEnd s.
Proof.
  induction s as [|c s' IH]; [reflexivity|].
  destruct (trimEnd_cons c s') as [[_ ->]|[Hne He]]; [reflexivity|].
  rewrite He.
  destruct (trimEnd_cons c (trimEnd s')) as [[Hblank _]|[_ ->]].
  - rewrite <- He in Hblank. apply trimEnd_blank in Hblank. contradiction.
  - rewrite IH. reflexivity.
Qed.

Lemma trimStart_trimEnd (s : string) :
  trimStart s = s -> trimStart (trimEnd s) = trimEnd s.
Proof.
  intros H. apply trimStart_fixed in H. destruct H as [->|H]; [reflexivity|].
  rewrite trimStart_leading, (leading_trimEnd_none _ H). reflexivity.
Qed.

Lemma trim_idempotent (s : string) : trim (trim s) = trim s.
Proof.
  unfold trim.
  rewrite (trimStart_trimEnd _ (trimStart_idempotent s)).
  apply trimEnd_idempotent.
Qed.

Import DebtRouter.

(** X16.  A debt that is no longer pending cannot be edited: for a paid,
    cancelled or disputed debt the update route fails and leaves the store
    as it is, so the amount of a settled debt stays what it was. *)
Theorem update_only_while_pending (w : World) (now : Date)
    (req : UpdateRequest.t) (st : Store) (d : Debt.t) :
  let run := updateDebt w now req st in
  findDebt (UpdateRequest.id req) (debts st) = Some d ->
  Debt.status d <> pending ->
  fst run = st /\ Response.success (snd run) = false.
Proof.
  cbn zeta. intros Hfind Hstatus.
  unfold updateDebt, Debt_findById, populatedId.
  walk; try (split; reflexivity).
  all: exfalso; tidy; inversion Hfind; subst.
  all: destruct (Debt.status d); try contradiction; discriminate.
Qed.

Lemma update_only_while_pending_witness :
  let run := updateDebt Sample.world Sample.now Scene.raiseDebt
               (Sample.ledger paid) in
  fst run = Sample.ledger paid /\ Response.status (snd run) = 400.
Proof.
  cbn zeta.
  destruct (update_only_while_pending Sample.world Sample.now Scene.raiseDebt
              (Sample.ledger paid) (Sample.debtWith paid) eq_refl
              ltac:(discriminate)) as [H _].
  split; [exact H | reflexivity].
Defined.

Lemma parseFloat_positive (a : Number) :
  isNaN (parseFloat (Some a)) || leb (parseFloat (Some a)) (of_Z 0) = false ->
  parseFloat (Some a) = a.
Proof. destruct a as [s| | |s m e]; cbn; try reflexivity; discriminate. Qed.

Lemma updateDebt_run (w : World) (now : Date) (req : UpdateRequest.t)
    (st : Store) (d : Debt.t) :
  let run := updateDebt w now req st in
  let d' := Debt.set_updatedAt now (applyUpdate req d) in
  findDebt (UpdateRequest.id req) (debts st) = Some d ->
  Response.success (snd run) = true ->
  fst run = mkStore (expenses st) (replaceDebt d' (debts st))
                    (notifications st) (generated st)
  /\ Debt.status d = pending
  /\ (exists u, userById w (Debt.creditor d) = Some u
                /\ User._id u = UpdateRequest.user_id req)
  /\ match UpdateRequest.amount req with
     | Some a => parseFloat (Some a) = a
     | None => True
     end
  /\ debtSchema_valid w d' = true.
Proof.
  cbn zeta. intros Hfind.
  unfold updateDebt, Debt_findById, populatedId, Debt_save, readBack,
    Debt_findById.
  walk; cbn [Response.success]; intros Hok; try discriminate.
  all: tidy; inversion Hfind; subst; clear Hfind.
  all: split; [reflexivity|].
  all: split; [destruct (Debt.status d); try discriminate; reflexivity|].
  all: split; [eexists; split; [eassumption|assumption]|].
  all: split; [first [apply parseFloat_positive; assumption|exact I]|].
  all: assumption.
Qed.

Lemma applyUpdate_frame (req : UpdateRequest.t) (d : Debt.t) :
  let d' := applyUpdate req d in
  Debt._id d' = Debt._id d
  /\ Debt.creditor d' = Debt.creditor d
  /\ Debt.debtor d' = Debt.debtor d
  /\ Debt.status d' = Debt.status d
  /\ Debt.type d' = Debt.type d
  /\ Debt.relatedExpenseId d' = Debt.relatedExpenseId d
  /\ Debt.paidAt d' = Debt.paidAt d
  /\ Debt.paymentMethod d' = Debt.paymentMethod d
  /\ Debt.metadata d' = Debt.metadata d
  /\ Debt.createdAt d' = Debt.createdAt d.
Proof.
  unfold applyUpdate.
  destruct (UpdateRequest.amount req), (UpdateRequest.description req),
    (UpdateRequest.dueDate req); cbn; repeat split; reflexivity.
Qed.

(** X17.  A successful update of a debt touches only what the request
    sent.  The stored debt keeps its id, parties, status (pending), type,
    linked split event, payment data, metadata and creation date; the
    amount is the one sent or else the old one, the description is the one
    sent with the white space of JavaScript's [trim] (that of Unicode
    included) stripped at both ends or else the old one, the due date is
    the one sent or else the old one; whichever it is, the stored amount is
    a number of at least 0.01 and the stored description is not empty and
    has a [length] (in UTF-16 code units) of at most 500, since the save
    validates every path again; every other debt, the split events and the
    notifications are as before. *)
Theorem update_changes_only_what_was_sent (w : World) (now : Date)
    (req : UpdateRequest.t) (st : Store) (d : Debt.t) :
  let run := updateDebt w now req st in
  let id := UpdateRequest.id req in
  findDebt id (debts st) = Some d ->
  Response.success (snd run) = true ->
  exists d',
    findDebt id (debts (fst run)) = Some d'
    /\ (forall other, other <> id ->
          findDebt other (debts (fst run)) = findDebt other (debts st))
    /\ expenses (fst run) = expenses st
    /\ notifications (fst run) = notifications st
    /\ Debt._id d' = Debt._id d
    /\ Debt.creditor d' = Debt.creditor d
    /\ Debt.debtor d' = Debt.debtor d
    /\ Debt.status d' = pending
    /\ Debt.status d = pending
    /\ Debt.type d' = Debt.type d
    /\ Debt.relatedExpenseId d' = Debt.relatedExpenseId d
    /\ Debt.paidAt d' = Debt.paidAt d
    /\ Debt.paymentMethod d' = Debt.paymentMethod d
    /\ Debt.metadata d' = Debt.metadata d
    /\ Debt.createdAt d' = Debt.createdAt d
    /\ Debt.updatedAt d' = now
    /\ Debt.amount d' = match UpdateRequest.amount req with
                        | Some a => a
                        | None => Debt.amount d
                        end
    /\ isNaN (Debt.amount d') = false
    /\ geb (Debt.amount d') (of_hundredths false 1) = true
    /\ Debt.description d' = match UpdateRequest.description req with
                             | Some s => trim s
                             | None => Debt.description d
                             end
    /\ Debt.description d' <> EmptyString
    /\ utf16_length (Debt.description d') <= 500
    /\ Debt.dueDate d' = match UpdateRequest.dueDate req with
                         | Some due => due
                         | None => Debt.dueDate d
                         end.
Proof.
  cbn zeta. intros Hfind Hok.
  destruct (updateDebt_run w now req st d Hfind Hok)
    as (Hst & Hpending & _ & Hamount & Hvalid).
  destruct (applyUpdate_frame req d)
    as (Hid & Hc & Hd & Hs & Ht & Hr & Hp & Hm & Hmeta & Hcreated).
  pose proof (findDebt_id _ _ _ Hfind) as Hdid.
  exists (Debt.set_updatedAt now (applyUpdate req d)).
  rewrite Hst. cbn [debts expenses notifications].
  split; [apply (findDebt_replaceDebt _ _ d); [exact Hfind|]|].
  { cbn. congruence. }
  split.
  { intros other Hother. apply findDebt_replaceDebt_other. cbn. congruence. }
  do 2 (split; [reflexivity|]).
  unfold debtSchema_valid in Hvalid.
  repeat (apply andb_prop in Hvalid; destruct Hvalid as [Hvalid ?]).
  cbn [Debt._id Debt.creditor Debt.debtor Debt.status Debt.type
       Debt.relatedExpenseId Debt.paidAt Debt.paymentMethod Debt.metadata
       Debt.createdAt Debt.updatedAt Debt.amount Debt.description
       Debt.dueDate Debt.set_updatedAt] in *.
  do 3 (split; [assumption|]).
  split; [congruence|]. split; [assumption|].
  do 6 (split; [assumption|]).
  split; [reflexivity|].
  split.
  { revert Hamount. unfold applyUpdate.
    destruct (UpdateRequest.amount req) as [a|],
      (UpdateRequest.description req) as [s|],
      (UpdateRequest.dueDate req) as [due|];
      cbn; intros Hamount; first [exact Hamount|reflexivity]. }
  split.
  { match goal with
    | H : negb (isNaN _) = true |- _ => apply negb_true_iff in H; exact H
    end. }
  split; [assumption|].
  split.
  { unfold applyUpdate.
    destruct (UpdateRequest.amount req) as [a|],
      (UpdateRequest.description req) as [s|],
      (UpdateRequest.dueDate req) as [due|];
      cbn; rewrite ?trim_idempotent; reflexivity. }
  split.
  { match goal with
    | H : negb (_ =? "") = true |- _ =>
        apply negb_true_iff in H; apply String.eqb_neq in H; exact H
    end. }
  split.
  { match goal with
    | H : Nat.leb _ 500 = true |- _ => apply Nat.leb_le in H; exact H
    end. }
  unfold applyUpdate.
  destruct (UpdateRequest.amount req) as [a|],
    (UpdateRequest.description req) as [s|],
    (UpdateRequest.dueDate req) as [due|]; reflexivity.
Qed.

Lemma update_changes_only_what_was_sent_witness :
  exists d',
    findDebt Sample.debtId
      (debts (fst (updateDebt Sample.world Sample.later Scene.raiseDebt
                     (Sample.ledger pending)))) = Some d'
    /\ Debt.debtor d' = Sample.bob
    /\ Debt.status d' = pending.
Proof.
  destruct (update_changes_only_what_was_sent Sample.world Sample.later
              Scene.raiseDebt (Sample.ledger pending)
              (Sample.debtWith pending))
    as (d' & Hfound & _ & _ & _ & _ & _ & Hdebtor & Hstatus & _);
    [reflexivity | reflexivity |].
  exists d'. repeat split; assumption.
Defined.

Lemma createDebt_cases (b : Backend) (now : Date)
    (req : CreateRequest.t) (st : Store) :
  let run := createDebt b now req st in
  let user := CreateRequest.user_id req in
  expenses (fst run) = expenses st
  /\ notifications (fst run) = notifications st
  /\ ((debts (fst run) = debts st /\ Response.status (snd run) <> 201)
      \/ exists d friend,
           debts (fst run) = debts st ++ [d]
           /\ (exists key,
                 userById (world b) key = Some friend
                 \/ userByEmail b key = Some friend)
           /\ User._id friend <> user
           /\ Debt.creditor d <> Debt.debtor d
           /\ ((CreateRequest.type req = Some "owe-me"
                /\ Debt.creditor d = user
                /\ Debt.debtor d = User._id friend)
               \/ (CreateRequest.type req = Some "i-owe"
                   /\ Debt.creditor d = User._id friend
                   /\ Debt.debtor d = user))
           /\ Debt.status d = pending
           /\ Debt.type d = manual
           /\ Debt.relatedExpenseId d = None
           /\ Debt.paidAt d = None
           /\ isNaN (Debt.amount d) = false
           /\ geb (Debt.amount d) (of_hundredths false 1) = true).
Proof.
  cbn zeta. unfold createDebt, findFriend, Debt_new, Debt_create, newObjectId,
    readBack, Debt_findById, User_findById, castObjectId.
  walk; cbn [expenses notifications debts Response.status];
    (split; [reflexivity|]); (split; [reflexivity|]);
    try (left; split; [reflexivity|discriminate]).
  all: tidy.
  all: try match goal with
           | H : truthy _ = true |- _ => cbn in H; discriminate H
           end.
  all: match goal with
       | H : User._id ?f <> _ |- _ =>
           right; eexists; exists f; split; [reflexivity|];
           split; [eexists; first [left; eassumption|right; eassumption]|];
           split; [exact H|]
       end.
  all: cbn [Debt.creditor Debt.debtor Debt.status Debt.type
            Debt.relatedExpenseId Debt.paidAt Debt.amount
            Debt.set_updatedAt idOf].
  all: split; [congruence|].
  all: match goal with
       | H : debtSchema_valid _ _ = true |- _ =>
           unfold debtSchema_valid in H;
           cbn [Debt.creditor Debt.debtor Debt.amount Debt.description
                Debt.set_updatedAt] in H;
           repeat (apply andb_true_iff in H; destruct H as [H ?])
       end.
  all: match goal with
       | H : negb (isNaN _) = true |- _ => apply negb_true_iff in H
       end.
  all: split; [|repeat split; assumption].
  all: match goal with
       | H : ?s = "owe-me" |- _ => left; rewrite H; repeat split
       | H : ?s <> "owe-me", M : mem ?s _ = true |- _ =>
           right; unfold mem in M; cbn in M;
           destruct (String.eqb_spec s "owe-me"); [contradiction|];
           destruct (String.eqb_spec s "i-owe"); [|discriminate];
           subst; repeat split
       end.
Qed.

(** X18.  The route that creates a debt never stores a debt of a user with
    themselves.  It stores at most one debt; the stored debt is between the
    requester and a different user, found by id or by address, owed to the
    requester for the type owe-me and by the requester for the type i-owe;
    it is pending, manual, unpaid, linked to no split event, with an
    amount that is a number of at least 0.01.  An answer 201 means it was
    stored. *)
Theorem route_debt_is_with_someone_else (b : Backend) (now : Date)
    (req : CreateRequest.t) (st : Store) :
  let run := createDebt b now req st in
  let user := CreateRequest.user_id req in
  expenses (fst run) = expenses st
  /\ notifications (fst run) = notifications st
  /\ ((debts (fst run) = debts st /\ Response.status (snd run) <> 201)
      \/ exists d friend,
           debts (fst run) = debts st ++ [d]
           /\ (exists key,
                 userById (world b) key = Some friend
                 \/ userByEmail b key = Some friend)
           /\ User._id friend <> user
           /\ Debt.creditor d <> Debt.debtor d
           /\ ((CreateRequest.type req = Some "owe-me"
                /\ Debt.creditor d = user
                /\ Debt.debtor d = User._id friend)
               \/ (CreateRequest.type req = Some "i-owe"
                   /\ Debt.creditor d = User._id friend
                   /\ Debt.debtor d = user))
           /\ Debt.status d = pending
           /\ Debt.type d = manual
           /\ Debt.relatedExpenseId d = None
           /\ Debt.paidAt d = None
           /\ isNaN (Debt.amount d) = false
           /\ geb (Debt.amount d) (of_hundredths false 1) = true).
Proof. exact (createDebt_cases b now req st). Qed.

(** Alice records by Bob's address, written with capitals and blanks, that
    he owes her 12. *)
Example debt_by_address :
  let run := createDebt Scene.backend Sample.now Scene.oweMeRequest
               Sample.empty in
  Response.status (snd run) = 201
  /\ List.map (fun d => (Debt.creditor d, Debt.debtor d)) (debts (fst run))
     = [(Sample.alice, Sample.bob)].
Proof. vm_compute. split; reflexivity. Qed.

(** ** debtRoutes.js: settle and mark-paid *)

Lemma settleDebt_run (w : World) (now : Date) (req : SettleRequest.t)
    (st : Store) (d : Debt.t) :
  let run := settleDebt w now req st in
  let d' := Debt.set_updatedAt now
              (Debt.set_paidAt (Some now) (Debt.set_status paid d)) in
  findDebt (SettleRequest.id req) (debts st) = Some d ->
  Response.success (snd run) = true ->
  fst run = mkStore (expenses st) (replaceDebt d' (debts st))
                    (notifications st) (generated st)
  /\ Debt.status d <> paid
  /\ exists u, userById w (Debt.creditor d) = Some u
               /\ User._id u = SettleRequest.user_id req.
Proof.
  cbn zeta. intros Hfind.
  unfold settleDebt, Debt_findById, populatedId, Debt_save, readBack,
    Debt_findById.
  walk; cbn [Response.success]; intros Hok; try discriminate.
  all: tidy; inversion Hfind; subst; clear Hfind.
  all: split; [reflexivity|].
  all: split; [intros Hpaid;
               match goal with
               | H : DebtStatus_eqb _ paid = false |- _ =>
                   rewrite Hpaid in H; discriminate H
               end|].
  all: eexists; split; [eassumption|assumption].
Qed.

(** X19.  Settling is the creditor's: when the settle route succeeds, the
    requester is the user the debt is owed to and the debt was not yet
    paid; afterwards it is paid, with the time of the request as payment
    date, and its parties, amount, description, payment method and link
    to a split event are as before.  Every other debt, the split events
    and the notifications are untouched. *)
Theorem settle_is_the_creditors (w : World) (now : Date)
    (req : SettleRequest.t) (st : Store) (d : Debt.t) :
  let run := settleDebt w now req st in
  let id := SettleRequest.id req in
  findDebt id (debts st) = Some d ->
  Response.success (snd run) = true ->
  (exists u, userById w (Debt.creditor d) = Some u
             /\ User._id u = SettleRequest.user_id req)
  /\ Debt.status d <> paid
  /\ (exists d',
        findDebt id (debts (fst run)) = Some d'
        /\ Debt.status d' = paid
        /\ Debt.paidAt d' = Some now
        /\ Debt.updatedAt d' = now
        /\ Debt.creditor d' = Debt.creditor d
        /\ Debt.debtor d' = Debt.debtor d
        /\ Debt.amount d' = Debt.amount d
        /\ Debt.description d' = Debt.description d
        /\ Debt.paymentMethod d' = Debt.paymentMethod d
        /\ Debt.relatedExpenseId d' = Debt.relatedExpenseId d)
  /\ (forall other, other <> id ->
        findDebt other (debts (fst run)) = findDebt other (debts st))
  /\ expenses (fst run) = expenses st
  /\ notifications (fst run) = notifications st.
Proof.
  cbn zeta. intros Hfind Hok.
  destruct (settleDebt_run w now req st d Hfind Hok) as (Hst & Hpaid & Hu).
  pose proof (findDebt_id _ _ _ Hfind) as Hid.
  rewrite Hst. cbn [debts expenses notifications].
  split; [exact Hu|]. split; [exact Hpaid|].
  split.
  { eexists. split; [apply (findDebt_replaceDebt _ _ d); [exact Hfind|]|].
    - cbn. exact Hid.
    - cbn. repeat split; reflexivity. }
  split; [|split; reflexivity].
  intros other Hother. apply findDebt_replaceDebt_other. cbn. congruence.
Qed.

Lemma settle_is_the_creditors_witness :
  exists d',
    findDebt Sample.debtId
      (debts (fst (settleDebt Sample.world Sample.later Scene.settleByAlice
                     (Sample.ledger pending)))) = Some d'
    /\ Debt.status d' = paid
    /\ Debt.paidAt d' = Some Sample.later.
Proof.
  destruct (settle_is_the_creditors Sample.world Sample.later
              Scene.settleByAlice (Sample.ledger pending)
              (Sample.debtWith pending))
    as (_ & _ & (d' & Hfound & Hstatus & Hpaid & _) & _);
    [reflexivity | reflexivity |].
  exists d'. split; [exact Hfound|]. split; [exact Hstatus|exact Hpaid].
Defined.



(** ** debtRoutes.js: cancel and the overview *)

Lemma replaceDebt_unique (l : list Debt.t) (d' x : Debt.t) :
  NoDup (List.map Debt._id l) ->
  In x (replaceDebt d' l) -> Debt._id x = Debt._id d' -> x = d'.
Proof.
  induction l as [|y rest IH]; cbn; [contradiction|].
  intros Hnodup Hin Hid. inversion Hnodup as [|? ? Hnot Hrest]; subst.
  destruct (String.eqb_spec (Debt._id y) (Debt._id d')) as [Hy|Hy].
  - destruct Hin as [Hx|Hx]; [symmetry; exact Hx|].
    exfalso. apply Hnot. rewrite Hy, <- Hid. apply in_map. exact Hx.
  - destruct Hin as [Hx|Hx].
    + subst. contradiction.
    + apply IH; assumption.
Qed.

Lemma cancelDebt_run (w : World) (now : Date)
    (req : DebtRoutes.CancelRequest.t) (st : Store) :
  let run := DebtRoutes.cancelDebt w now req st in
  Response.success (snd run) = true ->
  exists d u,
    findDebt (DebtRoutes.CancelRequest.id req) (debts st) = Some d
    /\ userById w (Debt.creditor d) = Some u
    /\ User._id u = DebtRoutes.CancelRequest.user_id req
    /\ fst run
       = mkStore (expenses st)
           (replaceDebt (Debt.set_updatedAt now (Debt.set_status cancelled d))
              (debts st))
           (notifications st) (generated st).
Proof.
  cbn zeta. unfold DebtRoutes.cancelDebt, Debt_findById, Debt_save.
  walk; cbn [Response.success]; intros Hok; try discriminate.
  tidy. eexists. eexists.
  split; [reflexivity|]. split; [eassumption|]. split; [assumption|].
  reflexivity.
Qed.

(** X21.  A cancelled debt leaves the overview.  In a store whose debts
    have distinct ids, after the cancel route succeeded the debt is in
    neither list of the overview of any user. *)
Theorem cancelled_debt_leaves_the_overview (b : Backend) (now : Date)
    (req : DebtRoutes.CancelRequest.t) (st : Store) (user : Id)
    (o : Overview.t) :
  let run := DebtRoutes.cancelDebt (world b) now req st in
  NoDup (List.map Debt._id (debts st)) ->
  Response.success (snd run) = true ->
  snd (overview b user (fst run)) = Some o ->
  forall x,
    In x (List.map fst (Overview.debtsOwedToMe o)
          ++ List.map fst (Overview.debtsOwedByMe o)) ->
    Debt._id x <> DebtRoutes.CancelRequest.id req.
Proof.
  cbn zeta. intros Hnodup Hok.
  destruct (cancelDebt_run (world b) now req st Hok)
    as (d & u & Hfind & _ & _ & Hst).
  rewrite Hst. clear Hst Hok.
  pose proof (findDebt_id _ _ _ Hfind) as Hid.
  set (d' := Debt.set_updatedAt now (Debt.set_status cancelled d)).
  assert (Hgone : forall (x : Debt.t) (f : Debt.t -> bool),
            In x (filter (fun y => f y && negb (hasStatus cancelled y))
                         (replaceDebt d' (debts st))) ->
            Debt._id x <> DebtRoutes.CancelRequest.id req).
  { intros x f Hin Hx. apply filter_In in Hin. destruct Hin as [Hin Hkeep].
    assert (x = d') as ->.
    { apply (replaceDebt_unique (debts st)); [assumption..|].
      rewrite Hx. symmetry. exact Hid. }
    apply andb_prop in Hkeep. destruct Hkeep as [_ Hkeep].
    discriminate Hkeep. }
  unfold overview, respond, bind, get, query, ret, throw.
  destruct (query_fault b (FindDebtsByCreditor user)); [discriminate|].
  destruct (query_fault b (FindDebtsByDebtor user)); [discriminate|].
  cbn [fst snd debts]. intros Ho. inversion Ho; subst; clear Ho.
  cbn [Overview.debtsOwedToMe Overview.debtsOwedByMe]. rewrite !listed_debts.
  intros x Hin. apply in_app_or in Hin.
  destruct Hin as [Hin|Hin]; exact (Hgone _ _ Hin).
Qed.

Lemma cancelled_debt_leaves_the_overview_witness :
  exists o,
    snd (overview Scene.backend Sample.bob
           (fst (DebtRoutes.cancelDebt Sample.world Sample.later
                   Scene.cancelByAlice (Sample.ledger pending)))) = Some o
    /\ forall x,
         In x (List.map fst (Overview.debtsOwedToMe o)
               ++ List.map fst (Overview.debtsOwedByMe o)) ->
         Debt._id x <> Sample.debtId.
Proof.
  eexists. split; [reflexivity|].
  apply (cancelled_debt_leaves_the_overview Scene.backend Sample.later
           Scene.cancelByAlice (Sample.ledger pending) Sample.bob).
  - cbn. constructor; [intros []|constructor].
  - reflexivity.
  - reflexivity.
Defined.

(** ** splitExpenseRoutes.js: delete *)

Lemma findExpense_none (id : Id) (l : list SplitExpense.t) :
  ~ In id (List.map SplitExpense._id l) -> findExpense id l = None.
Proof.
  induction l as [|x rest IH]; cbn; [reflexivity|].
  intros Hnot. destruct (String.eqb_spec (SplitExpense._id x) id) as [Hx|Hx].
  - exfalso. apply Hnot. left. exact Hx.
  - apply IH. intros Hin. apply Hnot. right. exact Hin.
Qed.

Lemma findExpense_removeExpense (id : Id) (l : list SplitExpense.t) :
  NoDup (List.map SplitExpense._id l) ->
  findExpense id (removeExpense id l) = None.
Proof.
  induction l as [|x rest IH]; cbn; [reflexivity|].
  intros Hnodup. inversion Hnodup as [|? ? Hnot Hrest]; subst.
  destruct (String.eqb_spec (SplitExpense._id x) id) as [Hx|Hx].
  - apply findExpense_none. rewrite <- Hx. exact Hnot.
  - cbn. destruct (String.eqb_spec (SplitExpense._id x) id); [contradiction|].
    apply IH. exact Hrest.
Qed.

Lemma deleteExpense_run (b : Backend)
    (req : SplitExpenseRoutes.DeleteRequest.t) (st : Store) :
  let run := SplitExpenseRoutes.deleteExpense b req st in
  let id := SplitExpenseRoutes.DeleteRequest.expenseId req in
  (fst run = st /\ Response.success (snd run) = false)
  \/ exists e,
       findExpense id (expenses st) = Some e
       /\ ((SplitExpense.createdBy e
            =? SplitExpenseRoutes.DeleteRequest.user_id req)
           || (SplitExpense.paidBy e
               =? SplitExpenseRoutes.DeleteRequest.user_id req)) = true
       /\ fst run = mkStore (removeExpense id (expenses st)) (debts st)
                      (notifications st) (generated st)
       /\ Response.success (snd run) = true.
Proof.
  cbn zeta. unfold SplitExpenseRoutes.deleteExpense, SplitExpense_findById.
  walk; try (left; split; reflexivity).
  tidy. right. eexists.
  split; [reflexivity|]. split; [assumption|]. split; reflexivity.
Qed.

Lemma status_update_of_missing_event (w : World) (now : Date)
    (req : UpdateStatusRequest.t) (st : Store) :
  let run := updateSplitExpenseStatus w now req st in
  findExpense (UpdateStatusRequest.expenseId req) (expenses st) = None ->
  fst run = st /\ Response.success (snd run) = false.
Proof.
  cbn zeta. intros Hnone.
  unfold updateSplitExpenseStatus, SplitExpense_findById.
  walk; try (split; reflexivity).
  all: congruence.
Qed.

(** X22.  Deleting a split event leaves its debts behind.  The delete
    route never touches a debt or a notification, whatever it answers;
    and once it succeeded, in a store whose split events have distinct
    ids, a later status update for that event fails and changes nothing,
    so the debts linked to it can no longer be settled or cancelled
    through the event. *)
Theorem deleted_event_leaves_its_debts (b : Backend) (now : Date)
    (del : SplitExpenseRoutes.DeleteRequest.t)
    (upd : UpdateStatusRequest.t) (st : Store) :
  let run := SplitExpenseRoutes.deleteExpense b del st in
  let later := updateSplitExpenseStatus (world b) now upd (fst run) in
  debts (fst run) = debts st
  /\ notifications (fst run) = notifications st
  /\ (NoDup (List.map SplitExpense._id (expenses st)) ->
      Response.success (snd run) = true ->
      UpdateStatusRequest.expenseId upd
      = SplitExpenseRoutes.DeleteRequest.expenseId del ->
      fst later = fst run
      /\ Response.success (snd later) = false
      /\ debts (fst later) = debts st).
Proof.
  cbn zeta.
  destruct (deleteExpense_run b del st)
    as [(Hst & Hfail)|(e & Hfind & Hperm & Hst & Hok)].
  - rewrite Hst. split; [reflexivity|]. split; [reflexivity|].
    intros _ Hok. rewrite Hfail in Hok. discriminate.
  - rewrite Hst. cbn [debts notifications].
    split; [reflexivity|]. split; [reflexivity|].
    intros Hnodup _ Hid.
    destruct (status_update_of_missing_event (world b) now upd
                (mkStore (removeExpense
                            (SplitExpenseRoutes.DeleteRequest.expenseId del)
                            (expenses st))
                         (debts st) (notifications st) (generated st)))
      as (Hsame & Hfailed).
    { cbn [expenses]. rewrite Hid.
      apply findExpense_removeExpense. exact Hnodup. }
    split; [exact Hsame|]. split; [exact Hfailed|].
    rewrite Hsame. reflexivity.
Qed.

(** Alice deletes the dinner; its two pending debts stay pending, and the
    dinner can no longer be settled. *)
Example dinner_deleted :
  let run := SplitExpenseRoutes.deleteExpense Scene.backend Scene.deleteDinner
               Sample.dinnerLedger in
  let later := updateSplitExpenseStatus Sample.world Sample.later
                 Sample.settleDinner (fst run) in
  Response.status (snd run) = 200
  /\ expenses (fst run) = []
  /\ debts (fst run) = debts Sample.dinnerLedger
  /\ Response.status (snd later) = 404
  /\ countLinked Sample.dinnerId pending (debts (fst later)) = 2.
Proof. vm_compute. repeat split; reflexivity. Qed.

Lemma deleted_event_leaves_its_debts_witness :
  Response.success
    (snd (updateSplitExpenseStatus Sample.world Sample.later
            Sample.settleDinner
            (fst (SplitExpenseRoutes.deleteExpense Scene.backend
                    Scene.deleteDinner Sample.dinnerLedger)))) = false.
Proof.
  destruct (deleted_event_leaves_its_debts Scene.backend Sample.later
              Scene.deleteDinner Sample.settleDinner Sample.dinnerLedger)
    as (_ & _ & Hlater).
  apply Hlater; [|reflexivity|reflexivity].
  cbn. constructor; [intros []|constructor].
Defined.

(** ** models/Debt.js: the balance between two users *)

Import DebtModel.

Lemma pendingBetween_pending (u1 u2 : Id) (d : Debt.t) :
  Debt.status d <> pending -> pendingBetween u1 u2 d = false.
Proof.
  intros Hstatus. unfold pendingBetween.
  destruct (Debt.status d); try contradiction; cbn;
    rewrite !andb_false_r; reflexivity.
Qed.

Lemma counted_after_replace (u1 u2 : Id) (d' : Debt.t) (l : list Debt.t) :
  Debt.status d' <> pending ->
  filter (pendingBetween u1 u2) (replaceDebt d' l)
  = filter (pendingBetween u1 u2) (removeDebt (Debt._id d') l).
Proof.
  intros Hstatus. induction l as [|x rest IH]; cbn; [reflexivity|].
  destruct (Debt._id x =? Debt._id d'); cbn.
  - rewrite (pendingBetween_pending u1 u2 d' Hstatus). reflexivity.
  - rewrite IH. reflexivity.
Qed.

(** X23.  A debt marked paid no longer counts: after markDebtAsPaid
    succeeded, the balance between any two users is the balance of the
    store with that debt removed. *)
Theorem paid_debt_leaves_the_balance (b : Backend) (now : Date)
    (req : MarkPaidRequest.t) (st : Store) (user1 user2 : Id) :
  let run := markDebtAsPaid (world b) now req st in
  Response.success (snd run) = true ->
  snd (getBalanceBetweenUsers b user1 user2 (fst run))
  = snd (getBalanceBetweenUsers b user1 user2
           (mkStore (expenses st)
                    (removeDebt (MarkPaidRequest.debtId req) (debts st))
                    (notifications st) (generated st))).
Proof.
  cbn zeta. intros Hok.
  destruct (markDebtAsPaid_run (world b) now req st)
    as [(_ & Hfail)
       |(d & _ & Hfind & _ & _ & _ & _ & Hst & _)].
  { rewrite Hfail in Hok. discriminate. }
  rewrite Hst. clear Hst Hok.
  unfold getBalanceBetweenUsers, bind, get, query, ret, throw.
  cbn [fst snd debts].
  destruct (query_fault b (FindDebtsBetween user1 user2)); [reflexivity|].
  cbn [snd].
  rewrite counted_after_replace.
  - replace (Debt._id (markedPaid now (MarkPaidRequest.paymentMethod req) d))
      with (MarkPaidRequest.debtId req); [reflexivity|].
    unfold markedPaid.
    destruct (truthy (MarkPaidRequest.paymentMethod req)); cbn;
      symmetry; exact (findDebt_id _ _ _ Hfind).
  - unfold markedPaid.
    destruct (truthy (MarkPaidRequest.paymentMethod req)); cbn; discriminate.
Qed.

Lemma paid_debt_leaves_the_balance_witness :
  snd (getBalanceBetweenUsers Scene.backend Sample.alice Sample.bob
         (fst (markDebtAsPaid Sample.world Sample.later Sample.bobPays
                 (Sample.ledger pending))))
  = Return (report (of_Z 0)).
Proof.
  etransitivity;
    [apply (paid_debt_leaves_the_balance Scene.backend Sample.later
              Sample.bobPays (Sample.ledger pending) Sample.alice Sample.bob);
     reflexivity
    |reflexivity].
Defined.

(** X24.  The balance is reported on one side only: of the two amounts
    "owed to user 1" and "owed by user 1" at most one differs from zero,
    neither is negative, and the one that differs from zero is the size
    of the balance. *)
Theorem balance_is_one_sided (b : Backend) (user1 user2 : Id) (st : Store)
    (r : Balance) :
  snd (getBalanceBetweenUsers b user1 user2 st) = Return r ->
  (owedToUser1 r = of_Z 0 \/ owedByUser1 r = of_Z 0)
  /\ ltb (owedToUser1 r) (of_Z 0) = false
  /\ ltb (owedByUser1 r) (of_Z 0) = false
  /\ (owedToUser1 r = of_Z 0 \/ owedToUser1 r = balance r)
  /\ (owedByUser1 r = of_Z 0 \/ owedByUser1 r = abs (balance r)).
Proof.
  unfold getBalanceBetweenUsers, bind, get, query, ret, throw.
  destruct (query_fault b (FindDebtsBetween user1 user2)); cbn [snd fst];
    [discriminate|].
  intros Hr. inversion Hr; subst; clear Hr.
  generalize (balanceOf user1 (filter (pendingBetween user1 user2) (debts st))).
  intros x. unfold report. cbn [owedToUser1 owedByUser1 balance].
  destruct x as [s|s| |s m e]; try destruct s; cbn;
    repeat split; auto.
Qed.

Lemma balance_is_one_sided_witness :
  owedByUser1 (report (sub (of_Z 0) (of_Z 30))) = of_Z 0
  \/ owedToUser1 (report (sub (of_Z 0) (of_Z 30))) = of_Z 0.
Proof.
  destruct (balance_is_one_sided Scene.backend Sample.bob Sample.alice
              (Sample.ledger pending) (report (sub (of_Z 0) (of_Z 30))))
    as ([H|H] & _); [reflexivity|right; exact H|left; exact H].
Defined.
